(** * currency: a read-through cache in front of the CBR exchange-rate service

    Shallow embedding of the three [package main] programs of the repository:

    - [Json]  (src/main.go): JSON endpoint, bbolt cache storing [currencyData];
    - [Xml]   (src/unnamed/part_000, first program): XML daily bulletin,
              bbolt cache storing the rendered row, in-memory map
              [currenciesRate];
    - [Plain] (src/unnamed/part_000, second program): JSON endpoint, no cache.

    Go strings are byte strings ([string]); [int]/[int64] are [Z]; [float64]
    is the kernel's binary64 [float]; Go maps and bbolt buckets are [gmap]s.
    A Go call returning [(v, err)] or panicking is a [result]. *)

From Stdlib Require Import ZArith String Ascii List Lia PrimFloat FloatOps SpecFloat.
From stdpp Require Import base option list gmap strings.

Local Open Scope string_scope.
Local Open Scope Z_scope.

(** ** Results of Go calls *)

(** A Go [error] value is observed through its message. *)
Definition error : Type := string.

Inductive result (A : Type) : Type :=
| Ok (a : A)          (* returned normally, err == nil *)
| Err (e : error)     (* returned with err != nil *)
| Panic (v : string). (* did not return: run-time panic *)
Arguments Ok {A} a.
Arguments Err {A} e.
Arguments Panic {A} v.

Definition is_Ok {A} (r : result A) : bool :=
  match r with Ok _ => true | _ => false end.

(** ** Decimal formatting ([time.appendInt], [fmt] verb d) *)

Definition digit_char (d : Z) : ascii := ascii_of_N (48 + Z.to_N d).

(** The digit loop of [appendInt]: least significant digit first, written
    from the end of the buffer. [fuel] bounds the number of iterations. *)
Fixpoint utoa_go (fuel : nat) (u : Z) (acc : string) : string :=
  match fuel with
  | O => String (digit_char (u mod 10)) acc
  | S f =>
      if u <? 10 then String (digit_char u) acc
      else utoa_go f (u / 10) (String (digit_char (u mod 10)) acc)
  end.

Definition utoa (u : Z) : string := utoa_go (Z.to_nat (Z.log2 u)) u "".

Fixpoint zeros (n : nat) : string :=
  match n with O => "" | S k => String "0" (zeros k) end.

(** [appendInt(b, x, width)]: sign, zero padding up to [width], digits. *)
Definition appendInt (x : Z) (width : nat) : string :=
  let u := Z.abs x in
  let ds := utoa u in
  (if x <? 0 then "-" else "") +:+ zeros (width - String.length ds) +:+ ds.

(** [fmt.Sprintf] with verb d on an integer. *)
Definition itoa (x : Z) : string := appendInt x 0.

(** ** [time.Time], as far as the programs observe it *)

Record Time : Type := mkTime {
  Year : Z;     (* t.Year() *)
  Month : Z;    (* int(t.Month()), 1..12 *)
  Day : Z;      (* t.Day(), 1..31 *)
  Unix : Z      (* t.Unix() *)
}.

(** [t.Format(outputDateFormat)] with [outputDateFormat = "02.01.2006"]. *)
Definition Format_output (t : Time) : string :=
  appendInt (Day t) 2 +:+ "." +:+ appendInt (Month t) 2 +:+ "." +:+ appendInt (Year t) 4.

(** [t.Format(xmlDateFormat)] with [xmlDateFormat = "02/01/2006"]. *)
Definition Format_xml (t : Time) : string :=
  appendInt (Day t) 2 +:+ "/" +:+ appendInt (Month t) 2 +:+ "/" +:+ appendInt (Year t) 4.

(** [var cacheKey = fmt.Sprintf("%s-%s", t.Format(outputDateFormat), name)]
    (main.go:130, part_000:149). *)
Definition cacheKey (t : Time) (name : string) : string :=
  Format_output t +:+ "-" +:+ name.

(** ** [strings] *)

Fixpoint map_bytes (f : ascii -> ascii) (s : string) : string :=
  match s with
  | EmptyString => EmptyString
  | String c s' => String (f c) (map_bytes f s')
  end.

Fixpoint all_bytes (p : ascii -> bool) (s : string) : bool :=
  match s with
  | EmptyString => true
  | String c s' => p c && all_bytes p s'
  end.

(** [c < utf8.RuneSelf] *)
Definition is_ascii_byte (c : ascii) : bool := (N_of_ascii c <? 128)%N.

Definition lower_byte (c : ascii) : ascii :=
  let n := N_of_ascii c in
  if ((65 <=? n) && (n <=? 90))%N then ascii_of_N (n + 32) else c.

Definition upper_byte (c : ascii) : ascii :=
  let n := N_of_ascii c in
  if ((97 <=? n) && (n <=? 122))%N then ascii_of_N (n - 32) else c.

(** [strings.Replace(s, ",", ".", -1)]: every comma becomes a dot. *)
Definition Replace_comma_dot (s : string) : string :=
  map_bytes (fun c => if Ascii.eqb c "," then "."%char else c) s.

(** [strings.Split(s, ",")]: the pieces between commas; never empty. *)
Fixpoint Split_comma (s : string) : list string :=
  match s with
  | EmptyString => [EmptyString]
  | String c s' =>
      if Ascii.eqb c "," then EmptyString :: Split_comma s'
      else match Split_comma s' with
           | h :: tl => String c h :: tl
           | [] => [String c EmptyString]
           end
  end.

(** ** Library functions the programs call

    [strings.ToLower]/[ToUpper] take a byte-wise path on ASCII-only input
    and map [unicode.ToLower]/[ToUpper] over the runes otherwise; the
    latter, [http.NewRequest]'s validation of the URL, the rendering of a
    [float64] under the verb [%.2f] and the parsing of one are left to the
    library: the theorems hold whatever these functions return. *)
Class GoLibs : Type := {
  unicode_ToLower : string -> string;
  unicode_ToUpper : string -> string;
  (* the error of [http.NewRequest("GET", url, nil)], if any *)
  http_NewRequest : string -> option error;
  (* [fmt.Sprintf("%.2f", x)] *)
  Sprintf_2f : float -> string;
  (* [strconv.ParseFloat(s, 64)] *)
  ParseFloat : string -> result float;
}.

Section Strings.
Context {G : GoLibs}.

Definition ToLower (s : string) : string :=
  if all_bytes is_ascii_byte s then map_bytes lower_byte s else unicode_ToLower s.

Definition ToUpper (s : string) : string :=
  if all_bytes is_ascii_byte s then map_bytes upper_byte s else unicode_ToUpper s.
End Strings.

(** [float64(n)] for an [int64] [n]: the nearest binary64, ties to even. *)
Definition float64_of_int (n : Z) : float :=
  SF2Prim (binary_normalize prec emax n 0 false).

#[global] Instance result_ret : MRet result := fun _ a => Ok a.
#[global] Instance result_bind : MBind result := fun _ _ k r =>
  match r with
  | Ok a => k a
  | Err e => Err e
  | Panic v => Panic v
  end.

(** ** [net/http], as far as the programs observe it *)

(** [res.Body]: what [io.ReadAll] returns on it. *)
Record Reader : Type := mkReader {
  content : string;
  read_err : option error
}.

Definition ReadAll (b : Reader) : result string :=
  match read_err b with
  | Some e => Err e
  | None => Ok (content b)
  end.

Record Response : Type := mkResponse {
  StatusCode : Z;
  Status : string;
  Body : option Reader      (* [None]: [res.Body == nil] *)
}.

Definition StatusOK : Z := 200.

(** The remote service as seen through [httpClient]: the outcome of the
    [n]-th request of the run, sent to [url]. *)
Definition Client : Type := nat -> string -> result Response.

(** ** Package-level state besides the cache file *)

Record mem : Type := mkMem {
  (* [var currenciesRate = map[string][]string{}] (part_000:42) *)
  currenciesRate : gmap string (list string);
  (* the URLs of the requests handed to [httpClient] so far *)
  requests : list string
}.

Definition send (url : string) (m : mem) : mem :=
  {| currenciesRate := currenciesRate m; requests := (requests m ++ [url])%list |}.

(** ** [go.etcd.io/bbolt]

    The committed contents of the cache file are a map from bucket names to
    buckets; a read-write transaction works on a private copy that replaces
    the committed state on [Commit] and is dropped on [Rollback]. Each call
    may fail for reasons of the storage layer. *)
Module bolt.

Abbreviation Bucket := (gmap string string).
Abbreviation DB := (gmap string (gmap string string)).

Record faults : Type := mkFaults {
  Begin_err : option error;
  CreateBucket_err : option error;
  Put_err : option error;
  Commit_err : option error
}.

Definition no_faults : faults := mkFaults None None None None.

Definition fail_or {A} (f : option error) (a : A) : result A :=
  match f with Some e => Err e | None => Ok a end.

(** [db.Begin(true)] *)
Definition Begin (flt : faults) (db : DB) : result DB :=
  fail_or (Begin_err flt) db.

(** [tx.CreateBucketIfNotExists(name)] *)
Definition CreateBucketIfNotExists (flt : faults) (tx : DB) (name : string) : result DB :=
  fail_or (CreateBucket_err flt)
    (match tx !! name with
     | Some _ => tx
     | None => <[name := ∅]> tx
     end).

(** [b.Get(key)] on the bucket [name] of the transaction; [None] is Go's
    [nil] slice. *)
Definition Get (tx : DB) (name key : string) : option string :=
  tx !! name ≫= fun b => b !! key.

(** [b.Put(key, val)] *)
Definition Put (flt : faults) (tx : DB) (name key val : string) : result DB :=
  fail_or (Put_err flt)
    (<[name := <[key := val]> (default ∅ (tx !! name))]> tx).

(** [tx.Commit()]: the new committed state. *)
Definition Commit (flt : faults) (tx : DB) : result DB :=
  fail_or (Commit_err flt) tx.

End bolt.

(** The cache file together with the package-level state. *)
Record world : Type := mkWorld {
  cacheStorage : bolt.DB;
  memory : mem
}.

(** ** The cache manager

    [getCurrencyItemCache] of main.go:129-186 and of part_000:148-204 are
    the same text up to the provider they call ([getCurrencyItem],
    [getCurrencyRate]) and the type of the value they cache
    ([currencyData], [[]string]). *)
Section CacheManager.
Context {R : Type}.
(** the provider call at the label [skipCache] *)
Variable provider : string -> Time -> mem -> result R * mem.
(** [json.Marshal(r)] and [json.Unmarshal(val, &r)] at type [R] *)
Variable json_Marshal : R -> result string.
Variable json_Unmarshal : string -> result R.

(** The block at the label [skipCache]: fetch, encode, put, commit. It
    yields the value and the committed state. *)
Definition skipCache_block (flt : bolt.faults) (tx : bolt.DB)
    (cacheKey name : string) (t : Time) (m : mem) : result (R * bolt.DB) * mem :=
  let '(fetched, m') := provider name t m in
  (r ← fetched;
   val ← json_Marshal r;
   tx' ← bolt.Put flt tx "cache" cacheKey val;
   db' ← bolt.Commit flt tx';
   mret (r, db'),
   m').

(** The statements between [tx.CreateBucketIfNotExists] and the label. *)
Definition lookup_block (flt : bolt.faults) (tx : bolt.DB)
    (cacheKey name : string) (t : Time) (skipCache : bool) (m : mem)
    : result (R * option bolt.DB) * mem :=
  let fill :=
    let '(r, m') := skipCache_block flt tx cacheKey name t m in
    (p ← r; mret (p.1, Some p.2), m') in
  if skipCache then fill
  else match bolt.Get tx "cache" cacheKey with
       | None => fill
       | Some val => (r ← json_Unmarshal val; mret (r, None), m)
       end.

(** [defer tx.Rollback()]: unless [tx.Commit()] succeeded, the committed
    state stays what it was when the transaction began. *)
Definition getCurrencyItemCache (flt : bolt.faults) (name : string) (t : Time)
    (skipCache : bool) (w : world) : result R * world :=
  let cacheKey := cacheKey t name in
  match bolt.Begin flt (cacheStorage w) with
  | Ok tx =>
      match bolt.CreateBucketIfNotExists flt tx "cache" with
      | Ok tx =>
          let '(r, m') := lookup_block flt tx cacheKey name t skipCache (memory w) in
          match r with
          | Ok (r, Some db') => (Ok r, {| cacheStorage := db'; memory := m' |})
          | Ok (r, None) => (Ok r, {| cacheStorage := cacheStorage w; memory := m' |})
          | Err e => (Err e, {| cacheStorage := cacheStorage w; memory := m' |})
          | Panic v => (Panic v, {| cacheStorage := cacheStorage w; memory := m' |})
          end
      | Err e => (Err e, w)
      | Panic v => (Panic v, w)
      end
  | Err e => (Err e, w)
  | Panic v => (Panic v, w)
  end.
End CacheManager.

(** ** Slices *)

(** [l[i]] with Go's bounds check. *)
Definition index {A} (l : list A) (i : Z) : result A :=
  match (if (0 <=? i) then l !! Z.to_nat i else None) with
  | Some a => Ok a
  | None =>
      Panic ("runtime error: index out of range [" +:+ itoa i +:+ "]" +:+
             (if i <? 0 then "" else " with length " +:+ itoa (Z.of_nat (length l))))
  end.

(** ** The environment of one run of a program *)

Record Env : Type := mkEnv {
  MkdirAll_err : option error;        (* [os.MkdirAll(filepath.Dir(cachePath), 0777)] *)
  Open_err : option error;            (* [bolt.Open(cachePath, 0600, nil)] *)
  client : Client;                    (* the remote service *)
  Now : nat -> Time;                  (* the [i]-th call of [time.Now()] *)
  faults_at : nat -> bolt.faults;     (* storage faults of the [i]-th transaction *)
  WriteAll_err : option error         (* [writer.WriteAll(rows)] on [os.Stdout] *)
}.

(** How a run ends. [stdout] is the argument of [writer.WriteAll] when the
    run got that far; [logged] is the argument of [log.Fatal]. *)
Record Exit : Type := mkExit {
  exit_code : Z;
  stdout : option (list (list string));
  logged : option string;
  final : world
}.

(** [log.Fatal(v)]: print, then [os.Exit(1)]. *)
Definition Fatal (v : string) (w : world) : Exit :=
  {| exit_code := 1; stdout := None; logged := Some v; final := w |}.

(** An unrecovered panic ends the process with status 2. *)
Definition crash (w : world) : Exit :=
  {| exit_code := 2; stdout := None; logged := None; final := w |}.

(** [writer.WriteAll(rows)] followed by the end of [main]. *)
Definition write_and_exit (env : Env) (rows : list (list string)) (w : world) : Exit :=
  match WriteAll_err env with
  | Some e => {| exit_code := 1; stdout := Some rows; logged := Some e; final := w |}
  | None => {| exit_code := 0; stdout := Some rows; logged := None; final := w |}
  end.

(** The state a process starts in: the cache file as earlier runs left it,
    [currenciesRate] empty, nothing requested yet. *)
Definition boot (db : bolt.DB) : world :=
  {| cacheStorage := db; memory := {| currenciesRate := ∅; requests := [] |} |}.

(** * Program [Json] (src/main.go) *)
Module Json.

Record currencyInfo : Type := mkInfo {
  code : string;
  div : float
}.

Record currencyData : Type := mkData {
  Name : string;
  DivOn : float;
  Date : string;    (* json:"data" *)
  Curs : float;     (* json:"curs" *)
  Diff : float      (* json:"diff" *)
}.

Definition usdCurrency : string := "usd".
Definition eurCurrency : string := "eur".
Definition uahCurrency : string := "uah".

Definition currenciesInfo : gmap string currencyInfo :=
  <["usd" := {| code := "R01235"; div := 1 |}]>
 (<["eur" := {| code := "R01239"; div := 1 |}]>
 (<["uah" := {| code := "R01720"; div := 10 |}]> ∅)).

Class Libs : Type := {
  (* [json.Unmarshal(body, &data)] with [data []currencyData] *)
  json_Unmarshal_list : string -> result (list currencyData);
  (* [json.Marshal(r)] and [json.Unmarshal(val, &r)] with [r currencyData] *)
  json_Marshal : currencyData -> result string;
  json_Unmarshal : string -> result currencyData;
  (* [time.Parse(urlDateTimeFormat, s)] *)
  time_Parse : string -> result Time
}.

Section Program.
Context {G : GoLibs} {L : Libs}.

(** [fmt.Sprintf(urlTemplate, info.code, t.Unix())] *)
Definition url_of (code : string) (unix : Z) : string :=
  "https://www.cbr.ru/Queries/AjaxDataSource/112805?DT=&val_id=" +:+ code +:+ "&_=" +:+ itoa unix.

(** main.go:65-71 *)
Definition getDate (cr : currencyData) : result string :=
  match time_Parse (Date cr) with
  | Ok t => Ok (Format_output t)
  | Err e => Panic e
  | Panic v => Panic v
  end.

(** main.go:73-80 *)
Definition getRow (cr : currencyData) : result (list string) :=
  d ← getDate cr;
  mret [d; ToUpper (Name cr);
        Sprintf_2f (Curs cr / DivOn cr)%float;
        Sprintf_2f (Diff cr / DivOn cr)%float].

(** The statements of [getCurrencyItem] after the request is built. *)
Definition fetch_item (do : Client) (n : nat) (url name : string) (info : currencyInfo)
    : result currencyData :=
  res ← do n url;
  body ← (match Body res with
          | None => Err "Response body are empty"
          | Some b => Ok b
          end);
  if negb (StatusCode res =? StatusOK) then Err ("status code error: " +:+ Status res)
  else
    body ← ReadAll body;
    data ← json_Unmarshal_list body;
    d ← index data (Z.of_nat (length data) - 1);
    mret {| Name := name; DivOn := div info; Date := Date d; Curs := Curs d; Diff := Diff d |}.

(** main.go:82-127 *)
Definition getCurrencyItem (do : Client) (name : string) (t : Time) (m : mem)
    : result currencyData * mem :=
  match currenciesInfo !! name with
  | None => (Err ("invalid currency name: " +:+ name), m)
  | Some info =>
      let url := url_of (code info) (Unix t) in
      match http_NewRequest url with
      | Some e => (Err e, m)
      | None => (fetch_item do (length (requests m)) url name info, send url m)
      end
  end.

(** main.go:129-186 *)
Definition getCurrencyItemCache (do : Client) :=
  getCurrencyItemCache (getCurrencyItem do) json_Marshal json_Unmarshal.

Record Flags : Type := mkFlags {
  currency : string;    (* -currency, default "usd" *)
  skipCache : bool;     (* -skip-cache *)
  usd : bool;           (* -usd *)
  eur : bool;           (* -eur *)
  uah : bool            (* -uah *)
}.

(** main.go:212-227 *)
Definition currenciesList (f : Flags) : list string :=
  let l := Split_comma (currency f) in
  let l := if usd f then (l ++ [usdCurrency])%list else l in
  let l := if eur f then (l ++ [eurCurrency])%list else l in
  let l := if uah f then (l ++ [uahCurrency])%list else l in
  if (length l =? 0)%nat then [usdCurrency] else l.

(** The [for] loop of main.go:229-235, from its [i]-th iteration on. *)
Fixpoint loop (env : Env) (skip : bool) (i : nat) (cs : list string)
    (rows : list (list string)) (w : world) : result (list (list string)) * world :=
  match cs with
  | [] => (Ok rows, w)
  | currency :: cs' =>
      let '(r, w') :=
        getCurrencyItemCache (client env) (faults_at env i) currency (Now env i) skip w in
      match r ≫= getRow with
      | Ok row => loop env skip (S i) cs' (rows ++ [row])%list w'
      | Err e => (Err e, w')
      | Panic v => (Panic v, w')
      end
  end.

(** main.go:188-243 *)
Definition main (f : Flags) (env : Env) (db : bolt.DB) : Exit :=
  let w := boot db in
  match MkdirAll_err env with
  | Some e => Fatal e w
  | None =>
      match Open_err env with
      | Some e => Fatal e w
      | None =>
          match loop env (skipCache f) 0 (currenciesList f) [] w with
          | (Ok rows, w') => write_and_exit env rows w'
          | (Err e, w') => Fatal e w'
          | (Panic v, w') => crash w'
          end
      end
  end.
End Program.
End Json.

(** * Program [Xml] (src/unnamed/part_000, lines 1-248) *)
Module Xml.

Record Valute : Type := mkValute {
  ID : string;          (* xml:"ID,attr" *)
  NumCode : Z;          (* xml:"NumCode" *)
  CharCode : string;    (* xml:"CharCode" *)
  Nominal : Z;          (* xml:"Nominal" *)
  Name : string;        (* xml:"Name" *)
  Value : string;       (* xml:"Value" *)
  Date : Time
}.

Record ValCurs : Type := mkValCurs {
  ValCurs_Date : string;    (* xml:"Date,attr" *)
  ValCurs_Name : string;    (* xml:"name,attr" *)
  Valutes : list Valute     (* xml:"Valute" *)
}.

Definition usdCurrency : string := "usd".

Class Libs : Type := {
  (* [xml.NewDecoder(res.Body)] with the windows-1251 [CharsetReader],
     then [d.Decode(&v)] *)
  xml_Decode : Reader -> result ValCurs;
  (* [json.Marshal(r)] and [json.Unmarshal(val, &r)] with [r []string] *)
  json_Marshal : list string -> result string;
  json_Unmarshal : string -> result (list string);
  (* [t.Add(d)], [d] in nanoseconds *)
  time_Add : Time -> Z -> Time
}.

Section Program.
Context {G : GoLibs} {L : Libs}.

(** [fmt.Sprintf(urlTemplate, t.Format(xmlDateFormat))] *)
Definition url_of (t : Time) : string :=
  "https://www.cbr.ru/scripts/XML_daily.asp?date_req=" +:+ Format_xml t.

(** part_000:63-77 *)
Definition getRow (v : Valute) : result (list string) :=
  let valStr := Replace_comma_dot (Value v) in
  val ← ParseFloat valStr;
  let divOn := float64_of_int (Nominal v) in
  mret [Format_output (Date v); ToUpper (CharCode v); Sprintf_2f (val / divOn)%float].

(** [val.Date = t] *)
Definition set_Date (t : Time) (v : Valute) : Valute :=
  {| ID := ID v; NumCode := NumCode v; CharCode := CharCode v; Nominal := Nominal v;
     Name := Name v; Value := Value v; Date := t |}.

(** The [for] loop of part_000:122-129 over [v.Valutes], writing into
    [currenciesRate]; it stops at the first row that does not parse. *)
Fixpoint fill (t : Time) (vals : list Valute) (rates : gmap string (list string))
    : result unit * gmap string (list string) :=
  match vals with
  | [] => (Ok tt, rates)
  | val :: rest =>
      match getRow (set_Date t val) with
      | Ok row => fill t rest (<[ToLower (CharCode val) := row]> rates)
      | Err e => (Err e, rates)
      | Panic v => (Panic v, rates)
      end
  end.

(** The statements of [getCurrencyRates] after the request is built, up
    to [d.Decode(&v)]. *)
Definition fetch_bulletin (do : Client) (n : nat) (url : string) : result ValCurs :=
  res ← do n url;
  body ← (match Body res with
          | None => Err "Response body are empty"
          | Some b => Ok b
          end);
  if negb (StatusCode res =? StatusOK) then Err ("status code error: " +:+ Status res)
  else xml_Decode body.

(** part_000:79-132 *)
Definition getCurrencyRates (do : Client) (t : Time) (m : mem)
    : result (gmap string (list string)) * mem :=
  if (0 <? size (currenciesRate m))%nat then (Ok (currenciesRate m), m)
  else
    let url := url_of t in
    match http_NewRequest url with
    | Some e => (Err e, m)
    | None =>
        let n := length (requests m) in
        let m := send url m in
        match fetch_bulletin do n url with
        | Ok v =>
            let '(r, rates) := fill t (Valutes v) (currenciesRate m) in
            (r ≫= fun _ => Ok rates,
             {| currenciesRate := rates; requests := requests m |})
        | Err e => (Err e, m)
        | Panic p => (Panic p, m)
        end
    end.

(** part_000:134-146 *)
Definition getCurrencyRate (do : Client) (name : string) (t : Time) (m : mem)
    : result (list string) * mem :=
  let '(r, m') := getCurrencyRates do t m in
  (vals ← r;
   match vals !! ToLower name with
   | Some val => Ok val
   | None => Err ("cannot get currency rate for '" +:+ name +:+ "'")
   end,
   m').

(** part_000:148-204 *)
Definition getCurrencyItemCache (do : Client) :=
  getCurrencyItemCache (getCurrencyRate do) json_Marshal json_Unmarshal.

Record Flags : Type := mkFlags {
  currency : string;    (* -currency, default "usd" *)
  skipCache : bool;     (* -skip-cache *)
  daysBefore : Z        (* -days-before *)
}.

(** Two's complement wrap-around of [int64] arithmetic. *)
Definition wrap64 (z : Z) : Z := (z + 2 ^ 63) mod 2 ^ 64 - 2 ^ 63.

(** [time.Duration(-*daysBefore) * 24 * time.Hour] *)
Definition offset (f : Flags) : Z :=
  wrap64 (wrap64 (- daysBefore f) * (24 * 3600000000000)).

(** The [for] loop of part_000:234-240, from its [i]-th iteration on. *)
Fixpoint loop (env : Env) (skip : bool) (date : Time) (i : nat) (cs : list string)
    (rows : list (list string)) (w : world) : result (list (list string)) * world :=
  match cs with
  | [] => (Ok rows, w)
  | curr :: cs' =>
      let '(r, w') :=
        getCurrencyItemCache (client env) (faults_at env i) curr date skip w in
      match r with
      | Ok row => loop env skip date (S i) cs' (rows ++ [row])%list w'
      | Err e => (Err e, w')
      | Panic v => (Panic v, w')
      end
  end.

(** part_000:206-248 *)
Definition main (f : Flags) (env : Env) (db : bolt.DB) : Exit :=
  let w := boot db in
  match MkdirAll_err env with
  | Some e => Fatal e w
  | None =>
      match Open_err env with
      | Some e => Fatal e w
      | None =>
          let currenciesList := Split_comma (currency f) in
          if (length currenciesList =? 0)%nat then Fatal "select at least one currency" w
          else
            let date := time_Add (Now env 0) (offset f) in
            match loop env (skipCache f) date 0 currenciesList [] w with
            | (Ok rows, w') => write_and_exit env rows w'
            | (Err e, w') => Fatal e w'
            | (Panic v, w') => crash w'
            end
      end
  end.
End Program.
End Xml.

(** * Program [Plain] (src/unnamed/part_000, lines 249-407)

    Its constants, [currenciesInfo], [currencyInfo], [currencyData],
    [getDate] and [getRow] are those of main.go, character for character. *)
Module Plain.
Import Json.

Section Program.
Context {G : GoLibs} {L : Json.Libs}.

(** part_000:325-363. [httpClient.Get(url)] builds the request itself
    and returns its error. [now] is [time.Now()]. *)
Definition getCurrencyItem (do : Client) (name : string) (now : Time) (m : mem)
    : result currencyData * mem :=
  match currenciesInfo !! name with
  | None => (Err ("invalid currency name: " +:+ name), m)
  | Some info =>
      let url := url_of (code info) (Unix now) in
      match http_NewRequest url with
      | Some e => (Err e, m)
      | None => (fetch_item do (length (requests m)) url name info, send url m)
      end
  end.

(** The [for] loop of part_000:393-399, from its [i]-th iteration on. *)
Fixpoint loop (env : Env) (i : nat) (cs : list string)
    (rows : list (list string)) (m : mem) : result (list (list string)) * mem :=
  match cs with
  | [] => (Ok rows, m)
  | currency :: cs' =>
      let '(r, m') := getCurrencyItem (client env) currency (Now env i) m in
      match r ≫= getRow with
      | Ok row => loop env (S i) cs' (rows ++ [row])%list m'
      | Err e => (Err e, m')
      | Panic v => (Panic v, m')
      end
  end.

(** part_000:365-407; the flag is called [-currencies] here. The program
  opens no cache file: [db] is carried along untouched. *)
Definition main (f : Flags) (env : Env) (db : bolt.DB) : Exit :=
  let w := boot db in
  match loop env 0 (currenciesList f) [] (memory w) with
  | (Ok rows, m') => write_and_exit env rows {| cacheStorage := db; memory := m' |}
  | (Err e, m') => Fatal e {| cacheStorage := db; memory := m' |}
  | (Panic v, m') => crash {| cacheStorage := db; memory := m' |}
  end.
End Program.
End Plain.

(** * Reading decimal fields back *)

Definition is_digit (c : ascii) : bool :=
  let n := N_of_ascii c in ((48 <=? n) && (n <=? 57))%N.

Definition digit_val (c : ascii) : Z := Z.of_N (N_of_ascii c) - 48.

Fixpoint digits_val (s : string) (acc : Z) : Z :=
  match s with
  | EmptyString => acc
  | String c s' => digits_val s' (10 * acc + digit_val c)
  end.

(** A calendar date as [time.Time] reports it, with a four-digit year. *)
Definition valid_date (t : Time) : Prop :=
  1 <= Day t <= 31 /\ 1 <= Month t <= 12 /\ 0 <= Year t <= 9999.

(** Same calendar day (the time of day is not compared). *)
Definition same_date (t1 t2 : Time) : Prop :=
  Day t1 = Day t2 /\ Month t1 = Month t2 /\ Year t1 = Year t2.

(** A field of [n] decimal digits that reads as [v]. *)
Definition decimal_field (n : nat) (v : Z) (s : string) : Prop :=
  String.length s = n /\ all_bytes is_digit s = true /\ digits_val s 0 = v.

(** The committed state after [val] was put under [key] in the bucket
    ["cache"]: one entry per key, the other keys and buckets untouched. *)
Definition stored (db : bolt.DB) (key val : string) : bolt.DB :=
  <["cache" := <[key := val]> (default ∅ (db !! "cache"))]> db.

(** The transaction could be opened and the bucket obtained. *)
Definition tx_opens (flt : bolt.faults) : Prop :=
  bolt.Begin_err flt = None /\ bolt.CreateBucket_err flt = None.

(** What holds of the memory of the XML program between two lookups of a
    run: either nothing was requested yet, or one request was sent and
    [currenciesRate] has been filled. *)
Definition at_most_one_fetch (m : mem) : Prop :=
  requests m = [] \/ (length (requests m) = 1%nat /\ currenciesRate m <> ∅).

(** Every row held in [currenciesRate] was rendered by [Valute.getRow]. *)
Definition rates_rendered {G : GoLibs} (rates : gmap string (list string)) : Prop :=
  forall k row, rates !! k = Some row -> exists v, Xml.getRow v = Ok row.

(** The last entry of a bulletin whose code is [k] up to case. *)
Fixpoint latest {G : GoLibs} (k : string) (vals : list Xml.Valute) : option Xml.Valute :=
  match vals with
  | [] => None
  | v :: rest =>
      match latest k rest with
      | Some v' => Some v'
      | None => if decide (ToLower (Xml.CharCode v) = k) then Some v else None
      end
  end.

(** The row of an entry of the bulletin fetched for the date [t], if it
    parses. *)
Definition row_of {G : GoLibs} (t : Time) (v : Xml.Valute) : option (list string) :=
  match Xml.getRow (Xml.set_Date t v) with
  | Ok row => Some row
  | _ => None
  end.

(** The keys of a run of the JSON program from its [i]-th lookup on: each
    lookup takes its date from its own call of [time.Now()]. *)
Fixpoint run_keys (env : Env) (i : nat) (cs : list string) : list string :=
  match cs with
  | [] => []
  | c :: cs' => cacheKey (Now env i) c :: run_keys env (S i) cs'
  end.

(** The cache file holds under [key] an entry that decodes to a record
    whose row is [row]. *)
Definition Json_entry {G : GoLibs} {L : Json.Libs}
    (db : bolt.DB) (key : string) (row : list string) : Prop :=
  exists val r, bolt.Get db "cache" key = Some val
    /\ Json.json_Unmarshal val = Ok r /\ Json.getRow r = Ok row.

(** The cache file holds under [key] an entry that decodes to [row]. *)
Definition Xml_entry {L : Xml.Libs} (db : bolt.DB) (key : string) (row : list string) : Prop :=
  exists val, bolt.Get db "cache" key = Some val /\ Xml.json_Unmarshal val = Ok row.

(** The codec reads back what it wrote for [v]. *)
Definition Json_reads_back {L : Json.Libs} (v : Json.currencyData) : Prop :=
  forall val, Json.json_Marshal v = Ok val -> Json.json_Unmarshal val = Ok v.

Definition Xml_reads_back {L : Xml.Libs} (row : list string) : Prop :=
  forall val, Xml.json_Marshal row = Ok val -> Xml.json_Unmarshal val = Ok row.

(** The codec reads back each value that a lookup of the run fetched from
    the provider: the run of the JSON program is followed from its [i]-th
    lookup on, in the world [w]. Values decoded from the cache are not
    concerned. *)
Fixpoint Json_run_reads_back {G : GoLibs} {L : Json.Libs}
    (env : Env) (skip : bool) (i : nat) (cs : list string) (w : world) : Prop :=
  match cs with
  | [] => True
  | c :: cs' =>
      let '(r, w') :=
        Json.getCurrencyItemCache (client env) (faults_at env i) c (Now env i) skip w in
      match r with
      | Ok v =>
          ((if skip then None
            else bolt.Get (cacheStorage w) "cache" (cacheKey (Now env i) c)) = None ->
           Json_reads_back v)
          /\ Json_run_reads_back env skip (S i) cs' w'
      | _ => True
      end
  end.

(** The same for a run of the XML program, whose lookups share [date]. *)
Fixpoint Xml_run_reads_back {G : GoLibs} {L : Xml.Libs}
    (env : Env) (skip : bool) (date : Time) (i : nat) (cs : list string) (w : world) : Prop :=
  match cs with
  | [] => True
  | c :: cs' =>
      let '(r, w') :=
        Xml.getCurrencyItemCache (client env) (faults_at env i) c date skip w in
      match r with
      | Ok row =>
          ((if skip then None
            else bolt.Get (cacheStorage w) "cache" (cacheKey date c)) = None ->
           Xml_reads_back row)
          /\ Xml_run_reads_back env skip date (S i) cs' w'
      | _ => True
      end
  end.

(** * Stubs

    Stand-ins for the libraries and for the remote service, used to run the
    programs on concrete inputs. Each says on which inputs it agrees with
    the library it stands in for; the theorems below hold for every
    library, the stubs only instantiate them. *)
Module Stub.

(** The quotation mark, as a string. *)
Definition dq : string := String (ascii_of_N 34) "".

Definition quote (s : string) : string := dq +:+ s +:+ dq.

(** [num / den] rounded to the nearest integer, ties to even. *)
Definition round_half_even (num den : Z) : Z :=
  let q := num / den in
  let r := num mod den in
  if 2 * r <? den then q
  else if den <? 2 * r then q + 1
  else if Z.even q then q else q + 1.

(** [n] hundredths in fixed notation. *)
Definition fixed2 (neg : bool) (n : Z) : string :=
  (if neg then "-" else "") +:+ itoa (n / 100) +:+ "." +:+ appendInt (n mod 100) 2.

(** [fmt.Sprintf("%.2f", x)]: the exact binary value of [x] rounded to two
    decimals, ties to even; agrees with [fmt] on every [float64]. *)
Definition format_2f (x : float) : string :=
  match Prim2SF x with
  | S754_zero s => fixed2 s 0
  | S754_infinity s => if s then "-Inf" else "+Inf"
  | S754_nan => "NaN"
  | S754_finite s m e =>
      fixed2 s (if 0 <=? e then Z.pos m * 2 ^ e * 100
                else round_half_even (Z.pos m * 100) (2 ^ (- e)))
  end.

(** Scanner of [digits[.digits]]: the digits read as one integer, and
    the number of digits after the point. *)
Fixpoint scan (s : string) (point : bool) (mant : Z) (frac : nat) (ndig : nat)
    : option (Z * nat) :=
  match s with
  | EmptyString => if (0 <? ndig)%nat then Some (mant, frac) else None
  | String c s' =>
      if is_digit c
      then scan s' point (10 * mant + digit_val c) (if point then S frac else frac) (S ndig)
      else if Ascii.eqb c "." && negb point then scan s' true mant frac ndig
      else None
  end.

(** [strconv.ParseFloat(s, 64)] on plain decimals: an optional sign,
    digits, an optional point and digits, with a mantissa below [2^53]
    and at most 22 digits after the point, where the quotient of two exact
    [float64]s is the nearest [float64]. The stub knows no exponent,
    no hexadecimal notation, no infinity and no NaN: it refuses them. *)
Definition parse_decimal (s : string) : result float :=
  let '(neg, body) :=
    match s with
    | String "-" s' => (true, s')
    | String "+" s' => (false, s')
    | _ => (false, s)
    end in
  match scan body false 0 0 0 with
  | Some (mant, frac) =>
      if (mant <? 2 ^ 53) && (frac <=? 22)%nat then
        let q := (float64_of_int mant / float64_of_int (10 ^ Z.of_nat frac))%float in
        Ok (if neg then (- q)%float else q)
      else Err ("strconv.ParseFloat: parsing " +:+ quote s +:+ ": outside the stub")
  | None => Err ("strconv.ParseFloat: parsing " +:+ quote s +:+ ": invalid syntax")
  end.

(** ASCII-only text is lowered and raised by [strings] itself; the stub
    leaves other text alone. URLs built by the programs are well formed. *)
#[export] Instance go : GoLibs := {|
  unicode_ToLower := id;
  unicode_ToUpper := id;
  http_NewRequest := fun _ => None;
  Sprintf_2f := format_2f;
  ParseFloat := parse_decimal
|}.

(** *** [encoding/json] at [[]string] *)

(** Bytes that [json.Marshal] copies unescaped into a string literal. *)
Definition plain_byte (c : ascii) : bool :=
  let n := N_of_ascii c in
  ((32 <=? n) && (n <? 127) && negb (n =? 34) && negb (n =? 92)
   && negb (n =? 60) && negb (n =? 62) && negb (n =? 38))%N.

Fixpoint join (sep : string) (l : list string) : string :=
  match l with
  | [] => ""
  | [x] => x
  | x :: tl => x +:+ sep +:+ join sep tl
  end.

(** [json.Marshal] of a slice of strings made of plain bytes. *)
Definition marshal_row (row : list string) : result string :=
  if forallb (all_bytes plain_byte) row
  then Ok ("[" +:+ join "," (map quote row) +:+ "]")
  else Err "json: string needs escaping (outside the stub)".

(** The text up to the closing quotation mark, and what follows it. *)
Fixpoint read_string (s : string) : option (string * string) :=
  match s with
  | EmptyString => None
  | String c s' =>
      if Ascii.eqb c (ascii_of_N 34) then Some (EmptyString, s')
      else if plain_byte c then
        match read_string s' with
        | Some (str, rest) => Some (String c str, rest)
        | None => None
        end
      else None
  end.

(** The elements after the opening bracket or a comma. *)
Fixpoint read_elems (fuel : nat) (s : string) : option (list string) :=
  match fuel, s with
  | S fuel, String q s' =>
      if Ascii.eqb q (ascii_of_N 34) then
        match read_string s' with
        | Some (str, String "," rest) => cons str <$> read_elems fuel rest
        | Some (str, String "]" EmptyString) => Some [str]
        | _ => None
        end
      else None
  | _, _ => None
  end.

(** [json.Unmarshal] into a slice of strings, on the texts [marshal_row]
    writes. *)
Definition unmarshal_row (s : string) : result (list string) :=
  match s with
  | String "[" (String "]" EmptyString) => Ok []
  | String "[" s' =>
      match read_elems (String.length s') s' with
      | Some l => Ok l
      | None => Err "json: cannot unmarshal into Go value of type []string"
      end
  | _ => Err "json: cannot unmarshal into Go value of type []string"
  end.

(** *** The bulletin of 10.01.2024, in three versions *)

Definition jan10 : Time := mkTime 2024 1 10 1704844800.
Definition zero_time : Time := mkTime 1 1 1 (-62135596800).

Definition valute (id : string) (num : Z) (char : string) (nominal : Z) (name value : string)
    : Xml.Valute :=
  Xml.mkValute id num char nominal name value zero_time.

Definition bulletin_text : string :=
  "<ValCurs Date='10.01.2024' name='Foreign Currency Market'><Valute ID='R01235'><NumCode>840</NumCode><CharCode>USD</CharCode><Nominal>1</Nominal><Name>US Dollar</Name><Value>91,0000</Value></Valute><Valute ID='R01720'><NumCode>980</NumCode><CharCode>UAH</CharCode><Nominal>10</Nominal><Name>Hryvnia</Name><Value>25,5000</Value></Valute></ValCurs>".

Definition bulletin : Xml.ValCurs :=
  Xml.mkValCurs "10.01.2024" "Foreign Currency Market"
    [valute "R01235" 840 "USD" 1 "US Dollar" "91,0000";
     valute "R01720" 980 "UAH" 10 "Hryvnia" "25,5000"].

(** The same day quoted per single unit of hryvnia. *)
Definition bulletin_unit_text : string :=
  "<ValCurs Date='10.01.2024' name='Foreign Currency Market'><Valute ID='R01235'><NumCode>840</NumCode><CharCode>USD</CharCode><Nominal>1</Nominal><Name>US Dollar</Name><Value>91,0000</Value></Valute><Valute ID='R01720'><NumCode>980</NumCode><CharCode>UAH</CharCode><Nominal>1</Nominal><Name>Hryvnia</Name><Value>2,5500</Value></Valute></ValCurs>".

Definition bulletin_unit : Xml.ValCurs :=
  Xml.mkValCurs "10.01.2024" "Foreign Currency Market"
    [valute "R01235" 840 "USD" 1 "US Dollar" "91,0000";
     valute "R01720" 980 "UAH" 1 "Hryvnia" "2,5500"].

(** A later quote of the dollar. *)
Definition bulletin_later_text : string :=
  "<ValCurs Date='10.01.2024' name='Foreign Currency Market'><Valute ID='R01235'><NumCode>840</NumCode><CharCode>USD</CharCode><Nominal>1</Nominal><Name>US Dollar</Name><Value>92,5000</Value></Valute></ValCurs>".

Definition bulletin_later : Xml.ValCurs :=
  Xml.mkValCurs "10.01.2024" "Foreign Currency Market"
    [valute "R01235" 840 "USD" 1 "US Dollar" "92,5000"].

(** [xml.Decoder.Decode] on the three texts above; a failed read of the
    body is the decoder's error. *)
Definition decode_bulletin (b : Reader) : result Xml.ValCurs :=
  match read_err b with
  | Some e => Err e
  | None =>
      if String.eqb (content b) bulletin_text then Ok bulletin
      else if String.eqb (content b) bulletin_unit_text then Ok bulletin_unit
      else if String.eqb (content b) bulletin_later_text then Ok bulletin_later
      else Err "XML syntax error (outside the stub)"
  end.

(** [t.Add(0)] is [t]; the stub knows no other offset. *)
#[export] Instance xml : Xml.Libs := {|
  Xml.xml_Decode := decode_bulletin;
  Xml.json_Marshal := marshal_row;
  Xml.json_Unmarshal := unmarshal_row;
  Xml.time_Add := fun t _ => t
|}.

Definition ok_response (body : string) : Response :=
  {| StatusCode := 200; Status := "200 OK"; Body := Some (mkReader body None) |}.

(** A service that answers every request with the same body. *)
Definition serving (body : string) : Client := fun _ _ => Ok (ok_response body).

(** A service that cannot be reached. *)
Definition unreachable : Client :=
  fun _ _ => Err "context deadline exceeded (Client.Timeout exceeded while awaiting headers)".

(** A service that answers with a server error. *)
Definition failing : Client :=
  fun _ _ => Ok {| StatusCode := 500; Status := "500 Internal Server Error";
                   Body := Some (mkReader "" None) |}.

Definition env_of (c : Client) : Env :=
  {| MkdirAll_err := None; Open_err := None; client := c; Now := fun _ => jan10;
     faults_at := fun _ => bolt.no_faults; WriteAll_err := None |}.

(** *** The JSON endpoint, on two answers *)

Definition field (k v : string) : string := quote k +:+ ":" +:+ v.

Definition object (fields : list string) : string := "{" +:+ join "," fields +:+ "}".

(** The observations of the service: the day before and 10.01.2024. *)
Definition usd_body : string :=
  "[" +:+ object [field "data" (quote "2024-01-09T00:00:00"); field "curs" "90.5"; field "diff" "-0.25"]
  +:+ "," +:+ object [field "data" (quote "2024-01-10T00:00:00"); field "curs" "91"; field "diff" "0.5"]
  +:+ "]".

(** A later answer for the same day. *)
Definition usd_body_later : string :=
  "[" +:+ object [field "data" (quote "2024-01-10T00:00:00"); field "curs" "92.5"; field "diff" "2"]
  +:+ "]".

Definition observation (date : string) (curs diff : float) : Json.currencyData :=
  Json.mkData "" 0 date curs diff.

(** [json.Unmarshal] into [[]currencyData], on the answers above and on
    the empty array. *)
Definition unmarshal_list (body : string) : result (list Json.currencyData) :=
  if String.eqb body "[]" then Ok []
  else if String.eqb body usd_body
  then Ok [observation "2024-01-09T00:00:00" 90.5 (-0.25); observation "2024-01-10T00:00:00" 91 0.5]
  else if String.eqb body usd_body_later
  then Ok [observation "2024-01-10T00:00:00" 92.5 2]
  else Err "invalid character (outside the stub)".

Definition usd_item : Json.currencyData := Json.mkData "usd" 1 "2024-01-10T00:00:00" 91 0.5.
Definition usd_item_later : Json.currencyData := Json.mkData "usd" 1 "2024-01-10T00:00:00" 92.5 2.

Definition usd_item_text : string :=
  object [field "Name" (quote "usd"); field "DivOn" "1"; field "data" (quote "2024-01-10T00:00:00");
          field "curs" "91"; field "diff" "0.5"].
Definition usd_item_later_text : string :=
  object [field "Name" (quote "usd"); field "DivOn" "1"; field "data" (quote "2024-01-10T00:00:00");
          field "curs" "92.5"; field "diff" "2"].

Definition data_eqb (a b : Json.currencyData) : bool :=
  String.eqb (Json.Name a) (Json.Name b) && PrimFloat.eqb (Json.DivOn a) (Json.DivOn b)
  && String.eqb (Json.Date a) (Json.Date b) && PrimFloat.eqb (Json.Curs a) (Json.Curs b)
  && PrimFloat.eqb (Json.Diff a) (Json.Diff b).

(** [json.Marshal] of the two records the answers above lead to. *)
Definition marshal_item (r : Json.currencyData) : result string :=
  if data_eqb r usd_item then Ok usd_item_text
  else if data_eqb r usd_item_later then Ok usd_item_later_text
  else Err "json: record outside the stub".

(** [json.Unmarshal] into [currencyData], on the two texts above. *)
Definition unmarshal_item (s : string) : result Json.currencyData :=
  if String.eqb s usd_item_text then Ok usd_item
  else if String.eqb s usd_item_later_text then Ok usd_item_later
  else Err "invalid character (outside the stub)".

(** [time.Parse("2006-01-02T15:04:05", s)] on midnight of 10.01.2024. *)
Definition parse_time (s : string) : result Time :=
  if String.eqb s "2024-01-10T00:00:00" then Ok jan10
  else Err ("parsing time " +:+ quote s +:+ " (outside the stub)").

#[export] Instance json : Json.Libs := {|
  Json.json_Unmarshal_list := unmarshal_list;
  Json.json_Marshal := marshal_item;
  Json.json_Unmarshal := unmarshal_item;
  Json.time_Parse := parse_time
|}.

(** *** Cache files *)

Definition usd_key : string := cacheKey jan10 "usd".

(** A cache file holding the row of the first bulletin. *)
Definition db_row : bolt.DB :=
  stored ∅ usd_key ("[" +:+ join "," (map quote ["10.01.2024"; "USD"; "91.00"]) +:+ "]").

(** A cache file whose entry for the dollar was cut short. *)
Definition db_corrupt : bolt.DB := stored ∅ usd_key ("[" +:+ quote "10.01.2024" +:+ ",").

(** *** Runs *)

Definition xml_flags (currency : string) (skip : bool) : Xml.Flags :=
  Xml.mkFlags currency skip 0.
Definition json_flags (currency : string) (skip : bool) : Json.Flags :=
  Json.mkFlags currency skip false false false.

(** The cache file a first run for the dollar leaves behind. *)
Definition xml_after_A : bolt.DB :=
  cacheStorage (final (Xml.main (xml_flags "usd" false) (env_of (serving bulletin_text)) ∅)).
Definition json_after_A : bolt.DB :=
  cacheStorage (final (Json.main (json_flags "usd" false) (env_of (serving usd_body)) ∅)).

End Stub.

(** * Further stubs

    Answers and libraries for the runs that the properties of the second
    part are tried on; each extends a stub above by one input. *)
Module Fixture.
Import Stub.

(** An answer whose only observation is dated in the output format, which
    [time.Parse] does not read under the layout [2006-01-02T15:04:05]. *)
Definition odd_date_body : string :=
  "[" +:+ object [field "data" (quote "10.01.2024"); field "curs" "91"; field "diff" "0.5"]
  +:+ "]".

Definition odd_date_item : Json.currencyData := Json.mkData "usd" 1 "10.01.2024" 91 0.5.

Definition odd_date_text : string :=
  object [field "Name" (quote "usd"); field "DivOn" "1"; field "data" (quote "10.01.2024");
          field "curs" "91"; field "diff" "0.5"].

(** [Stub.json], also reading and writing the odd answer. *)
#[export] Instance json : Json.Libs := {|
  Json.json_Unmarshal_list := fun body =>
    if String.eqb body odd_date_body then Ok [observation "10.01.2024" 91 0.5]
    else unmarshal_list body;
  Json.json_Marshal := fun r =>
    if data_eqb r odd_date_item then Ok odd_date_text else marshal_item r;
  Json.json_Unmarshal := fun s =>
    if String.eqb s odd_date_text then Ok odd_date_item else unmarshal_item s;
  Json.time_Parse := parse_time
|}.

(** A bulletin whose second entry carries no number. *)
Definition broken_bulletin_text : string :=
  "<ValCurs Date='10.01.2024' name='Foreign Currency Market'><Valute ID='R01235'><NumCode>840</NumCode><CharCode>USD</CharCode><Nominal>1</Nominal><Name>US Dollar</Name><Value>91,0000</Value></Valute><Valute ID='R01720'><NumCode>980</NumCode><CharCode>UAH</CharCode><Nominal>10</Nominal><Name>Hryvnia</Name><Value>n/a</Value></Valute></ValCurs>".

Definition broken_bulletin : Xml.ValCurs :=
  Xml.mkValCurs "10.01.2024" "Foreign Currency Market"
    [valute "R01235" 840 "USD" 1 "US Dollar" "91,0000";
     valute "R01720" 980 "UAH" 10 "Hryvnia" "n/a"].

(** A bulletin that lists the dollar twice and one currency per zero
    units. *)
Definition odd_bulletin_text : string :=
  "<ValCurs Date='09.01.2024' name='Foreign Currency Market'><Valute ID='R01235'><NumCode>840</NumCode><CharCode>USD</CharCode><Nominal>1</Nominal><Name>US Dollar</Name><Value>90,0000</Value></Valute><Valute ID='R01235'><NumCode>840</NumCode><CharCode>usd</CharCode><Nominal>1</Nominal><Name>US Dollar</Name><Value>91,0000</Value></Valute><Valute ID='R00000'><NumCode>0</NumCode><CharCode>XXX</CharCode><Nominal>0</Nominal><Name>None</Name><Value>1,0000</Value></Valute></ValCurs>".

Definition odd_bulletin : Xml.ValCurs :=
  Xml.mkValCurs "09.01.2024" "Foreign Currency Market"
    [valute "R01235" 840 "USD" 1 "US Dollar" "90,0000";
     valute "R01235" 840 "usd" 1 "US Dollar" "91,0000";
     valute "R00000" 0 "XXX" 0 "None" "1,0000"].

(** [Stub.xml], also decoding the two bulletins above. *)
#[export] Instance xml : Xml.Libs := {|
  Xml.xml_Decode := fun b =>
    match read_err b with
    | Some e => Err e
    | None =>
        if String.eqb (content b) broken_bulletin_text then Ok broken_bulletin
        else if String.eqb (content b) odd_bulletin_text then Ok odd_bulletin
        else decode_bulletin b
    end;
  Xml.json_Marshal := marshal_row;
  Xml.json_Unmarshal := unmarshal_row;
  Xml.time_Add := fun t _ => t
|}.

(** A cache file holding the rows of the dollar and of the hryvnia. *)
Definition db_two_rows : bolt.DB :=
  stored db_row (cacheKey jan10 "uah")
    ("[" +:+ join "," (map quote ["10.01.2024"; "UAH"; "2.55"]) +:+ "]").

End Fixture.

(** * Facts about the formatting functions *)

Lemma append_nil_l (a : string) : "" +:+ a = a.
Proof. reflexivity. Qed.

Lemma append_cons (x : ascii) (a b : string) : String x a +:+ b = String x (a +:+ b).
Proof. reflexivity. Qed.

Ltac app_simpl := rewrite ?append_cons, ?append_nil_l.

Lemma append_assoc (a b c : string) : (a +:+ b) +:+ c = a +:+ (b +:+ c).
Proof. induction a as [|x a IH]; app_simpl; [done | by rewrite IH]. Qed.

Lemma append_nil_r (a : string) : a +:+ "" = a.
Proof. induction a as [|x a IH]; app_simpl; [done | by rewrite IH]. Qed.

Lemma length_append (a b : string) :
  String.length (a +:+ b) = (String.length a + String.length b)%nat.
Proof. induction a as [|x a IH]; app_simpl; simpl; [done | by rewrite IH]. Qed.

Lemma all_bytes_app p (a b : string) :
  all_bytes p (a +:+ b) = all_bytes p a && all_bytes p b.
Proof. induction a as [|x a IH]; app_simpl; simpl; [done | by rewrite IH, andb_assoc]. Qed.

Lemma digits_val_app (a b : string) acc :
  digits_val (a +:+ b) acc = digits_val b (digits_val a acc).
Proof.
  revert acc. induction a as [|x a IH]; intros acc; app_simpl; simpl; [done | by rewrite IH].
Qed.

Lemma digit_char_spec d :
  0 <= d < 10 -> is_digit (digit_char d) = true /\ digit_val (digit_char d) = d.
Proof.
  intros Hd.
  assert (d = 0 \/ d = 1 \/ d = 2 \/ d = 3 \/ d = 4 \/ d = 5 \/ d = 6 \/ d = 7
          \/ d = 8 \/ d = 9) as Hcases by lia.
  repeat destruct Hcases as [-> | Hcases]; try subst d; by vm_compute.
Qed.

(** The digit loop writes, in front of [acc], a non-empty run of digits
    whose value is [u], no longer than the number of digits [u] needs. *)
Lemma utoa_go_spec fuel : forall u acc,
  0 <= u < 10 ^ Z.of_nat (S fuel) ->
  exists ds, utoa_go fuel u acc = ds +:+ acc
    /\ all_bytes is_digit ds = true
    /\ digits_val ds 0 = u
    /\ ds <> ""
    /\ forall k : nat, u < 10 ^ Z.of_nat (S k) -> (String.length ds <= S k)%nat.
Proof.
  induction fuel as [|f IH]; intros u acc Hu.
  - change (10 ^ Z.of_nat 1) with 10 in Hu. simpl utoa_go.
    rewrite Z.mod_small by lia.
    destruct (digit_char_spec u Hu) as [Hd Hv].
    exists (String (digit_char u) ""). app_simpl. simpl. rewrite Hd, Hv.
    repeat split; try done. intros k _. lia.
  - simpl utoa_go. destruct (Z.ltb_spec u 10) as [Hlt | Hge].
    + destruct (digit_char_spec u ltac:(lia)) as [Hd Hv].
      exists (String (digit_char u) ""). app_simpl. simpl. rewrite Hd, Hv.
      repeat split; try done. intros k _. lia.
    + assert (Hpow : 10 ^ Z.of_nat (S (S f)) = 10 * 10 ^ Z.of_nat (S f)).
      { rewrite (Nat2Z.inj_succ (S f)), Z.pow_succ_r by lia. done. }
      assert (Hq : 0 <= u / 10 < 10 ^ Z.of_nat (S f)).
      { split; [apply Z.div_pos; lia |].
        apply Z.div_lt_upper_bound; lia. }
      destruct (IH (u / 10) (String (digit_char (u mod 10)) acc) Hq)
        as (ds & Heq & Hall & Hval & Hne & Hlen).
      assert (Hm : 0 <= u mod 10 < 10) by (apply Z.mod_pos_bound; lia).
      destruct (digit_char_spec (u mod 10) Hm) as [Hd Hv].
      exists (ds +:+ String (digit_char (u mod 10)) "").
      rewrite Heq, append_assoc. app_simpl. split; [done |].
      rewrite all_bytes_app, digits_val_app, Hall, Hval. simpl. rewrite Hd, Hv.
      repeat split; try done.
      * pose proof (Z.div_mod u 10). lia.
      * destruct ds; [done | by app_simpl].
      * intros k Hk. rewrite length_append. simpl.
        destruct k as [|k].
        { change (10 ^ Z.of_nat 1) with 10 in Hk. lia. }
        assert (u / 10 < 10 ^ Z.of_nat (S k)).
        { rewrite (Nat2Z.inj_succ (S k)), Z.pow_succ_r in Hk by lia.
          apply Z.div_lt_upper_bound; lia. }
        specialize (Hlen k ltac:(done)). lia.
Qed.

Lemma log2_fuel_enough u : 0 <= u -> u < 10 ^ Z.of_nat (S (Z.to_nat (Z.log2 u))).
Proof.
  intros Hu. destruct (Z.eq_dec u 0) as [-> | Hne]; [by vm_compute |].
  pose proof (Z.log2_nonneg u). pose proof (Z.log2_spec u ltac:(lia)) as [_ Hlt].
  rewrite Nat2Z.inj_succ, Z2Nat.id by lia.
  eapply Z.lt_le_trans; [exact Hlt |].
  apply Z.pow_le_mono_l. lia.
Qed.

Lemma utoa_spec u :
  0 <= u ->
  all_bytes is_digit (utoa u) = true /\ digits_val (utoa u) 0 = u /\ utoa u <> ""
  /\ forall k : nat, u < 10 ^ Z.of_nat (S k) -> (String.length (utoa u) <= S k)%nat.
Proof.
  intros Hu. unfold utoa.
  destruct (utoa_go_spec _ u "" (conj Hu (log2_fuel_enough u Hu)))
    as (ds & Heq & Hall & Hval & Hne & Hlen).
  rewrite Heq, append_nil_r. done.
Qed.

Lemma zeros_spec n acc :
  all_bytes is_digit (zeros n) = true /\ digits_val (zeros n) acc = 10 ^ Z.of_nat n * acc
  /\ String.length (zeros n) = n.
Proof.
  revert acc. induction n as [|n IH]; intros acc.
  - simpl. repeat split; lia.
  - destruct (IH (10 * acc + 0)) as (Ha & Hv & Hl).
    cbn [zeros all_bytes digits_val String.length]. rewrite Ha, Hl.
    change (digit_val "0") with 0. rewrite Hv.
    rewrite Nat2Z.inj_succ, Z.pow_succ_r by lia. repeat split; lia.
Qed.

Lemma appendInt_body x w :
  exists body, appendInt x w = (if x <? 0 then "-" else "") +:+ body
    /\ all_bytes is_digit body = true
    /\ digits_val body 0 = Z.abs x
    /\ body <> "".
Proof.
  destruct (utoa_spec (Z.abs x) (Z.abs_nonneg x)) as (Hall & Hval & Hne & _).
  destruct (zeros_spec (w - String.length (utoa (Z.abs x))) 0) as (Hz & Hzv & _).
  exists (zeros (w - String.length (utoa (Z.abs x))) +:+ utoa (Z.abs x)).
  unfold appendInt. cbv zeta. split; [done |].
  rewrite all_bytes_app, digits_val_app, Hz, Hall, Hzv, Z.mul_0_r, Hval.
  repeat split; try done.
  destruct (zeros _); app_simpl; [done | discriminate].
Qed.

(** A non-negative number below [10 ^ n] fills a field of width [n]. *)
Lemma appendInt_field x (n : nat) :
  0 <= x < 10 ^ Z.of_nat (S n) -> decimal_field (S n) x (appendInt x (S n)).
Proof.
  intros [Hx Hlt].
  destruct (utoa_spec x Hx) as (Hall & Hval & Hne & Hlen).
  specialize (Hlen n Hlt).
  destruct (zeros_spec (S n - String.length (utoa x)) 0) as (Hz & Hzv & Hzl).
  unfold appendInt, decimal_field. cbv zeta.
  rewrite Z.abs_eq by done.
  destruct (Z.ltb_spec x 0) as [? | _]; [lia |]. app_simpl.
  rewrite length_append, all_bytes_app, digits_val_app, Hz, Hall, Hzv, Hzl, Z.mul_0_r, Hval.
  repeat split; try done. lia.
Qed.

Lemma digits_sep_inj c (a : string) : forall b x y,
  is_digit c = false ->
  all_bytes is_digit a = true -> all_bytes is_digit b = true ->
  a +:+ String c x = b +:+ String c y -> a = b /\ x = y.
Proof.
  induction a as [|d a IH]; intros [|e b] x y Hc Ha Hb Heq; app_simpl; revert Heq; app_simpl.
  - intros [= ->]. done.
  - intros [= -> _]. simpl in Hb. rewrite Hc in Hb. done.
  - intros [= -> _]. simpl in Ha. rewrite Hc in Ha. done.
  - intros [= -> Heq]. simpl in Ha, Hb.
    apply andb_true_iff in Ha as [_ Ha]. apply andb_true_iff in Hb as [_ Hb].
    destruct (IH b x y Hc Ha Hb Heq) as [-> ->]. done.
Qed.

(** A decimal field followed by a separator that is not a digit can be
    read back: the number and what follows the separator are determined. *)
Lemma appendInt_sep_inj c x w r x' w' r' :
  is_digit c = false ->
  appendInt x w +:+ String c r = appendInt x' w' +:+ String c r' ->
  x = x' /\ r = r'.
Proof.
  intros Hc.
  destruct (appendInt_body x w) as (b & -> & Hb & Hv & Hne).
  destruct (appendInt_body x' w') as (b' & -> & Hb' & Hv' & Hne').
  assert (Hminus : is_digit "-" = false) by done.
  destruct (Z.ltb_spec x 0) as [Hx | Hx]; destruct (Z.ltb_spec x' 0) as [Hx' | Hx'];
    app_simpl; intros Heq.
  - injection Heq as Heq.
    destruct (digits_sep_inj c b b' r r' Hc Hb Hb' Heq) as [-> ->]. split; [lia | done].
  - destruct b' as [|d b']; [done |]. revert Heq. app_simpl. intros [= Hd _].
    simpl in Hb'. rewrite <- Hd, Hminus in Hb'. done.
  - destruct b as [|d b]; [done |]. revert Heq. app_simpl. intros [= Hd _].
    simpl in Hb. rewrite Hd, Hminus in Hb. done.
  - destruct (digits_sep_inj c b b' r r' Hc Hb Hb' Heq) as [-> ->]. split; [lia | done].
Qed.

Lemma cacheKey_inj t1 n1 t2 n2 :
  cacheKey t1 n1 = cacheKey t2 n2 -> same_date t1 t2 /\ n1 = n2.
Proof.
  unfold cacheKey, Format_output. rewrite !append_assoc. app_simpl. intros Heq.
  apply appendInt_sep_inj in Heq as [Hd Heq]; [| done].
  apply appendInt_sep_inj in Heq as [Hm Heq]; [| done].
  apply appendInt_sep_inj in Heq as [Hy Heq]; [| done].
  by repeat split.
Qed.

Lemma cacheKey_same_date t1 t2 n : same_date t1 t2 -> cacheKey t1 n = cacheKey t2 n.
Proof. intros (Hd & Hm & Hy). unfold cacheKey, Format_output. by rewrite Hd, Hm, Hy. Qed.

(** * Facts about the cache manager *)

(** Reduce the sequencing of [result]s. *)
Ltac res_simpl := cbn [mbind mret result_bind result_ret fst snd].
Ltac res_simpl_in H := cbn [mbind mret result_bind result_ret fst snd] in H.

Lemma Get_stored db key val : bolt.Get (stored db key val) "cache" key = Some val.
Proof. unfold bolt.Get, stored. rewrite lookup_insert_eq. simpl. by rewrite lookup_insert_eq. Qed.

Lemma Get_stored_ne db key key' val :
  key <> key' -> bolt.Get (stored db key val) "cache" key' = bolt.Get db "cache" key'.
Proof.
  intros Hne. unfold bolt.Get, stored. rewrite lookup_insert_eq. simpl.
  rewrite lookup_insert_ne by done. by destruct (db !! "cache").
Qed.

Lemma stored_other_bucket db key val name :
  name <> "cache" -> stored db key val !! name = db !! name.
Proof. intros Hne. unfold stored. by rewrite lookup_insert_ne. Qed.

Section CacheManagerFacts.
Context {R : Type}.
Variable provider : string -> Time -> mem -> result R * mem.
Variable json_Marshal : R -> result string.
Variable json_Unmarshal : string -> result R.

Let lookup := getCurrencyItemCache provider json_Marshal json_Unmarshal.

Lemma Create_Get flt db tx key :
  bolt.CreateBucketIfNotExists flt db "cache" = Ok tx ->
  bolt.Get tx "cache" key = bolt.Get db "cache" key.
Proof.
  unfold bolt.CreateBucketIfNotExists, bolt.fail_or, bolt.Get.
  destruct (bolt.CreateBucket_err flt); [done |].
  destruct (db !! "cache") eqn:Hb; intros [= <-]; [by rewrite Hb |].
  by rewrite lookup_insert_eq.
Qed.

Lemma Create_Put flt db tx key val :
  bolt.CreateBucketIfNotExists flt db "cache" = Ok tx ->
  bolt.Put flt tx "cache" key val = bolt.fail_or (bolt.Put_err flt) (stored db key val).
Proof.
  unfold bolt.CreateBucketIfNotExists, bolt.fail_or, bolt.Put, stored.
  destruct (bolt.CreateBucket_err flt); [done |].
  destruct (db !! "cache") eqn:Hb; intros [= <-]; [by rewrite Hb |].
  by rewrite lookup_insert_eq, insert_insert_eq.
Qed.

(** The lookup, case by case: what it returns and the world it leaves. *)
Lemma lookup_unfold flt name t skip w :
  lookup flt name t skip w =
  match bolt.Begin_err flt, bolt.CreateBucket_err flt with
  | Some e, _ | None, Some e => (Err e, w)
  | None, None =>
      match (if skip then None else bolt.Get (cacheStorage w) "cache" (cacheKey t name)) with
      | Some val =>
          (json_Unmarshal val, {| cacheStorage := cacheStorage w; memory := memory w |})
      | None =>
          let '(fetched, m') := provider name t (memory w) in
          match (r ← fetched; val ← json_Marshal r;
                 db' ← bolt.fail_or (bolt.Put_err flt) (stored (cacheStorage w) (cacheKey t name) val);
                 db' ← bolt.Commit flt db'; mret (r, db')) with
          | Ok (r, db') => (Ok r, {| cacheStorage := db'; memory := m' |})
          | Err e => (Err e, {| cacheStorage := cacheStorage w; memory := m' |})
          | Panic v => (Panic v, {| cacheStorage := cacheStorage w; memory := m' |})
          end
      end
  end.
Proof.
  unfold lookup, getCurrencyItemCache, bolt.Begin.
  destruct (bolt.Begin_err flt) as [e |]; [done |]. cbn [bolt.fail_or].
  destruct (bolt.CreateBucketIfNotExists flt (cacheStorage w) "cache") as [tx | e | v] eqn:Htx.
  2, 3: unfold bolt.CreateBucketIfNotExists, bolt.fail_or in Htx;
        destruct (bolt.CreateBucket_err flt); by inversion Htx.
  assert (bolt.CreateBucket_err flt = None) as ->.
  { unfold bolt.CreateBucketIfNotExists, bolt.fail_or in Htx.
    by destruct (bolt.CreateBucket_err flt). }
  unfold lookup_block, skipCache_block.
  rewrite (Create_Get _ _ _ _ Htx).
  assert (Hfill : forall val, bolt.Put flt tx "cache" (cacheKey t name) val
                  = bolt.fail_or (bolt.Put_err flt) (stored (cacheStorage w) (cacheKey t name) val))
    by (intros; by apply Create_Put).
  destruct skip; [| destruct (bolt.Get (cacheStorage w) "cache" (cacheKey t name)) as [val |]].
  2: { by destruct (json_Unmarshal val). }
  all: destruct (provider name t (memory w)) as [[r | e | v] m']; try done;
    res_simpl; destruct (json_Marshal r) as [val | e | v]; try done;
    res_simpl; rewrite Hfill; unfold bolt.fail_or, bolt.Commit;
    destruct (bolt.Put_err flt); try done; res_simpl;
    unfold bolt.fail_or; destruct (bolt.Commit_err flt); done.
Qed.

(** The committed state changes only when the lookup fetched, encoded,
    put and committed a value. *)
Lemma lookup_store flt name t skip w :
  let '(r, w') := lookup flt name t skip w in
  cacheStorage w' = cacheStorage w
  \/ exists v val, r = Ok v /\ (provider name t (memory w)).1 = Ok v
       /\ json_Marshal v = Ok val
       /\ cacheStorage w' = stored (cacheStorage w) (cacheKey t name) val.
Proof.
  rewrite lookup_unfold.
  destruct (bolt.Begin_err flt); [by left |].
  destruct (bolt.CreateBucket_err flt); [by left |].
  destruct (if skip then None else _); [by left |].
  destruct (provider name t (memory w)) as [[r | e | v] m']; res_simpl; try by left.
  destruct (json_Marshal r) as [val | e | v] eqn:Hval; res_simpl; try by left.
  unfold bolt.fail_or, bolt.Commit. destruct (bolt.Put_err flt); res_simpl; try by left.
  unfold bolt.fail_or. destruct (bolt.Commit_err flt); res_simpl; try by left.
  right. by exists r, val.
Qed.

(** A lookup that goes to the provider and returns a value has put the
    encoding of that value under the key. *)
Lemma lookup_fetch_path flt name t skip w r w' :
  skip = true \/ bolt.Get (cacheStorage w) "cache" (cacheKey t name) = None ->
  lookup flt name t skip w = (Ok r, w') ->
  provider name t (memory w) = (Ok r, memory w')
  /\ exists val, json_Marshal r = Ok val
       /\ cacheStorage w' = stored (cacheStorage w) (cacheKey t name) val.
Proof.
  intros Hreach. unfold lookup. rewrite lookup_unfold.
  destruct (bolt.Begin_err flt); [done |].
  destruct (bolt.CreateBucket_err flt); [done |].
  assert ((if skip then None else bolt.Get (cacheStorage w) "cache" (cacheKey t name)) = None)
    as -> by (destruct Hreach as [-> | ->]; [done | by destruct skip]).
  destruct (provider name t (memory w)) as [[v | e | p] m']; res_simpl; [| done ..].
  destruct (json_Marshal v) as [val | e | p] eqn:Hval; res_simpl; [| done ..].
  unfold bolt.fail_or, bolt.Commit. destruct (bolt.Put_err flt); res_simpl; [done |].
  unfold bolt.fail_or. destruct (bolt.Commit_err flt); res_simpl; [done |].
  intros [= <- <-]. split; [done |]. by exists val.
Qed.
End CacheManagerFacts.

(** * Facts about the batch loops *)

Section Loops.
Context {G : GoLibs} {LJ : Json.Libs} {LX : Xml.Libs}.

Lemma Json_loop_app env skip pre : forall i rest rows w,
  Json.loop env skip i (pre ++ rest)%list rows w =
  match Json.loop env skip i pre rows w with
  | (Ok rows', w') => Json.loop env skip (i + length pre) rest rows' w'
  | failed => failed
  end.
Proof.
  induction pre as [|c pre IH]; intros i rest rows w; simpl.
  - by rewrite Nat.add_0_r.
  - destruct (Json.getCurrencyItemCache _ _ _ _ _ _) as [r w'].
    destruct (r ≫= Json.getRow); [| done ..].
    rewrite IH. by replace (S i + length pre)%nat with (i + S (length pre))%nat by lia.
Qed.

Lemma Xml_loop_app env skip date pre : forall i rest rows w,
  Xml.loop env skip date i (pre ++ rest)%list rows w =
  match Xml.loop env skip date i pre rows w with
  | (Ok rows', w') => Xml.loop env skip date (i + length pre) rest rows' w'
  | failed => failed
  end.
Proof.
  induction pre as [|c pre IH]; intros i rest rows w; simpl.
  - by rewrite Nat.add_0_r.
  - destruct (Xml.getCurrencyItemCache _ _ _ _ _ _) as [[row | e | p] w']; [| done ..].
    rewrite IH. by replace (S i + length pre)%nat with (i + S (length pre))%nat by lia.
Qed.

Lemma Plain_loop_app env pre : forall i rest rows m,
  Plain.loop env i (pre ++ rest)%list rows m =
  match Plain.loop env i pre rows m with
  | (Ok rows', m') => Plain.loop env (i + length pre) rest rows' m'
  | failed => failed
  end.
Proof.
  induction pre as [|c pre IH]; intros i rest rows m; simpl.
  - by rewrite Nat.add_0_r.
  - destruct (Plain.getCurrencyItem _ _ _ _) as [r m'].
    destruct (r ≫= Json.getRow); [| done ..].
    rewrite IH. by replace (S i + length pre)%nat with (i + S (length pre))%nat by lia.
Qed.

(** ** The bulletin is fetched at most once *)

Lemma fill_rates t vals : forall rates r rates',
  Xml.fill t vals rates = (r, rates') -> rates <> ∅ -> rates' <> ∅.
Proof.
  induction vals as [|v vals IH]; intros rates r rates'; simpl.
  - by intros [= _ <-].
  - destruct (Xml.getRow (Xml.set_Date t v)) as [row | e | p].
    + intros Hfill _. eapply IH; [exact Hfill |]. apply insert_non_empty.
    + by intros [= _ <-].
    + by intros [= _ <-].
Qed.

(** A filled map answers without a request; an empty one costs at most
    one request, and what is returned is the map left in memory. *)
Lemma getCurrencyRates_effect do t m :
  let '(r, m') := Xml.getCurrencyRates do t m in
  (currenciesRate m <> ∅ -> r = Ok (currenciesRate m) /\ m' = m)
  /\ (currenciesRate m = ∅ ->
      (m' = m \/ requests m' = (requests m ++ [Xml.url_of t])%list)
      /\ forall vals, r = Ok vals -> vals = currenciesRate m').
Proof.
  unfold Xml.getCurrencyRates.
  destruct (0 <? size (currenciesRate m))%nat eqn:Hsize.
  - apply Nat.ltb_lt in Hsize. split; [done |].
    intros Hempty. rewrite Hempty, map_size_empty in Hsize. lia.
  - apply Nat.ltb_ge in Hsize. assert (currenciesRate m = ∅) as Hempty.
    { apply map_size_empty_iff. lia. }
    destruct (http_NewRequest (Xml.url_of t)); [split; [done | split; [by left | done]] |].
    cbv zeta.
    destruct (Xml.fetch_bulletin do (length (requests m)) (Xml.url_of t)) as [v | e | p].
    2, 3: split; [done | split; [by right | done]].
    destruct (Xml.fill t (Xml.Valutes v) (currenciesRate (send (Xml.url_of t) m)))
      as [[[] | e | p] rates]; res_simpl;
      (split; [done | split; [by right |]]); [| done ..].
    by intros vals [= <-].
Qed.

Lemma getCurrencyRate_effect do name t m :
  let '(r, m') := Xml.getCurrencyRate do name t m in
  (currenciesRate m <> ∅ ->
     m' = m /\ r = match currenciesRate m !! ToLower name with
                   | Some row => Ok row
                   | None => Err ("cannot get currency rate for '" +:+ name +:+ "'")
                   end)
  /\ (currenciesRate m = ∅ ->
      (m' = m \/ requests m' = (requests m ++ [Xml.url_of t])%list)
      /\ (is_Ok r = true -> currenciesRate m' <> ∅)).
Proof.
  unfold Xml.getCurrencyRate.
  pose proof (getCurrencyRates_effect do t m) as Heff.
  destruct (Xml.getCurrencyRates do t m) as [r m']. destruct Heff as [Hfull Hempty].
  split.
  - intros Hne. destruct (Hfull Hne) as [-> ->]. done.
  - intros He. destruct (Hempty He) as [Hreq Hvals]. split; [done |].
    destruct r as [vals | e | p]; res_simpl; [| done ..].
    rewrite (Hvals vals eq_refl).
    destruct (currenciesRate m' !! ToLower name) eqn:Hrow; [| done].
    intros _ Hnil. by rewrite Hnil, lookup_empty in Hrow.
Qed.

(** One lookup keeps the invariant when it succeeds, and never brings the
    number of requests above one. *)
Lemma Xml_lookup_fetches do flt name t skip w :
  at_most_one_fetch (memory w) ->
  let '(r, w') := Xml.getCurrencyItemCache do flt name t skip w in
  (length (requests (memory w')) <= 1)%nat
  /\ (is_Ok r = true -> at_most_one_fetch (memory w')).
Proof.
  intros Hinv.
  assert (Hle : (length (requests (memory w)) <= 1)%nat).
  { destruct Hinv as [-> | [-> _]]; simpl; lia. }
  unfold Xml.getCurrencyItemCache. rewrite lookup_unfold.
  destruct (bolt.Begin_err flt); [done |].
  destruct (bolt.CreateBucket_err flt); [done |].
  destruct (if skip then None else _); [done |].
  pose proof (getCurrencyRate_effect do name t (memory w)) as Heff.
  destruct (Xml.getCurrencyRate do name t (memory w)) as [fetched m'].
  destruct Heff as [Hfull Hempty].
  assert (Hm' : (length (requests m') <= 1)%nat
                /\ (is_Ok fetched = true -> at_most_one_fetch m')).
  { destruct (decide (currenciesRate (memory w) = ∅)) as [He | Hne].
    - destruct (Hempty He) as [[-> | Hreq] Hok]; [done |].
      destruct Hinv as [Hnil | [_ ?]]; [| done].
      rewrite Hnil in Hreq. rewrite Hreq. split; [simpl; lia |].
      intros Hfetched. right. rewrite Hreq. split; [done | by apply Hok].
    - destruct (Hfull Hne) as [-> _]. done. }
  destruct Hm' as [Hlen Hkeep].
  destruct fetched as [row | e | p]; res_simpl; [| done ..].
  destruct (Xml.json_Marshal row); res_simpl; [| done ..].
  unfold bolt.fail_or, bolt.Commit. destruct (bolt.Put_err flt); res_simpl; [done |].
  unfold bolt.fail_or. destruct (bolt.Commit_err flt); res_simpl; [done |].
  split; [done |]. intros _. by apply Hkeep.
Qed.

Lemma Xml_loop_fetches env skip date cs : forall i rows w,
  at_most_one_fetch (memory w) ->
  (length (requests (memory (Xml.loop env skip date i cs rows w).2)) <= 1)%nat.
Proof.
  induction cs as [|c cs IH]; intros i rows w Hinv; simpl.
  - destruct Hinv as [-> | [-> _]]; simpl; lia.
  - pose proof (Xml_lookup_fetches (client env) (faults_at env i) c date skip w Hinv) as Hstep.
    destruct (Xml.getCurrencyItemCache _ _ _ _ _ _) as [[row | e | p] w'];
      destruct Hstep as [Hlen Hkeep]; [| done ..].
    apply IH. by apply Hkeep.
Qed.
End Loops.

(** * Facts about the providers *)

Section Providers.
Context {G : GoLibs} {LJ : Json.Libs} {LX : Xml.Libs}.

(** What [getCurrencyItem] returns is the last observation of the decoded
    answer, with the name asked for and the divisor of the table. *)
Lemma getCurrencyItem_record do name t m r m' :
  Json.getCurrencyItem do name t m = (Ok r, m') ->
  exists info res body bytes data d,
    Json.currenciesInfo !! name = Some info
    /\ do (length (requests m)) (Json.url_of (Json.code info) (Unix t)) = Ok res
    /\ Body res = Some body /\ ReadAll body = Ok bytes
    /\ Json.json_Unmarshal_list bytes = Ok data
    /\ last data = Some d
    /\ r = {| Json.Name := name; Json.DivOn := Json.div info; Json.Date := Json.Date d;
              Json.Curs := Json.Curs d; Json.Diff := Json.Diff d |}.
Proof.
  unfold Json.getCurrencyItem.
  destruct (Json.currenciesInfo !! name) as [info |]; [| done].
  destruct (http_NewRequest _); [done |]. unfold Json.fetch_item.
  destruct (do _ _) as [res | e | p] eqn:Hdo; res_simpl; [| done ..].
  destruct (Body res) as [body |] eqn:Hbody; res_simpl; [| done].
  destruct (negb _); [done |].
  destruct (ReadAll body) as [bytes | e | p] eqn:Hread; res_simpl; [| done ..].
  destruct (Json.json_Unmarshal_list bytes) as [data | e | p] eqn:Hdec; res_simpl; [| done ..].
  unfold index.
  destruct (0 <=? Z.of_nat (length data) - 1) eqn:Hpos; [| done].
  destruct (data !! Z.to_nat (Z.of_nat (length data) - 1)) as [d |] eqn:Hd; res_simpl; [| done].
  intros [= <- _]. exists info, res, body, bytes, data, d.
  repeat split; try done.
  rewrite last_lookup. rewrite <- Hd. f_equal. lia.
Qed.

(** The row of a [Valute]: its third field is the quotient, rendered. *)
Lemma Valute_getRow_fields v row :
  Xml.getRow v = Ok row ->
  exists x, ParseFloat (Replace_comma_dot (Xml.Value v)) = Ok x
    /\ row = [Format_output (Xml.Date v); ToUpper (Xml.CharCode v);
              Sprintf_2f (x / float64_of_int (Xml.Nominal v))%float].
Proof.
  unfold Xml.getRow.
  destruct (ParseFloat _) as [x | e | p]; res_simpl; [| done ..].
  intros [= <-]. by exists x.
Qed.

Lemma fill_rendered t vals : forall rates r rates',
  Xml.fill t vals rates = (r, rates') -> rates_rendered rates -> rates_rendered rates'.
Proof.
  induction vals as [|v vals IH]; intros rates r rates'; simpl.
  - by intros [= _ <-].
  - destruct (Xml.getRow (Xml.set_Date t v)) as [row | e | p] eqn:Hrow.
    + intros Hfill Hrates. eapply IH; [exact Hfill |].
      intros k row'. rewrite lookup_insert. case_decide.
      * intros [= <-]. by eexists.
      * apply Hrates.
    + by intros [= _ <-].
    + by intros [= _ <-].
Qed.

(** [getCurrencyRates] keeps [currenciesRate] rendered. *)
Lemma getCurrencyRates_rendered do t m r m' :
  Xml.getCurrencyRates do t m = (r, m') ->
  rates_rendered (currenciesRate m) -> rates_rendered (currenciesRate m').
Proof.
  unfold Xml.getCurrencyRates.
  destruct (0 <? size (currenciesRate m))%nat; [by intros [= _ <-] |].
  destruct (http_NewRequest _); [by intros [= _ <-] |]. cbv zeta.
  destruct (Xml.fetch_bulletin _ _ _) as [v | e | p]; [| by intros [= _ <-] ..].
  destruct (Xml.fill _ _ _) as [r0 rates] eqn:Hfill.
  intros [= _ <-] Hrates. simpl. by eapply fill_rendered.
Qed.

(** A row [getCurrencyRate] returns was rendered by [Valute.getRow]. *)
Lemma getCurrencyRate_rendered do name t m row m' :
  Xml.getCurrencyRate do name t m = (Ok row, m') ->
  rates_rendered (currenciesRate m) ->
  rates_rendered (currenciesRate m') /\ exists v, Xml.getRow v = Ok row.
Proof.
  unfold Xml.getCurrencyRate.
  pose proof (getCurrencyRates_rendered do t m) as Hkeep.
  pose proof (getCurrencyRates_effect do t m) as Heff.
  destruct (Xml.getCurrencyRates do t m) as [[vals | e | p] m1]; res_simpl; [| done ..].
  destruct (vals !! ToLower name) as [row' |] eqn:Hrow; [| done].
  intros [= -> ->] Hrates. specialize (Hkeep _ _ eq_refl Hrates). split; [done |].
  destruct Heff as [Hfull Hempty].
  destruct (decide (currenciesRate m = ∅)) as [He | Hne].
  - destruct (Hempty He) as [_ Hvals]. rewrite (Hvals vals eq_refl) in Hrow.
    by apply (Hkeep _ _ Hrow).
  - destruct (Hfull Hne) as [[= ->] ->]. by apply (Hrates _ _ Hrow).
Qed.

(** Every row the loop of the JSON program adds was rendered by [getRow]
    from the record a lookup returned. *)
Lemma Json_loop_rows env skip cs : forall i rows w rows' w',
  Json.loop env skip i cs rows w = (Ok rows', w') ->
  exists added, rows' = (rows ++ added)%list
    /\ Forall (fun row => exists r, Json.getRow r = Ok row) added.
Proof.
  induction cs as [|c cs IH]; intros i rows w rows' w'; simpl.
  - intros [= <- _]. exists []. by rewrite app_nil_r.
  - destruct (Json.getCurrencyItemCache _ _ _ _ _ _) as [[r | e | p] w1]; res_simpl; [| done ..].
    destruct (Json.getRow r) as [row | e | p] eqn:Hrow; [| done ..].
    intros Hloop. destruct (IH _ _ _ _ _ Hloop) as (added & -> & Hall).
    exists (row :: added). rewrite <- app_assoc. split; [done |].
    constructor; [by exists r | done].
Qed.

(** A loop that went through has appended one row per currency. *)
Lemma Json_loop_length env skip cs : forall i rows w rows' w',
  Json.loop env skip i cs rows w = (Ok rows', w') ->
  length rows' = (length rows + length cs)%nat.
Proof.
  induction cs as [|c cs IH]; intros i rows w rows' w'; simpl.
  - intros [= <- _]. lia.
  - destruct (Json.getCurrencyItemCache _ _ _ _ _ _) as [[r | e | p] w1]; res_simpl; [| done ..].
    destruct (Json.getRow r) as [row | e | p]; [| done ..].
    intros Hloop. rewrite (IH _ _ _ _ _ Hloop), length_app. simpl. lia.
Qed.

Lemma Xml_loop_rows env skip date cs : forall i rows w rows' w',
  Xml.loop env skip date i cs rows w = (Ok rows', w') ->
  exists added, rows' = (rows ++ added)%list /\ length added = length cs.
Proof.
  induction cs as [|c cs IH]; intros i rows w rows' w'; simpl.
  - intros [= <- _]. exists []. by rewrite app_nil_r.
  - destruct (Xml.getCurrencyItemCache _ _ _ _ _ _) as [[row | e | p] w1]; [| done ..].
    intros Hloop. destruct (IH _ _ _ _ _ Hloop) as (added & -> & Hlen).
    exists (row :: added). rewrite <- app_assoc. split; [done |]. simpl. by rewrite Hlen.
Qed.
End Providers.

(** * The claims about the cache manager *)

Section CacheManagerClaims.
Context {R : Type}.
Variable provider : string -> Time -> mem -> result R * mem.
Variable json_Marshal : R -> result string.
Variable json_Unmarshal : string -> result R.

Let lookup := getCurrencyItemCache provider json_Marshal json_Unmarshal.

(** C1. Atomicity under provider failure: when the provider call of a
    lookup for (currency, date) fails, the committed cache store is the
    same afterwards, so the key has no entry if it had none and keeps its
    value if it had one; when the lookup reaches the provider (bypass, or
    no entry) its error is what the lookup returns. *)
Theorem provider_failure_leaves_store_unchanged flt name t skip w :
  is_Ok (provider name t (memory w)).1 = false ->
  let '(r, w') := lookup flt name t skip w in
  cacheStorage w' = cacheStorage w
  /\ bolt.Get (cacheStorage w') "cache" (cacheKey t name)
     = bolt.Get (cacheStorage w) "cache" (cacheKey t name)
  /\ forall e, (provider name t (memory w)).1 = Err e -> tx_opens flt ->
       skip = true \/ bolt.Get (cacheStorage w) "cache" (cacheKey t name) = None ->
       r = Err e.
Proof.
  intros Hfail.
  pose proof (lookup_store provider json_Marshal json_Unmarshal flt name t skip w) as Hst.
  pose proof (lookup_unfold provider json_Marshal json_Unmarshal flt name t skip w) as Hun.
  fold lookup in Hst, Hun.
  destruct (lookup flt name t skip w) as [r w'].
  assert (Hsame : cacheStorage w' = cacheStorage w).
  { destruct Hst as [? | (v & val & _ & Hok & _)]; [done |].
    rewrite Hok in Hfail. done. }
  rewrite Hsame. do 2 (split; [done |]).
  intros e He [Hb Hc] Hreach. rewrite Hb, Hc in Hun.
  assert ((if skip then None else bolt.Get (cacheStorage w) "cache" (cacheKey t name)) = None)
    as Hmiss by (destruct Hreach as [-> | ->]; [done | by destruct skip]).
  rewrite Hmiss in Hun.
  destruct (provider name t (memory w)) as [fetched m']. simpl in He. subst fetched.
  res_simpl_in Hun. by inversion Hun.
Qed.

(** C3. When a lookup that reads the cache (no bypass, transaction and
    bucket open) finds under the key an entry that does not decode, it
    returns the decoder's error and leaves the world as it was: nothing is
    asked of the provider and nothing is written to the store. *)
Theorem decode_failure_is_returned flt name t w val e :
  tx_opens flt ->
  bolt.Get (cacheStorage w) "cache" (cacheKey t name) = Some val ->
  json_Unmarshal val = Err e ->
  lookup flt name t false w = (Err e, w).
Proof.
  intros [Hb Hc] Hget Hdec. unfold lookup.
  rewrite lookup_unfold, Hb, Hc, Hget, Hdec. by destruct w.
Qed.

(** C5. Bypass forces refresh: with bypass the provider runs whatever the
    cache holds (the memory it leaves is the memory the lookup leaves);
    a value the lookup returns is the one just fetched, and the bucket
    then holds its encoding under the key, in place of any earlier entry;
    and the lookup does return it when encoding, put and commit succeed. *)
Theorem bypass_forces_refresh flt name t w fetched m' :
  tx_opens flt ->
  provider name t (memory w) = (fetched, m') ->
  let '(r, w') := lookup flt name t true w in
  memory w' = m'
  /\ (forall v, r = Ok v ->
        fetched = Ok v
        /\ exists val, json_Marshal v = Ok val
             /\ cacheStorage w' = stored (cacheStorage w) (cacheKey t name) val
             /\ bolt.Get (cacheStorage w') "cache" (cacheKey t name) = Some val)
  /\ (forall v val, fetched = Ok v -> json_Marshal v = Ok val ->
        bolt.Put_err flt = None -> bolt.Commit_err flt = None -> r = Ok v).
Proof.
  intros [Hb Hc] Hp. unfold lookup. rewrite lookup_unfold, Hb, Hc, Hp.
  destruct fetched as [v | e | p]; res_simpl; [| by repeat split ..].
  destruct (json_Marshal v) as [val | e | p] eqn:Hval; res_simpl;
    [| repeat split; intros; simplify_eq; congruence ..].
  unfold bolt.fail_or, bolt.Commit.
  destruct (bolt.Put_err flt); res_simpl; [repeat split; intros; simplify_eq |].
  unfold bolt.fail_or. destruct (bolt.Commit_err flt); res_simpl;
    [repeat split; intros; simplify_eq |].
  split; [done |]. split.
  - intros v' [= <-]. split; [done |]. exists val. simpl. by rewrite Get_stored.
  - intros v' val' [= <-] _ _ _. done.
Qed.

(** C6. Idempotence of cache hits: after a lookup without bypass that
    returned a value, a second lookup for the same (date, currency)
    without bypass returns the same value and leaves the world untouched,
    whatever the provider would now answer: it is served from the entry.
    The codec is assumed to read back what it wrote for that value, and
    the second transaction to open. *)
Theorem cache_hit_is_idempotent
    (provider2 : string -> Time -> mem -> result R * mem) flt flt2 name t w r w1 :
  lookup flt name t false w = (Ok r, w1) ->
  (forall val, json_Marshal r = Ok val -> json_Unmarshal val = Ok r) ->
  tx_opens flt2 ->
  getCurrencyItemCache provider2 json_Marshal json_Unmarshal flt2 name t false w1 = (Ok r, w1).
Proof.
  intros Hfirst Hround [Hb2 Hc2]. unfold lookup in Hfirst.
  rewrite lookup_unfold in Hfirst. rewrite lookup_unfold, Hb2, Hc2.
  destruct (bolt.Begin_err flt); [done |].
  destruct (bolt.CreateBucket_err flt); [done |].
  destruct (bolt.Get (cacheStorage w) "cache" (cacheKey t name)) as [val |] eqn:Hget.
  - injection Hfirst as Hdec <-. simpl. rewrite Hget, Hdec. done.
  - destruct (provider name t (memory w)) as [[v | e | p] m']; res_simpl_in Hfirst; try done.
    destruct (json_Marshal v) as [val | e | p] eqn:Hval; res_simpl_in Hfirst; try done.
    unfold bolt.fail_or, bolt.Commit in Hfirst.
    destruct (bolt.Put_err flt); res_simpl_in Hfirst; try done.
    unfold bolt.fail_or in Hfirst. destruct (bolt.Commit_err flt); res_simpl_in Hfirst; try done.
    injection Hfirst as -> <-. simpl. rewrite Get_stored, (Hround _ Hval). done.
Qed.
End CacheManagerClaims.

(** The provider cannot be reached while the cache holds an earlier row:
    the bypassing lookup fails with the client's error and the row stays. *)
Lemma provider_failure_leaves_store_unchanged_witness :
  let '(r, w') := @Xml.getCurrencyItemCache Stub.go Stub.xml Stub.unreachable
                    bolt.no_faults "usd" Stub.jan10 true (boot Stub.db_row) in
  cacheStorage w' = Stub.db_row
  /\ bolt.Get (cacheStorage w') "cache" (cacheKey Stub.jan10 "usd")
     = bolt.Get Stub.db_row "cache" (cacheKey Stub.jan10 "usd")
  /\ forall e,
       (@Xml.getCurrencyRate Stub.go Stub.xml Stub.unreachable "usd" Stub.jan10
          (memory (boot Stub.db_row))).1 = Err e ->
       tx_opens bolt.no_faults ->
       true = true \/ bolt.Get Stub.db_row "cache" (cacheKey Stub.jan10 "usd") = None ->
       r = Err e.
Proof.
  apply (provider_failure_leaves_store_unchanged
           (@Xml.getCurrencyRate Stub.go Stub.xml Stub.unreachable)
           (@Xml.json_Marshal Stub.xml) (@Xml.json_Unmarshal Stub.xml)
           bolt.no_faults "usd" Stub.jan10 true (boot Stub.db_row)).
  vm_compute. reflexivity.
Defined.

(** The entry for the dollar was cut short: the lookup returns the
    decoder's error; no request is sent, the file is as before. *)
Lemma decode_failure_is_returned_witness :
  @Xml.getCurrencyItemCache Stub.go Stub.xml (Stub.serving Stub.bulletin_text)
    bolt.no_faults "usd" Stub.jan10 false (boot Stub.db_corrupt)
  = (Err "json: cannot unmarshal into Go value of type []string", boot Stub.db_corrupt).
Proof.
  apply (decode_failure_is_returned
           (@Xml.getCurrencyRate Stub.go Stub.xml (Stub.serving Stub.bulletin_text))
           (@Xml.json_Marshal Stub.xml) (@Xml.json_Unmarshal Stub.xml)
           bolt.no_faults "usd" Stub.jan10 (boot Stub.db_corrupt)
           ("[" +:+ Stub.quote "10.01.2024" +:+ ",")).
  - done.
  - vm_compute. reflexivity.
  - vm_compute. reflexivity.
Defined.

(** The cache holds the row 91.00 and the service now quotes 92.50: the
    bypassing lookup runs the provider, and what it returns is what the
    provider fetched and what the bucket then holds under the key. *)
Lemma bypass_forces_refresh_witness :
  let provider := @Xml.getCurrencyRate Stub.go Stub.xml
                    (Stub.serving Stub.bulletin_later_text) in
  let '(r, w') := @Xml.getCurrencyItemCache Stub.go Stub.xml
                    (Stub.serving Stub.bulletin_later_text)
                    bolt.no_faults "usd" Stub.jan10 true (boot Stub.db_row) in
  memory w' = (provider "usd" Stub.jan10 (memory (boot Stub.db_row))).2
  /\ (forall v, r = Ok v ->
        (provider "usd" Stub.jan10 (memory (boot Stub.db_row))).1 = Ok v
        /\ exists val, @Xml.json_Marshal Stub.xml v = Ok val
             /\ cacheStorage w' = stored Stub.db_row (cacheKey Stub.jan10 "usd") val
             /\ bolt.Get (cacheStorage w') "cache" (cacheKey Stub.jan10 "usd") = Some val)
  /\ (forall v val,
        (provider "usd" Stub.jan10 (memory (boot Stub.db_row))).1 = Ok v ->
        @Xml.json_Marshal Stub.xml v = Ok val ->
        bolt.Put_err bolt.no_faults = None -> bolt.Commit_err bolt.no_faults = None ->
        r = Ok v).
Proof.
  apply (bypass_forces_refresh
           (@Xml.getCurrencyRate Stub.go Stub.xml
              (Stub.serving Stub.bulletin_later_text))
           (@Xml.json_Marshal Stub.xml) (@Xml.json_Unmarshal Stub.xml)
           bolt.no_faults "usd" Stub.jan10 (boot Stub.db_row)).
  - done.
  - apply surjective_pairing.
Defined.

(** The dollar is looked up once while the service answers, and again when
    it cannot be reached: the same row, and no second request. *)
Lemma cache_hit_is_idempotent_witness :
  let w1 := (@Xml.getCurrencyItemCache Stub.go Stub.xml (Stub.serving Stub.bulletin_text)
               bolt.no_faults "usd" Stub.jan10 false (boot ∅)).2 in
  @Xml.getCurrencyItemCache Stub.go Stub.xml Stub.unreachable
    bolt.no_faults "usd" Stub.jan10 false w1
  = (Ok ["10.01.2024"; "USD"; "91.00"], w1).
Proof.
  apply (cache_hit_is_idempotent
           (@Xml.getCurrencyRate Stub.go Stub.xml (Stub.serving Stub.bulletin_text))
           (@Xml.json_Marshal Stub.xml) (@Xml.json_Unmarshal Stub.xml)
           (@Xml.getCurrencyRate Stub.go Stub.xml Stub.unreachable)
           bolt.no_faults bolt.no_faults "usd" Stub.jan10 (boot ∅)).
  - vm_compute. reflexivity.
  - intros val. vm_compute. by intros [= <-].
  - done.
Defined.

(** * The cache key *)

(** C4, as stated, fails: the key carries the currency identifier as the
    caller wrote it. For the dollar written in capitals the key ends in
    [USD], not in the lowercase form [usd]; the two spellings get two
    different keys. *)
Lemma cache_key_keeps_the_spelling :
  cacheKey Stub.jan10 "USD" = "10.01.2024-USD"
  /\ cacheKey Stub.jan10 "USD"
     <> Format_output Stub.jan10 +:+ "-" +:+ @ToLower Stub.go "USD"
  /\ cacheKey Stub.jan10 "USD" <> cacheKey Stub.jan10 "usd".
Proof. by vm_compute. Qed.

(** C4, amended. For a calendar date with a four-digit year the cache key
    is the day as two digits, a dot, the month as two digits, a dot, the
    year as four digits, a hyphen, and the currency identifier exactly as
    given. Two keys are equal exactly when the calendar dates are equal and
    the identifiers are equal: equal pairs give equal keys and distinct
    pairs never collide. *)
Theorem cache_key_format t name :
  valid_date t ->
  (exists dd mm yyyy,
      cacheKey t name = dd +:+ "." +:+ mm +:+ "." +:+ yyyy +:+ "-" +:+ name
      /\ decimal_field 2 (Day t) dd /\ decimal_field 2 (Month t) mm
      /\ decimal_field 4 (Year t) yyyy)
  /\ forall t' name', cacheKey t name = cacheKey t' name' <-> same_date t t' /\ name = name'.
Proof.
  intros (Hd & Hm & Hy). split.
  - exists (appendInt (Day t) 2), (appendInt (Month t) 2), (appendInt (Year t) 4).
    split; [unfold cacheKey, Format_output; by rewrite !append_assoc |].
    repeat split; apply appendInt_field; simpl; lia.
  - intros t' name'. split; [apply cacheKey_inj |].
    intros [Hsame ->]. by apply cacheKey_same_date.
Qed.

Lemma cache_key_format_witness :
  valid_date Stub.jan10
  /\ (exists dd mm yyyy,
        cacheKey Stub.jan10 "usd" = dd +:+ "." +:+ mm +:+ "." +:+ yyyy +:+ "-" +:+ "usd"
        /\ decimal_field 2 10 dd /\ decimal_field 2 1 mm /\ decimal_field 4 2024 yyyy)
  /\ forall t' name',
       cacheKey Stub.jan10 "usd" = cacheKey t' name' <-> same_date Stub.jan10 t' /\ "usd" = name'.
Proof.
  assert (Hv : valid_date Stub.jan10) by (unfold valid_date; simpl; lia).
  split; [exact Hv |]. exact (cache_key_format Stub.jan10 "usd" Hv).
Defined.

(** * Spelling of the currency identifier *)

Lemma ToLower_known_key {G : GoLibs} k :
  is_Some (Json.currenciesInfo !! k) -> ToLower k = k.
Proof.
  unfold Json.currenciesInfo. intros Hk.
  destruct (decide (k = "usd")) as [-> | ?]; [done |].
  destruct (decide (k = "eur")) as [-> | ?]; [done |].
  destruct (decide (k = "uah")) as [-> | ?]; [done |].
  rewrite !lookup_insert_ne, lookup_empty in Hk by done. by destruct Hk.
Qed.

(** C7, as stated, fails: in the JSON program the dollar written in
    capitals is an invalid currency name, while [usd] is served. *)
Lemma capitals_are_an_invalid_name :
  @Json.getCurrencyItem Stub.go Stub.json (Stub.serving Stub.usd_body)
    "USD" Stub.jan10 (memory (boot ∅))
  = (Err "invalid currency name: USD", memory (boot ∅))
  /\ (@Json.getCurrencyItem Stub.go Stub.json (Stub.serving Stub.usd_body)
        "usd" Stub.jan10 (memory (boot ∅))).1 = Ok Stub.usd_item.
Proof. by vm_compute. Qed.

(** C7, amended. No program treats the identifier without regard to case
    from end to end. In the XML bulletin program only the provider folds
    case: asked on the same memory, two spellings with the same lowercase
    form get the same row from [getCurrencyRate], and lookups that both go
    to the provider return the same row. But the cache key keeps the
    spelling, so each spelling has its own entry: a lookup never reads the
    entry stored under another spelling, and when only one of them is
    cached, that one is served from its entry while the other is answered
    as if the cache held nothing. The JSON programs take the identifier
    literally: a spelling other than the table's own key of a known
    currency is refused as an invalid currency name, before any request. *)
Theorem currency_name_spelling {G : GoLibs} {LJ : Json.Libs} {LX : Xml.Libs}
    (do : Client) (t : Time) (m : mem) (name name' : string) :
  ToLower name' = ToLower name ->
  (forall row m', Xml.getCurrencyRate do name t m = (Ok row, m')
                  <-> Xml.getCurrencyRate do name' t m = (Ok row, m'))
  /\ (is_Some (Json.currenciesInfo !! name) -> name' <> name ->
      Json.getCurrencyItem do name' t m = (Err ("invalid currency name: " +:+ name'), m)
      /\ Plain.getCurrencyItem do name' t m = (Err ("invalid currency name: " +:+ name'), m))
  /\ (forall flt skip db row w1,
      skip = true
      \/ (bolt.Get db "cache" (cacheKey t name) = None
          /\ bolt.Get db "cache" (cacheKey t name') = None) ->
      Xml.getCurrencyItemCache do flt name t skip {| cacheStorage := db; memory := m |}
      = (Ok row, w1) ->
      exists val,
        Xml.json_Marshal row = Ok val
        /\ cacheStorage w1 = stored db (cacheKey t name) val
        /\ Xml.getCurrencyItemCache do flt name' t skip {| cacheStorage := db; memory := m |}
           = (Ok row, {| cacheStorage := stored db (cacheKey t name') val;
                         memory := memory w1 |}))
  /\ (name' <> name ->
      cacheKey t name' <> cacheKey t name
      /\ forall flt skip db val,
           let cached := {| cacheStorage := stored db (cacheKey t name) val; memory := m |} in
           let empty := {| cacheStorage := db; memory := m |} in
           (Xml.getCurrencyItemCache do flt name' t skip cached).1
           = (Xml.getCurrencyItemCache do flt name' t skip empty).1
           /\ memory (Xml.getCurrencyItemCache do flt name' t skip cached).2
              = memory (Xml.getCurrencyItemCache do flt name' t skip empty).2
           /\ forall row0,
                tx_opens flt ->
                Xml.json_Unmarshal val = Ok row0 ->
                Xml.getCurrencyItemCache do flt name t false cached = (Ok row0, cached)).
Proof.
  intros Hlow.
  assert (Hfold : forall row m', Xml.getCurrencyRate do name t m = (Ok row, m')
                                 <-> Xml.getCurrencyRate do name' t m = (Ok row, m')).
  { intros row m'. unfold Xml.getCurrencyRate. rewrite Hlow.
    destruct (Xml.getCurrencyRates do t m) as [[vals | e | p] m1]; res_simpl; [| done ..].
    by destruct (vals !! ToLower name). }
  split; [exact Hfold |]. split; [| split].
  - intros Hknown Hne.
    assert (Json.currenciesInfo !! name' = None) as Hnone.
    { destruct (Json.currenciesInfo !! name') as [info |] eqn:Hinfo; [| done].
      exfalso. apply Hne.
      rewrite <- (ToLower_known_key name'), <- (ToLower_known_key name) by (done || by eexists).
      done. }
    unfold Json.getCurrencyItem, Plain.getCurrencyItem. by rewrite Hnone.
  - intros flt skip db row w1 Hreach Hlook.
    assert (skip = true
            \/ bolt.Get (cacheStorage {| cacheStorage := db; memory := m |}) "cache"
                 (cacheKey t name) = None) as Hreach1
      by (destruct Hreach as [? | [? _]]; [by left | by right]).
    destruct (lookup_fetch_path _ _ _ _ _ _ _ _ _ _ Hreach1 Hlook) as (Hrate & val & Hval & Hst).
    simpl in Hrate, Hst. apply Hfold in Hrate.
    exists val. split; [done |]. split; [done |].
    unfold Xml.getCurrencyItemCache in *. rewrite lookup_unfold in Hlook. rewrite lookup_unfold.
    destruct (bolt.Begin_err flt); [done |].
    destruct (bolt.CreateBucket_err flt); [done |]. simpl.
    assert ((if skip then None else bolt.Get db "cache" (cacheKey t name')) = None) as ->
      by (destruct Hreach as [-> | [_ ->]]; [done | by destruct skip]).
    rewrite Hrate. res_simpl. rewrite Hval. res_simpl.
    simpl in Hlook.
    assert ((if skip then None else bolt.Get db "cache" (cacheKey t name)) = None) as Hmiss
      by (destruct Hreach as [-> | [-> _]]; [done | by destruct skip]).
    rewrite Hmiss in Hlook.
    destruct (Xml.getCurrencyRate do name t m) as [[row1 | e | p] m1]; res_simpl_in Hlook;
      [| done ..].
    destruct (Xml.json_Marshal row1) as [val1 | e | p]; res_simpl_in Hlook; [| done ..].
    unfold bolt.fail_or, bolt.Commit in *.
    destruct (bolt.Put_err flt); res_simpl_in Hlook; [done |]. res_simpl.
    unfold bolt.fail_or in *. destruct (bolt.Commit_err flt); res_simpl_in Hlook; [done |].
    done.
  - intros Hne.
    assert (cacheKey t name' <> cacheKey t name) as Hkey
      by (intros Heq; by apply cacheKey_inj in Heq as [_ ?]).
    split; [done |]. intros flt skip db val. cbv zeta. split; [| split].
    + unfold Xml.getCurrencyItemCache. rewrite !lookup_unfold. simpl.
      rewrite Get_stored_ne by done.
      destruct (bolt.Begin_err flt); [done |].
      destruct (bolt.CreateBucket_err flt); [done |].
      destruct (if skip then None else _); [done |].
      destruct (Xml.getCurrencyRate do name' t m) as [[row1 | e | p] m1]; res_simpl; [| done ..].
      destruct (Xml.json_Marshal row1) as [val1 | e | p]; res_simpl; [| done ..].
      unfold bolt.fail_or, bolt.Commit.
      destruct (bolt.Put_err flt); res_simpl; [done |].
      unfold bolt.fail_or. by destruct (bolt.Commit_err flt).
    + unfold Xml.getCurrencyItemCache. rewrite !lookup_unfold. simpl.
      rewrite Get_stored_ne by done.
      destruct (bolt.Begin_err flt); [done |].
      destruct (bolt.CreateBucket_err flt); [done |].
      destruct (if skip then None else _); [done |].
      destruct (Xml.getCurrencyRate do name' t m) as [[row1 | e | p] m1]; res_simpl; [| done ..].
      destruct (Xml.json_Marshal row1) as [val1 | e | p]; res_simpl; [| done ..].
      unfold bolt.fail_or, bolt.Commit.
      destruct (bolt.Put_err flt); res_simpl; [done |].
      unfold bolt.fail_or. by destruct (bolt.Commit_err flt).
    + intros row0 [Hb Hc] Hdec.
      unfold Xml.getCurrencyItemCache. rewrite lookup_unfold, Hb, Hc. simpl.
      by rewrite Get_stored, Hdec.
Qed.

(** The cache holds the row of [usd] at 91.00 and the service now quotes
    92.50: [usd] is served from its entry, [USD] is fetched. *)
Lemma currency_name_spelling_witness :
  @ToLower Stub.go "Usd" = @ToLower Stub.go "usd"
  /\ (forall row m',
        @Xml.getCurrencyRate Stub.go Stub.xml (Stub.serving Stub.bulletin_text)
          "usd" Stub.jan10 (memory (boot ∅)) = (Ok row, m')
        <-> @Xml.getCurrencyRate Stub.go Stub.xml (Stub.serving Stub.bulletin_text)
              "Usd" Stub.jan10 (memory (boot ∅)) = (Ok row, m'))
  /\ (is_Some (Json.currenciesInfo !! "usd") -> "Usd" <> "usd" ->
      @Json.getCurrencyItem Stub.go Stub.json (Stub.serving Stub.usd_body)
        "Usd" Stub.jan10 (memory (boot ∅))
      = (Err ("invalid currency name: " +:+ "Usd"), memory (boot ∅))
      /\ @Plain.getCurrencyItem Stub.go Stub.json (Stub.serving Stub.usd_body)
           "Usd" Stub.jan10 (memory (boot ∅))
         = (Err ("invalid currency name: " +:+ "Usd"), memory (boot ∅)))
  /\ (@Xml.getCurrencyItemCache Stub.go Stub.xml (Stub.serving Stub.bulletin_later_text)
        bolt.no_faults "USD" Stub.jan10 false (boot Stub.db_row)).1
     = Ok ["10.01.2024"; "USD"; "92.50"]
  /\ @Xml.getCurrencyItemCache Stub.go Stub.xml (Stub.serving Stub.bulletin_later_text)
       bolt.no_faults "usd" Stub.jan10 false (boot Stub.db_row)
     = (Ok ["10.01.2024"; "USD"; "91.00"], boot Stub.db_row)
  /\ exists val,
       @Xml.json_Marshal Stub.xml ["10.01.2024"; "USD"; "91.00"] = Ok val
       /\ Stub.xml_after_A = stored ∅ (cacheKey Stub.jan10 "usd") val
       /\ @Xml.getCurrencyItemCache Stub.go Stub.xml (Stub.serving Stub.bulletin_text)
            bolt.no_faults "Usd" Stub.jan10 false (boot ∅)
          = (Ok ["10.01.2024"; "USD"; "91.00"],
             {| cacheStorage := stored ∅ (cacheKey Stub.jan10 "Usd") val;
                memory := memory (@Xml.getCurrencyItemCache Stub.go Stub.xml
                                    (Stub.serving Stub.bulletin_text) bolt.no_faults "usd"
                                    Stub.jan10 false (boot ∅)).2 |}).
Proof.
  assert (Hl : @ToLower Stub.go "Usd" = @ToLower Stub.go "usd") by reflexivity.
  assert (Hu : @ToLower Stub.go "USD" = @ToLower Stub.go "usd") by reflexivity.
  assert (Hne : "USD" <> "usd") by discriminate.
  split; [exact Hl |].
  split; [| split; [| split; [| split]]].
  5: {
    exact (proj1 (proj2 (proj2 (@currency_name_spelling Stub.go Stub.json Stub.xml
                    (Stub.serving Stub.bulletin_text) Stub.jan10 (memory (boot ∅))
                    "usd" "Usd" Hl)))
             bolt.no_faults false ∅ ["10.01.2024"; "USD"; "91.00"]
             (@Xml.getCurrencyItemCache Stub.go Stub.xml (Stub.serving Stub.bulletin_text)
                bolt.no_faults "usd" Stub.jan10 false (boot ∅)).2
             ltac:(right; split; reflexivity) ltac:(vm_compute; reflexivity)). }
  - exact (proj1 (@currency_name_spelling Stub.go Stub.json Stub.xml
                    (Stub.serving Stub.bulletin_text) Stub.jan10 (memory (boot ∅))
                    "usd" "Usd" Hl)).
  - exact (proj1 (proj2 (@currency_name_spelling Stub.go Stub.json Stub.xml
                    (Stub.serving Stub.usd_body) Stub.jan10 (memory (boot ∅))
                    "usd" "Usd" Hl))).
  - etransitivity.
    + exact (proj1 (proj2 (proj2 (proj2 (proj2 (@currency_name_spelling Stub.go Stub.json
                      Stub.xml (Stub.serving Stub.bulletin_later_text) Stub.jan10
                      (memory (boot ∅)) "usd" "USD" Hu))) Hne)
                      bolt.no_faults false ∅
                      ("[" +:+ Stub.join "," (map Stub.quote ["10.01.2024"; "USD"; "91.00"])
                       +:+ "]"))).
    + vm_compute. reflexivity.
  - exact (proj2 (proj2 (proj2 (proj2 (proj2 (proj2 (@currency_name_spelling Stub.go
                    Stub.json Stub.xml (Stub.serving Stub.bulletin_later_text) Stub.jan10
                    (memory (boot ∅)) "usd" "USD" Hu))) Hne)
                    bolt.no_faults false ∅
                    ("[" +:+ Stub.join "," (map Stub.quote ["10.01.2024"; "USD"; "91.00"])
                     +:+ "]")))
             ["10.01.2024"; "USD"; "91.00"] ltac:(split; reflexivity)
             ltac:(vm_compute; reflexivity)).
Defined.

(** * The empty answer *)

(** C10. When the service answers 200 with a body that decodes to the
    empty array, [getCurrencyItem] (in both JSON programs) does not return
    an error: indexing the last element panics with an index out of range,
    and the panic passes through the cache manager, which writes nothing. *)
Theorem empty_array_panics {G : GoLibs} {L : Json.Libs}
    (do : Client) (name : string) (t : Time) (m : mem)
    (info : Json.currencyInfo) (res : Response) (body : Reader) (bytes : string) :
  let url := Json.url_of (Json.code info) (Unix t) in
  Json.currenciesInfo !! name = Some info ->
  http_NewRequest url = None ->
  do (length (requests m)) url = Ok res ->
  Body res = Some body ->
  StatusCode res = StatusOK ->
  ReadAll body = Ok bytes ->
  Json.json_Unmarshal_list bytes = Ok [] ->
  Json.getCurrencyItem do name t m
    = (Panic "runtime error: index out of range [-1]", send url m)
  /\ Plain.getCurrencyItem do name t m
     = (Panic "runtime error: index out of range [-1]", send url m)
  /\ forall flt skip db,
       tx_opens flt ->
       skip = true \/ bolt.Get db "cache" (cacheKey t name) = None ->
       Json.getCurrencyItemCache do flt name t skip {| cacheStorage := db; memory := m |}
       = (Panic "runtime error: index out of range [-1]",
          {| cacheStorage := db; memory := send url m |}).
Proof.
  intros url Hinfo Hreq Hdo Hbody Hcode Hread Hdec.
  assert (Hitem : Json.getCurrencyItem do name t m
                  = (Panic "runtime error: index out of range [-1]", send url m)).
  { unfold Json.getCurrencyItem. rewrite Hinfo. fold url. rewrite Hreq.
    unfold Json.fetch_item. rewrite Hdo. res_simpl. rewrite Hbody. res_simpl.
    rewrite Hcode. simpl negb. cbv iota. rewrite Hread. res_simpl. rewrite Hdec. done. }
  split; [exact Hitem |]. split; [exact Hitem |].
  intros flt skip db [Hb Hc] Hreach.
  unfold Json.getCurrencyItemCache. rewrite lookup_unfold, Hb, Hc. simpl.
  assert ((if skip then None else bolt.Get db "cache" (cacheKey t name)) = None) as ->
    by (destruct Hreach as [-> | ->]; [done | by destruct skip]).
  by rewrite Hitem.
Qed.

Lemma empty_array_panics_witness :
  let url := Json.url_of "R01235" 1704844800 in
  @Json.getCurrencyItem Stub.go Stub.json (Stub.serving "[]") "usd" Stub.jan10
    (memory (boot ∅))
  = (Panic "runtime error: index out of range [-1]", send url (memory (boot ∅)))
  /\ @Plain.getCurrencyItem Stub.go Stub.json (Stub.serving "[]") "usd" Stub.jan10
       (memory (boot ∅))
     = (Panic "runtime error: index out of range [-1]", send url (memory (boot ∅)))
  /\ forall flt skip db,
       tx_opens flt ->
       skip = true \/ bolt.Get db "cache" (cacheKey Stub.jan10 "usd") = None ->
       @Json.getCurrencyItemCache Stub.go Stub.json (Stub.serving "[]") flt "usd"
         Stub.jan10 skip {| cacheStorage := db; memory := memory (boot ∅) |}
       = (Panic "runtime error: index out of range [-1]",
          {| cacheStorage := db; memory := send url (memory (boot ∅)) |}).
Proof.
  exact (@empty_array_panics Stub.go Stub.json (Stub.serving "[]") "usd" Stub.jan10
           (memory (boot ∅)) (Json.mkInfo "R01235" 1) (Stub.ok_response "[]")
           (mkReader "[]" None) "[]"
           eq_refl eq_refl eq_refl eq_refl eq_refl eq_refl eq_refl).
Defined.

(** * The batch loops *)

(** C8. Fail-fast batch: when the lookup of one requested currency fails
    after the lookups before it succeeded, the run ends in [log.Fatal] on
    that error: exit status 1, [writer.WriteAll] never called (so no row is
    printed, not even those already resolved), and the world left as the
    failing lookup left it: the currencies after it are not looked up. *)
Theorem failed_lookup_is_fatal {G : GoLibs} {LJ : Json.Libs} {LX : Xml.Libs}
    (env : Env) (db : bolt.DB) (pre : list string) (c : string) (post : list string) :
  MkdirAll_err env = None ->
  Open_err env = None ->
  (forall f rows w1 e w2,
      Json.currenciesList f = (pre ++ c :: post)%list ->
      Json.loop env (Json.skipCache f) 0 pre [] (boot db) = (Ok rows, w1) ->
      Json.getCurrencyItemCache (client env) (faults_at env (length pre)) c
        (Now env (length pre)) (Json.skipCache f) w1 = (Err e, w2) ->
      Json.main f env db
      = {| exit_code := 1; stdout := None; logged := Some e; final := w2 |})
  /\ (forall f rows w1 e w2,
      Split_comma (Xml.currency f) = (pre ++ c :: post)%list ->
      Xml.loop env (Xml.skipCache f) (Xml.time_Add (Now env 0) (Xml.offset f)) 0 pre []
        (boot db) = (Ok rows, w1) ->
      Xml.getCurrencyItemCache (client env) (faults_at env (length pre)) c
        (Xml.time_Add (Now env 0) (Xml.offset f)) (Xml.skipCache f) w1 = (Err e, w2) ->
      Xml.main f env db
      = {| exit_code := 1; stdout := None; logged := Some e; final := w2 |})
  /\ (forall f rows m1 e m2,
      Json.currenciesList f = (pre ++ c :: post)%list ->
      Plain.loop env 0 pre [] (memory (boot db)) = (Ok rows, m1) ->
      Plain.getCurrencyItem (client env) c (Now env (length pre)) m1 = (Err e, m2) ->
      Plain.main f env db
      = {| exit_code := 1; stdout := None; logged := Some e;
           final := {| cacheStorage := db; memory := m2 |} |}).
Proof.
  intros Hmk Hopen. repeat split.
  - intros f rows w1 e w2 Hlist Hpre Hfail.
    unfold Json.main. rewrite Hmk, Hopen, Hlist, Json_loop_app, Hpre.
    simpl. by rewrite Hfail.
  - intros f rows w1 e w2 Hlist Hpre Hfail.
    unfold Xml.main. rewrite Hmk, Hopen, Hlist.
    replace (length (pre ++ c :: post) =? 0)%nat with false
      by (symmetry; apply Nat.eqb_neq; rewrite length_app; simpl; lia).
    cbv zeta. rewrite Xml_loop_app, Hpre. simpl. by rewrite Hfail.
  - intros f rows m1 e m2 Hlist Hpre Hfail.
    unfold Plain.main. cbv zeta. rewrite Hlist, Plain_loop_app, Hpre.
    simpl. by rewrite Hfail.
Qed.

(** The dollar, an unknown currency and the hryvnia are requested from the
    bulletin: the dollar resolves, [xyz] fails, the run is fatal. *)
Lemma failed_lookup_is_fatal_witness :
  let env := Stub.env_of (Stub.serving Stub.bulletin_text) in
  let f := Xml.mkFlags "usd,xyz,uah" false 0 in
  let w1 := (@Xml.getCurrencyItemCache Stub.go Stub.xml (client env) bolt.no_faults "usd"
               Stub.jan10 false (boot ∅)).2 in
  @Xml.main Stub.go Stub.xml f env ∅
  = {| exit_code := 1; stdout := None;
       logged := Some "cannot get currency rate for 'xyz'"; final := w1 |}.
Proof.
  cbv zeta.
  apply (proj1 (proj2 (@failed_lookup_is_fatal Stub.go Stub.json Stub.xml
                         (Stub.env_of (Stub.serving Stub.bulletin_text)) ∅
                         ["usd"] "xyz" ["uah"] eq_refl eq_refl))
         (Xml.mkFlags "usd,xyz,uah" false 0) [["10.01.2024"; "USD"; "91.00"]]
         (@Xml.getCurrencyItemCache Stub.go Stub.xml
            (Stub.serving Stub.bulletin_text) bolt.no_faults "usd"
            Stub.jan10 false (boot ∅)).2).
  - reflexivity.
  - vm_compute. reflexivity.
  - vm_compute. reflexivity.
Defined.

(** C9. In the XML bulletin program at most one request is sent per run,
    however many currencies are requested and however many of them miss the
    cache; and once [getCurrencyRate] has returned a row, every later call
    answers from [currenciesRate] and leaves the memory, requests included,
    as it is. *)
Theorem one_request_per_run {G : GoLibs} {L : Xml.Libs}
    (f : Xml.Flags) (env : Env) (db : bolt.DB) :
  (length (requests (memory (final (Xml.main f env db)))) <= 1)%nat
  /\ forall do name t m row m',
       Xml.getCurrencyRate do name t m = (Ok row, m') ->
       forall do' name' t',
         Xml.getCurrencyRate do' name' t' m'
         = (match currenciesRate m' !! ToLower name' with
            | Some row' => Ok row'
            | None => Err ("cannot get currency rate for '" +:+ name' +:+ "'")
            end, m').
Proof.
  split.
  - unfold Xml.main. cbv zeta.
    destruct (MkdirAll_err env); [simpl; lia |].
    destruct (Open_err env); [simpl; lia |].
    destruct (length (Split_comma (Xml.currency f)) =? 0)%nat; [simpl; lia |].
    pose proof (Xml_loop_fetches env (Xml.skipCache f)
                  (Xml.time_Add (Now env 0) (Xml.offset f))
                  (Split_comma (Xml.currency f)) 0 [] (boot db)
                  (or_introl eq_refl)) as Hle.
    destruct (Xml.loop _ _ _ _ _ _ _) as [[rows | e | p] w'];
      [unfold write_and_exit; destruct (WriteAll_err env) | ..]; exact Hle.
  - intros do name t m row m' Hfirst do' name' t'.
    assert (currenciesRate m' <> ∅) as Hfilled.
    { pose proof (getCurrencyRate_effect do name t m) as Heff. rewrite Hfirst in Heff.
      destruct Heff as [Hfull Hempty].
      destruct (decide (currenciesRate m = ∅)) as [He | Hne].
      - by apply (Hempty He).
      - by destruct (Hfull Hne) as [-> _]. }
    pose proof (getCurrencyRate_effect do' name' t' m') as Heff.
    destruct (Xml.getCurrencyRate do' name' t' m') as [r m''].
    destruct Heff as [Hfull _]. by destruct (Hfull Hfilled) as [-> ->].
Qed.

(** Three currencies miss the cache in one run; one request is sent. *)
Lemma one_request_per_run_witness :
  let run := @Xml.main Stub.go Stub.xml (Xml.mkFlags "usd,uah,USD" false 0)
               (Stub.env_of (Stub.serving Stub.bulletin_text)) ∅ in
  exit_code run = 0
  /\ (length (requests (memory (final run))) <= 1)%nat.
Proof.
  cbv zeta. split; [by vm_compute |].
  exact (proj1 (@one_request_per_run Stub.go Stub.xml (Xml.mkFlags "usd,uah,USD" false 0)
                  (Stub.env_of (Stub.serving Stub.bulletin_text)) ∅)).
Defined.

(** * What a cache entry holds *)

(** C2, as stated, fails for the XML bulletin program: the entry it stores
    is the rendered row, whose third field is the rate already divided by
    the nominal. A bulletin quoting 25,5000 for 10 hryvnias and one quoting
    2,5500 for 1 hryvnia leave the same entry, the row with 2.55. *)
Lemma bulletin_entry_holds_the_divided_rate :
  let entry body :=
    bolt.Get (cacheStorage (@Xml.getCurrencyItemCache Stub.go Stub.xml
                              (Stub.serving body) bolt.no_faults "uah" Stub.jan10 false
                              (boot ∅)).2)
      "cache" (cacheKey Stub.jan10 "uah") in
  entry Stub.bulletin_text
  = Some ("[" +:+ Stub.join "," (map Stub.quote ["10.01.2024"; "UAH"; "2.55"]) +:+ "]")
  /\ entry Stub.bulletin_unit_text = entry Stub.bulletin_text.
Proof. by vm_compute. Qed.

(** C2, amended. Take a lookup that goes to the provider (bypass, or no
    entry under the key) and returns a value. In the JSON program the entry
    then stored is the encoding of a record that carries the raw value of
    the last observation of the answer and the divisor of the table, each
    as received; a lookup served from the cache returns the record as
    decoded; and the division is done at render time on either path: the
    row a run prints for a currency is the record its lookup returned,
    with rate and difference divided by the divisor of that record. In the
    XML bulletin program the entry is the encoding of the rendered row,
    whose third field is the parsed value divided by the nominal and
    formatted; a lookup served from the cache returns the row as decoded,
    and a run prints the row its lookup returned as it is, without any
    division. *)
Theorem stored_entry_contents {G : GoLibs} {LJ : Json.Libs} {LX : Xml.Libs}
    (do : Client) (flt : bolt.faults) (name : string) (t : Time) (skip : bool) (w : world) :
  skip = true \/ bolt.Get (cacheStorage w) "cache" (cacheKey t name) = None ->
  (forall r w',
      Json.getCurrencyItemCache do flt name t skip w = (Ok r, w') ->
      (exists val, Json.json_Marshal r = Ok val
         /\ bolt.Get (cacheStorage w') "cache" (cacheKey t name) = Some val)
      /\ exists info res body bytes data d,
           Json.currenciesInfo !! name = Some info
           /\ do (length (requests (memory w))) (Json.url_of (Json.code info) (Unix t)) = Ok res
           /\ Body res = Some body /\ ReadAll body = Ok bytes
           /\ Json.json_Unmarshal_list bytes = Ok data
           /\ last data = Some d
           /\ Json.Curs r = Json.Curs d /\ Json.DivOn r = Json.div info)
  /\ (forall r row,
      Json.getRow r = Ok row ->
      row !! 2%nat = Some (Sprintf_2f (Json.Curs r / Json.DivOn r)%float))
  /\ (forall f env db rows,
      stdout (Json.main f env db) = Some rows ->
      Forall (fun row => exists r, Json.getRow r = Ok row) rows)
  /\ (forall row w',
      rates_rendered (currenciesRate (memory w)) ->
      Xml.getCurrencyItemCache do flt name t skip w = (Ok row, w') ->
      (exists val, Xml.json_Marshal row = Ok val
         /\ bolt.Get (cacheStorage w') "cache" (cacheKey t name) = Some val)
      /\ exists v x,
           ParseFloat (Replace_comma_dot (Xml.Value v)) = Ok x
           /\ row = [Format_output (Xml.Date v); ToUpper (Xml.CharCode v);
                     Sprintf_2f (x / float64_of_int (Xml.Nominal v))%float])
  /\ (forall flt' name' t' w0 val r,
      tx_opens flt' ->
      bolt.Get (cacheStorage w0) "cache" (cacheKey t' name') = Some val ->
      Json.json_Unmarshal val = Ok r ->
      Json.getCurrencyItemCache do flt' name' t' false w0 = (Ok r, w0))
  /\ (forall f env db pre c post rows1 w1 r w2 rows,
      Json.currenciesList f = (pre ++ c :: post)%list ->
      Json.loop env (Json.skipCache f) 0 pre [] (boot db) = (Ok rows1, w1) ->
      Json.getCurrencyItemCache (client env) (faults_at env (length pre)) c
        (Now env (length pre)) (Json.skipCache f) w1 = (Ok r, w2) ->
      stdout (Json.main f env db) = Some rows ->
      exists d, Json.time_Parse (Json.Date r) = Ok d
        /\ rows !! length pre
           = Some [Format_output d; ToUpper (Json.Name r);
                   Sprintf_2f (Json.Curs r / Json.DivOn r)%float;
                   Sprintf_2f (Json.Diff r / Json.DivOn r)%float])
  /\ (forall flt' name' t' w0 val row,
      tx_opens flt' ->
      bolt.Get (cacheStorage w0) "cache" (cacheKey t' name') = Some val ->
      Xml.json_Unmarshal val = Ok row ->
      Xml.getCurrencyItemCache do flt' name' t' false w0 = (Ok row, w0))
  /\ (forall f env db pre c post rows1 w1 row w2 rows,
      Split_comma (Xml.currency f) = (pre ++ c :: post)%list ->
      Xml.loop env (Xml.skipCache f) (Xml.time_Add (Now env 0) (Xml.offset f)) 0 pre []
        (boot db) = (Ok rows1, w1) ->
      Xml.getCurrencyItemCache (client env) (faults_at env (length pre)) c
        (Xml.time_Add (Now env 0) (Xml.offset f)) (Xml.skipCache f) w1 = (Ok row, w2) ->
      stdout (Xml.main f env db) = Some rows ->
      rows !! length pre = Some row).
Proof.
  intros Hreach. split; [| split; [| split; [| split; [| split; [| split; [| split]]]]]].
  - intros r w' Hlook.
    destruct (lookup_fetch_path _ _ _ _ _ _ _ _ _ _ Hreach Hlook) as (Hitem & val & Hval & ->).
    split; [exists val; by rewrite Get_stored |].
    destruct (getCurrencyItem_record _ _ _ _ _ _ Hitem)
      as (info & res & body & bytes & data & d & ? & ? & ? & ? & ? & ? & ->).
    by exists info, res, body, bytes, data, d.
  - intros r row Hrow. unfold Json.getRow in Hrow.
    destruct (Json.getDate r) as [date | e | p]; res_simpl_in Hrow; [| done ..].
    by injection Hrow as <-.
  - intros f env db rows. unfold Json.main. cbv zeta.
    destruct (MkdirAll_err env); [done |]. destruct (Open_err env); [done |].
    destruct (Json.loop _ _ _ _ _ _) as [[rows' | e | p] w'] eqn:Hloop; [| done ..].
    destruct (Json_loop_rows _ _ _ _ _ _ _ _ Hloop) as (added & -> & Hall).
    unfold write_and_exit. by destruct (WriteAll_err env); intros [= <-].
  - intros row w' Hrates Hlook.
    destruct (lookup_fetch_path _ _ _ _ _ _ _ _ _ _ Hreach Hlook) as (Hrate & val & Hval & ->).
    split; [exists val; by rewrite Get_stored |].
    destruct (getCurrencyRate_rendered _ _ _ _ _ _ Hrate Hrates) as (_ & v & Hrow).
    destruct (Valute_getRow_fields _ _ Hrow) as (x & Hx & ->).
    by exists v, x.
  - intros flt' name' t' w0 val r [Hb Hc] Hget Hdec.
    unfold Json.getCurrencyItemCache. rewrite lookup_unfold, Hb, Hc, Hget, Hdec.
    by destruct w0.
  - intros f env db pre c post rows1 w1 r w2 rows Hlist Hpre Hlook.
    unfold Json.main. cbv zeta.
    destruct (MkdirAll_err env); [done |]. destruct (Open_err env); [done |].
    rewrite Hlist, Json_loop_app, Hpre. simpl. rewrite Hlook. res_simpl.
    apply Json_loop_length in Hpre. simpl in Hpre.
    unfold Json.getRow, Json.getDate.
    destruct (Json.time_Parse (Json.Date r)) as [d | e | p]; res_simpl; [| done ..].
    destruct (Json.loop _ _ _ _ _ _) as [[rows' | e | p] w'] eqn:Hrest; [| done ..].
    destruct (Json_loop_rows _ _ _ _ _ _ _ _ Hrest) as (added & -> & _).
    intros Hout. exists d. split; [done |].
    assert (rows = ((rows1 ++ [[Format_output d; ToUpper (Json.Name r);
                               Sprintf_2f (Json.Curs r / Json.DivOn r)%float;
                               Sprintf_2f (Json.Diff r / Json.DivOn r)%float]]) ++ added)%list)
      as -> by (unfold write_and_exit in Hout; by destruct (WriteAll_err env); injection Hout).
    rewrite <- app_assoc. by apply list_lookup_middle.
  - intros flt' name' t' w0 val row [Hb Hc] Hget Hdec.
    unfold Xml.getCurrencyItemCache. rewrite lookup_unfold, Hb, Hc, Hget, Hdec.
    by destruct w0.
  - intros f env db pre c post rows1 w1 row w2 rows Hlist Hpre Hlook.
    unfold Xml.main. cbv zeta.
    destruct (MkdirAll_err env); [done |]. destruct (Open_err env); [done |].
    rewrite Hlist.
    replace (length (pre ++ c :: post) =? 0)%nat with false
      by (symmetry; apply Nat.eqb_neq; rewrite length_app; simpl; lia).
    rewrite Xml_loop_app, Hpre. simpl. rewrite Hlook.
    apply Xml_loop_rows in Hpre as (added1 & -> & Hlen). simpl.
    destruct (Xml.loop _ _ _ _ _ _ _) as [[rows' | e | p] w'] eqn:Hrest; [| done ..].
    destruct (Xml_loop_rows _ _ _ _ _ _ _ _ _ Hrest) as (added & -> & _).
    intros Hout.
    assert (rows = ((added1 ++ [row]) ++ added)%list)
      as -> by (unfold write_and_exit in Hout; by destruct (WriteAll_err env); injection Hout).
    rewrite <- app_assoc. by apply list_lookup_middle.
Qed.

(** The dollar is fetched from the JSON endpoint into an empty cache: the
    entry is the encoding of the record with the raw 91 and the divisor 1;
    a later run, served from that entry, prints the record divided at
    render time. *)
Lemma stored_entry_contents_witness :
  let w' := (@Json.getCurrencyItemCache Stub.go Stub.json (Stub.serving Stub.usd_body)
               bolt.no_faults "usd" Stub.jan10 false (boot ∅)).2 in
  ((exists val, @Json.json_Marshal Stub.json Stub.usd_item = Ok val
      /\ bolt.Get (cacheStorage w') "cache" (cacheKey Stub.jan10 "usd") = Some val)
   /\ exists info res body bytes data d,
        Json.currenciesInfo !! "usd" = Some info
        /\ Stub.serving Stub.usd_body (length (requests (memory (boot ∅))))
             (Json.url_of (Json.code info) (Unix Stub.jan10)) = Ok res
        /\ Body res = Some body /\ ReadAll body = Ok bytes
        /\ @Json.json_Unmarshal_list Stub.json bytes = Ok data
        /\ last data = Some d
        /\ Json.Curs Stub.usd_item = Json.Curs d
        /\ Json.DivOn Stub.usd_item = Json.div info)
  /\ exists d, @Json.time_Parse Stub.json (Json.Date Stub.usd_item) = Ok d
       /\ [["10.01.2024"; "USD"; "91.00"; "0.50"]] !! length (@nil string)
          = Some [Format_output d; @ToUpper Stub.go (Json.Name Stub.usd_item);
                  @Sprintf_2f Stub.go (Json.Curs Stub.usd_item / Json.DivOn Stub.usd_item)%float;
                  @Sprintf_2f Stub.go (Json.Diff Stub.usd_item / Json.DivOn Stub.usd_item)%float].
Proof.
  cbv zeta. split.
  - apply (proj1 (@stored_entry_contents Stub.go Stub.json Stub.xml
                    (Stub.serving Stub.usd_body) bolt.no_faults "usd" Stub.jan10 false
                    (boot ∅) ltac:(right; reflexivity))).
    vm_compute. reflexivity.
  - apply (proj1 (proj2 (proj2 (proj2 (proj2 (proj2
             (@stored_entry_contents Stub.go Stub.json Stub.xml
                Stub.unreachable bolt.no_faults "usd" Stub.jan10 true
                (boot ∅) ltac:(left; reflexivity)))))))
             (Stub.json_flags "usd" false) (Stub.env_of Stub.unreachable) Stub.json_after_A
             [] "usd" [] [] (boot Stub.json_after_A) Stub.usd_item (boot Stub.json_after_A)
             [["10.01.2024"; "USD"; "91.00"; "0.50"]]);
      vm_compute; reflexivity.
Defined.

(** * Further properties of the cache manager *)

Section Frame.
Context {R : Type}.
Variable provider : string -> Time -> mem -> result R * mem.
Variable json_Marshal : R -> result string.
Variable json_Unmarshal : string -> result R.

(** X1. A lookup touches nothing but the entry under its own key: the
    entries under every other key of the bucket and every other bucket of
    the cache file are as before. *)
Theorem lookup_touches_only_its_key flt name t skip w :
  let '(r, w') := getCurrencyItemCache provider json_Marshal json_Unmarshal flt name t skip w in
  (forall key, key <> cacheKey t name ->
     bolt.Get (cacheStorage w') "cache" key = bolt.Get (cacheStorage w) "cache" key)
  /\ (forall bucket, bucket <> "cache" -> cacheStorage w' !! bucket = cacheStorage w !! bucket).
Proof.
  pose proof (lookup_store provider json_Marshal json_Unmarshal flt name t skip w) as Hst.
  destruct (getCurrencyItemCache _ _ _ _ _ _ _ _) as [r w'].
  destruct Hst as [-> | (v & val & _ & _ & _ & ->)]; [done |].
  split.
  - intros key Hne. by apply Get_stored_ne.
  - intros bucket Hne. by apply stored_other_bucket.
Qed.

(** X2. A cache hit is read-only: without bypass, an entry that decodes is
    returned as decoded and the world is left as it was, whatever the
    provider would answer and whether or not a put or a commit would
    succeed. *)
Theorem cache_hit_is_read_only flt name t w val r :
  tx_opens flt ->
  bolt.Get (cacheStorage w) "cache" (cacheKey t name) = Some val ->
  json_Unmarshal val = Ok r ->
  getCurrencyItemCache provider json_Marshal json_Unmarshal flt name t false w = (Ok r, w).
Proof.
  intros [Hb Hc] Hget Hdec. rewrite lookup_unfold, Hb, Hc, Hget, Hdec. by destruct w.
Qed.

(** X3. A failed commit persists nothing: when the value was fetched,
    encoded and put but [tx.Commit()] fails, the lookup returns the commit
    error and the committed store is the one before the lookup. *)
Theorem failed_commit_persists_nothing flt name t skip w v m' val e :
  tx_opens flt ->
  skip = true \/ bolt.Get (cacheStorage w) "cache" (cacheKey t name) = None ->
  provider name t (memory w) = (Ok v, m') ->
  json_Marshal v = Ok val ->
  bolt.Put_err flt = None ->
  bolt.Commit_err flt = Some e ->
  getCurrencyItemCache provider json_Marshal json_Unmarshal flt name t skip w
  = (Err e, {| cacheStorage := cacheStorage w; memory := m' |}).
Proof.
  intros [Hb Hc] Hreach Hp Hval Hput Hcommit. rewrite lookup_unfold, Hb, Hc.
  assert ((if skip then None else bolt.Get (cacheStorage w) "cache" (cacheKey t name)) = None)
    as -> by (destruct Hreach as [-> | ->]; [done | by destruct skip]).
  rewrite Hp. res_simpl. rewrite Hval. res_simpl.
  unfold bolt.Commit. by rewrite Hput, Hcommit.
Qed.
End Frame.

Lemma cache_hit_is_read_only_witness :
  @Xml.getCurrencyItemCache Stub.go Stub.xml Stub.unreachable
    (bolt.mkFaults None None (Some "put fails") (Some "commit fails"))
    "usd" Stub.jan10 false (boot Stub.db_row)
  = (Ok ["10.01.2024"; "USD"; "91.00"], boot Stub.db_row).
Proof.
  apply (cache_hit_is_read_only
           (@Xml.getCurrencyRate Stub.go Stub.xml Stub.unreachable)
           (@Xml.json_Marshal Stub.xml) (@Xml.json_Unmarshal Stub.xml)
           (bolt.mkFaults None None (Some "put fails") (Some "commit fails"))
           "usd" Stub.jan10 (boot Stub.db_row)
           ("[" +:+ Stub.join "," (map Stub.quote ["10.01.2024"; "USD"; "91.00"]) +:+ "]")).
  - done.
  - vm_compute. reflexivity.
  - vm_compute. reflexivity.
Defined.

Lemma failed_commit_persists_nothing_witness :
  @Xml.getCurrencyItemCache Stub.go Stub.xml (Stub.serving Stub.bulletin_later_text)
    (bolt.mkFaults None None None (Some "commit fails"))
    "usd" Stub.jan10 true (boot Stub.db_row)
  = (Err "commit fails",
     {| cacheStorage := cacheStorage (boot Stub.db_row);
        memory := (@Xml.getCurrencyRate Stub.go Stub.xml (Stub.serving Stub.bulletin_later_text)
                     "usd" Stub.jan10 (memory (boot Stub.db_row))).2 |}).
Proof.
  apply (failed_commit_persists_nothing
           (@Xml.getCurrencyRate Stub.go Stub.xml (Stub.serving Stub.bulletin_later_text))
           (@Xml.json_Marshal Stub.xml) (@Xml.json_Unmarshal Stub.xml)
           (bolt.mkFaults None None None (Some "commit fails"))
           "usd" Stub.jan10 true (boot Stub.db_row)
           ["10.01.2024"; "USD"; "92.50"] _
           ("[" +:+ Stub.join "," (map Stub.quote ["10.01.2024"; "USD"; "92.50"]) +:+ "]")).
  - done.
  - by left.
  - vm_compute. reflexivity.
  - vm_compute. reflexivity.
  - done.
  - done.
Defined.

(** X4. A currency the JSON program does not know leaves no trace: the
    lookup changes neither the cache file nor the memory, sends no request,
    and, when it gets as far as the provider, fails with the provider's
    "invalid currency name". *)
Theorem unknown_currency_leaves_no_trace {G : GoLibs} {L : Json.Libs}
    (do : Client) (flt : bolt.faults) (name : string) (t : Time) (skip : bool) (w : world) :
  Json.currenciesInfo !! name = None ->
  let '(r, w') := Json.getCurrencyItemCache do flt name t skip w in
  w' = w
  /\ (tx_opens flt ->
      skip = true \/ bolt.Get (cacheStorage w) "cache" (cacheKey t name) = None ->
      r = Err ("invalid currency name: " +:+ name)).
Proof.
  intros Hunknown. unfold Json.getCurrencyItemCache. rewrite lookup_unfold.
  unfold Json.getCurrencyItem. rewrite Hunknown. destruct w as [db m]. simpl.
  destruct (bolt.Begin_err flt) as [e |] eqn:Hb; [by split; [| intros [? ?]; congruence] |].
  destruct (bolt.CreateBucket_err flt) as [e |] eqn:Hc;
    [by split; [| intros [? ?]; congruence] |].
  destruct skip; [by split |].
  destruct (bolt.Get db "cache" (cacheKey t name)) as [val |]; [| by split].
  split; [done |]. by intros _ [? | ?].
Qed.

Lemma unknown_currency_leaves_no_trace_witness :
  let '(r, w') := @Json.getCurrencyItemCache Stub.go Stub.json
                    (Stub.serving Stub.usd_body) bolt.no_faults "xyz" Stub.jan10 false
                    (boot ∅) in
  w' = boot ∅
  /\ (tx_opens bolt.no_faults ->
      false = true \/ bolt.Get (cacheStorage (boot ∅)) "cache" (cacheKey Stub.jan10 "xyz") = None ->
      r = Err ("invalid currency name: " +:+ "xyz")).
Proof.
  exact (@unknown_currency_leaves_no_trace Stub.go Stub.json
           (Stub.serving Stub.usd_body) bolt.no_faults "xyz" Stub.jan10 false (boot ∅)
           eq_refl).
Defined.

(** X5. The list of requested currencies is never empty: [strings.Split]
    returns at least one piece (the empty name for an empty flag), so the
    guards on [len(currenciesList) == 0] never fire: the JSON programs never
    fall back to the default list and the XML program never logs "select at
    least one currency" from its guard. *)
Theorem requested_list_is_never_empty (s : string) :
  Split_comma s <> []
  /\ (forall f : Json.Flags,
        Json.currency f = s ->
        Json.currenciesList f
        = (Split_comma s ++ (if Json.usd f then ["usd"] else [])
             ++ (if Json.eur f then ["eur"] else [])
             ++ (if Json.uah f then ["uah"] else []))%list)
  /\ (length (Split_comma s) =? 0)%nat = false.
Proof.
  assert (Hne : Split_comma s <> []).
  { destruct s as [|c s]; simpl; [done |].
    destruct (Ascii.eqb c ","); [done |]. by destruct (Split_comma s). }
  split; [done |]. split.
  - intros f <-. unfold Json.currenciesList, Json.usdCurrency, Json.eurCurrency, Json.uahCurrency.
    destruct (Split_comma (Json.currency f)) as [|h tl] eqn:Hs; [done |].
    destruct (Json.usd f), (Json.eur f), (Json.uah f); simpl;
      rewrite ?app_nil_r, <- ?app_assoc; done.
  - destruct (Split_comma s); done.
Qed.

(** * Second part: the rest of the programs *)

From Stdlib Require FloatAxioms.

(** ** Lookups that do not return a value *)

Section LookupFailures.
Context {R : Type}.
Variable provider : string -> Time -> mem -> result R * mem.
Variable json_Marshal : R -> result string.
Variable json_Unmarshal : string -> result R.

(** X6. A lookup that does not return a value, whichever step failed
    (opening the transaction or the bucket, decoding, the provider,
    encoding, put, commit), leaves the committed store as it was; and
    when the transaction or the bucket does not open the lookup returns
    that error without calling the provider. *)
Theorem failed_lookup_commits_nothing flt name t skip w :
  let '(r, w') := getCurrencyItemCache provider json_Marshal json_Unmarshal flt name t skip w in
  (is_Ok r = false -> cacheStorage w' = cacheStorage w)
  /\ (forall e, bolt.Begin_err flt = Some e -> r = Err e /\ w' = w)
  /\ (forall e, bolt.Begin_err flt = None -> bolt.CreateBucket_err flt = Some e ->
        r = Err e /\ w' = w).
Proof.
  pose proof (lookup_store provider json_Marshal json_Unmarshal flt name t skip w) as Hst.
  pose proof (lookup_unfold provider json_Marshal json_Unmarshal flt name t skip w) as Hun.
  destruct (getCurrencyItemCache _ _ _ _ _ _ _ _) as [r w']. split; [| split].
  - intros Hfail. destruct Hst as [? | (v & val & -> & _)]; done.
  - intros e He. rewrite He in Hun. by injection Hun as -> ->.
  - intros e Hb He. rewrite Hb, He in Hun. by injection Hun as -> ->.
Qed.
End LookupFailures.

Lemma reach_provider (skip : bool) (db : bolt.DB) (key : string) :
  skip = true \/ bolt.Get db "cache" key = None ->
  (if skip then None else bolt.Get db "cache" key) = None.
Proof. intros [-> | ->]; [done | by destruct skip]. Qed.

Lemma index_last {A} (data : list A) (d : A) :
  last data = Some d -> index data (Z.of_nat (length data) - 1) = Ok d.
Proof.
  intros Hlast. unfold index. rewrite last_lookup in Hlast.
  destruct data as [|x data]; [done |].
  destruct (Z.leb_spec 0 (Z.of_nat (length (x :: data)) - 1)) as [_ | Hneg];
    [| simpl in Hneg; lia].
  replace (Z.to_nat (Z.of_nat (length (x :: data)) - 1)) with (pred (length (x :: data)))
    by (simpl; lia).
  by rewrite Hlast.
Qed.

(** ** The JSON endpoint *)

Section Endpoint.
Context {G : GoLibs} {LJ : Json.Libs} {LX : Xml.Libs}.

(** X7. An answer with a status other than 200 is an error and is never
    cached, whatever its body holds: a lookup that goes to the provider
    returns "status code error: " followed by the status line and leaves
    the store as it was, in the JSON program and in the XML program. *)
Theorem error_answer_is_not_cached (do : Client) (flt : bolt.faults) (name : string)
    (t : Time) (skip : bool) (w : world) (res : Response) (body : Reader) :
  tx_opens flt ->
  skip = true \/ bolt.Get (cacheStorage w) "cache" (cacheKey t name) = None ->
  Body res = Some body ->
  StatusCode res <> StatusOK ->
  (forall info,
      Json.currenciesInfo !! name = Some info ->
      http_NewRequest (Json.url_of (Json.code info) (Unix t)) = None ->
      do (length (requests (memory w))) (Json.url_of (Json.code info) (Unix t)) = Ok res ->
      Json.getCurrencyItemCache do flt name t skip w
      = (Err ("status code error: " +:+ Status res),
         {| cacheStorage := cacheStorage w;
            memory := send (Json.url_of (Json.code info) (Unix t)) (memory w) |}))
  /\ (currenciesRate (memory w) = ∅ ->
      http_NewRequest (Xml.url_of t) = None ->
      do (length (requests (memory w))) (Xml.url_of t) = Ok res ->
      Xml.getCurrencyItemCache do flt name t skip w
      = (Err ("status code error: " +:+ Status res),
         {| cacheStorage := cacheStorage w; memory := send (Xml.url_of t) (memory w) |})).
Proof.
  intros [Hb Hc] Hreach Hbody Hcode.
  assert (negb (StatusCode res =? StatusOK) = true) as Hneq
    by (apply negb_true_iff; by apply Z.eqb_neq).
  split.
  - intros info Hinfo Hreq Hdo.
    unfold Json.getCurrencyItemCache.
    rewrite lookup_unfold, Hb, Hc, (reach_provider _ _ _ Hreach).
    unfold Json.getCurrencyItem. rewrite Hinfo. cbv zeta. rewrite Hreq.
    unfold Json.fetch_item. rewrite Hdo. res_simpl. rewrite Hbody. res_simpl.
    by rewrite Hneq.
  - intros Hempty Hreq Hdo.
    unfold Xml.getCurrencyItemCache.
    rewrite lookup_unfold, Hb, Hc, (reach_provider _ _ _ Hreach).
    unfold Xml.getCurrencyRate, Xml.getCurrencyRates.
    rewrite Hempty, map_size_empty. simpl. rewrite Hreq.
    unfold Xml.fetch_bulletin. rewrite Hdo. res_simpl. rewrite Hbody. res_simpl.
    by rewrite Hneq.
Qed.

(** X8. A lookup of the JSON program that goes to the provider and gets a
    200 answer decoding to a non-empty array returns, and caches under the
    key, the last element of the array with its name replaced by the name
    asked for and its divisor by the divisor of the table; the elements
    before the last play no part. *)
Theorem fresh_lookup_caches_last_observation (do : Client) (flt : bolt.faults)
    (name : string) (t : Time) (skip : bool) (w : world) (info : Json.currencyInfo)
    (res : Response) (body : Reader) (bytes : string) (data : list Json.currencyData)
    (d : Json.currencyData) (val : string) :
  let url := Json.url_of (Json.code info) (Unix t) in
  let r := {| Json.Name := name; Json.DivOn := Json.div info; Json.Date := Json.Date d;
              Json.Curs := Json.Curs d; Json.Diff := Json.Diff d |} in
  tx_opens flt ->
  skip = true \/ bolt.Get (cacheStorage w) "cache" (cacheKey t name) = None ->
  Json.currenciesInfo !! name = Some info ->
  http_NewRequest url = None ->
  do (length (requests (memory w))) url = Ok res ->
  Body res = Some body ->
  StatusCode res = StatusOK ->
  ReadAll body = Ok bytes ->
  Json.json_Unmarshal_list bytes = Ok data ->
  last data = Some d ->
  Json.json_Marshal r = Ok val ->
  bolt.Put_err flt = None ->
  bolt.Commit_err flt = None ->
  Json.getCurrencyItemCache do flt name t skip w
  = (Ok r, {| cacheStorage := stored (cacheStorage w) (cacheKey t name) val;
              memory := send url (memory w) |}).
Proof.
  intros url r [Hb Hc] Hreach Hinfo Hreq Hdo Hbody Hcode Hread Hdec Hlast Hval Hput Hcommit.
  unfold Json.getCurrencyItemCache.
  rewrite lookup_unfold, Hb, Hc, (reach_provider _ _ _ Hreach).
  unfold Json.getCurrencyItem. rewrite Hinfo. fold url. rewrite Hreq.
  unfold Json.fetch_item. rewrite Hdo. res_simpl. rewrite Hbody. res_simpl.
  rewrite Hcode. simpl negb. cbv iota. rewrite Hread. res_simpl. rewrite Hdec. res_simpl.
  rewrite (index_last _ _ Hlast). res_simpl. fold r. rewrite Hval. res_simpl.
  unfold bolt.Commit. by rewrite Hput, Hcommit.
Qed.

(** X9. A record that [getCurrencyItem] returns carries the name asked
    for, which is one of usd, eur, uah, and the divisor the table gives
    that name: 1 for usd and eur, 10 for uah, never zero; and exactly one
    request was sent for it. The same holds in the program without
    cache. *)
Theorem fetched_record_carries_table_divisor (do : Client) (name : string) (t : Time)
    (m : mem) (r : Json.currencyData) (m' : mem) :
  Json.getCurrencyItem do name t m = (Ok r, m')
  \/ Plain.getCurrencyItem do name t m = (Ok r, m') ->
  Json.Name r = name
  /\ ((name = "usd" \/ name = "eur") /\ Json.DivOn r = 1%float
      \/ name = "uah" /\ Json.DivOn r = 10%float)
  /\ length (requests m') = S (length (requests m))
  /\ currenciesRate m' = currenciesRate m.
Proof.
  intros Hfetch.
  assert (Hitem : Json.getCurrencyItem do name t m = (Ok r, m')) by (by destruct Hfetch).
  clear Hfetch.
  destruct (getCurrencyItem_record _ _ _ _ _ _ Hitem)
    as (info & res & body & bytes & data & d & Hinfo & _ & _ & _ & _ & _ & ->).
  split; [done |]. split.
  - unfold Json.currenciesInfo in Hinfo. simpl.
    destruct (decide (name = "usd")) as [-> | ?];
      [rewrite lookup_insert_eq in Hinfo; injection Hinfo as <-; left; by split; [left |] |].
    rewrite lookup_insert_ne in Hinfo by done.
    destruct (decide (name = "eur")) as [-> | ?];
      [rewrite lookup_insert_eq in Hinfo; injection Hinfo as <-; left; by split; [right |] |].
    rewrite lookup_insert_ne in Hinfo by done.
    destruct (decide (name = "uah")) as [-> | ?];
      [rewrite lookup_insert_eq in Hinfo; injection Hinfo as <-; by right |].
    by rewrite lookup_insert_ne, lookup_empty in Hinfo.
  - unfold Json.getCurrencyItem in Hitem. rewrite Hinfo in Hitem.
    destruct (http_NewRequest _); [done |].
    injection Hitem as _ <-. simpl. rewrite length_app. simpl. split; [lia | done].
Qed.

(** X10. When the date of the record a lookup returned does not parse,
    [getRow] panics: the run ends with status 2 and prints nothing, not
    even the rows resolved before; the world stays as the lookup left it,
    an entry it just committed included. *)
Theorem unreadable_date_crashes_the_run (env : Env) (db : bolt.DB)
    (pre : list string) (c : string) (post : list string) :
  MkdirAll_err env = None ->
  Open_err env = None ->
  (forall f rows w1 r w2 e,
      Json.currenciesList f = (pre ++ c :: post)%list ->
      Json.loop env (Json.skipCache f) 0 pre [] (boot db) = (Ok rows, w1) ->
      Json.getCurrencyItemCache (client env) (faults_at env (length pre)) c
        (Now env (length pre)) (Json.skipCache f) w1 = (Ok r, w2) ->
      Json.time_Parse (Json.Date r) = Err e ->
      Json.main f env db
      = {| exit_code := 2; stdout := None; logged := None; final := w2 |})
  /\ (forall f rows m1 r m2 e,
      Json.currenciesList f = (pre ++ c :: post)%list ->
      Plain.loop env 0 pre [] (memory (boot db)) = (Ok rows, m1) ->
      Plain.getCurrencyItem (client env) c (Now env (length pre)) m1 = (Ok r, m2) ->
      Json.time_Parse (Json.Date r) = Err e ->
      Plain.main f env db
      = {| exit_code := 2; stdout := None; logged := None;
           final := {| cacheStorage := db; memory := m2 |} |}).
Proof.
  intros Hmk Hopen. split.
  - intros f rows w1 r w2 e Hlist Hpre Hlook Hdate.
    unfold Json.main. rewrite Hmk, Hopen, Hlist, Json_loop_app, Hpre.
    simpl. rewrite Hlook. res_simpl. unfold Json.getRow, Json.getDate. by rewrite Hdate.
  - intros f rows m1 r m2 e Hlist Hpre Hlook Hdate.
    unfold Plain.main. cbv zeta. rewrite Hlist, Plain_loop_app, Hpre.
    simpl. rewrite Hlook. res_simpl. unfold Json.getRow, Json.getDate. by rewrite Hdate.
Qed.
End Endpoint.

(** The service answers 500 to a bypassing lookup of the dollar. *)
Lemma error_answer_is_not_cached_witness :
  @Json.getCurrencyItemCache Stub.go Stub.json Stub.failing bolt.no_faults "usd" Stub.jan10
    true (boot Stub.db_row)
  = (Err ("status code error: " +:+ "500 Internal Server Error"),
     {| cacheStorage := Stub.db_row;
        memory := send (Json.url_of "R01235" 1704844800) (memory (boot Stub.db_row)) |}).
Proof.
  apply (proj1 (@error_answer_is_not_cached Stub.go Stub.json Stub.xml Stub.failing
                  bolt.no_faults "usd" Stub.jan10 true (boot Stub.db_row)
                  {| StatusCode := 500; Status := "500 Internal Server Error";
                     Body := Some (mkReader "" None) |}
                  (mkReader "" None)
                  ltac:(done) ltac:(by left) eq_refl ltac:(simpl; unfold StatusOK; lia))
           (Json.mkInfo "R01235" 1)); reflexivity.
Defined.

(** The dollar is looked up in an empty cache: of the two observations of
    the answer, the second is returned and cached. *)
Lemma fresh_lookup_caches_last_observation_witness :
  @Json.getCurrencyItemCache Stub.go Stub.json (Stub.serving Stub.usd_body) bolt.no_faults
    "usd" Stub.jan10 false (boot ∅)
  = (Ok {| Json.Name := "usd"; Json.DivOn := 1; Json.Date := "2024-01-10T00:00:00";
           Json.Curs := 91; Json.Diff := 0.5 |},
     {| cacheStorage := stored ∅ (cacheKey Stub.jan10 "usd") Stub.usd_item_text;
        memory := send (Json.url_of "R01235" 1704844800) (memory (boot ∅)) |}).
Proof.
  apply (@fresh_lookup_caches_last_observation Stub.go Stub.json
           (Stub.serving Stub.usd_body) bolt.no_faults "usd" Stub.jan10 false (boot ∅)
           (Json.mkInfo "R01235" 1) (Stub.ok_response Stub.usd_body)
           (mkReader Stub.usd_body None) Stub.usd_body
           [Stub.observation "2024-01-09T00:00:00" 90.5 (-0.25);
            Stub.observation "2024-01-10T00:00:00" 91 0.5]
           (Stub.observation "2024-01-10T00:00:00" 91 0.5) Stub.usd_item_text).
  - done.
  - by right.
  - reflexivity.
  - reflexivity.
  - reflexivity.
  - reflexivity.
  - reflexivity.
  - reflexivity.
  - vm_compute. reflexivity.
  - reflexivity.
  - vm_compute. reflexivity.
  - reflexivity.
  - reflexivity.
Defined.

(** The hryvnia is fetched: the record is named uah and divides by 10. *)
Lemma fetched_record_carries_table_divisor_witness :
  Json.Name (Json.mkData "uah" 10 "2024-01-10T00:00:00" 91 0.5) = "uah"
  /\ (("uah" = "usd" \/ "uah" = "eur")
      /\ Json.DivOn (Json.mkData "uah" 10 "2024-01-10T00:00:00" 91 0.5) = 1%float
      \/ "uah" = "uah" /\ Json.DivOn (Json.mkData "uah" 10 "2024-01-10T00:00:00" 91 0.5) = 10%float)
  /\ length (requests (send (Json.url_of "R01720" 1704844800) (memory (boot ∅))))
     = S (length (requests (memory (boot ∅))))
  /\ currenciesRate (send (Json.url_of "R01720" 1704844800) (memory (boot ∅)))
     = currenciesRate (memory (boot ∅)).
Proof.
  apply (@fetched_record_carries_table_divisor Stub.go Stub.json
           (Stub.serving Stub.usd_body) "uah" Stub.jan10 (memory (boot ∅))).
  left. vm_compute. reflexivity.
Defined.

(** The only observation of the answer is dated 10.01.2024 in the output
    format: the entry is committed, then rendering panics. *)
Lemma unreadable_date_crashes_the_run_witness :
  let env := Stub.env_of (Stub.serving Fixture.odd_date_body) in
  @Json.main Stub.go Fixture.json (Stub.json_flags "usd" false) env ∅
  = {| exit_code := 2; stdout := None; logged := None;
       final := {| cacheStorage := stored ∅ (cacheKey Stub.jan10 "usd") Fixture.odd_date_text;
                   memory := send (Json.url_of "R01235" 1704844800) (memory (boot ∅)) |} |}.
Proof.
  cbv zeta.
  apply (proj1 (@unreadable_date_crashes_the_run Stub.go Fixture.json
                  (Stub.env_of (Stub.serving Fixture.odd_date_body)) ∅ [] "usd" []
                  eq_refl eq_refl)
           (Stub.json_flags "usd" false) [] (boot ∅) Fixture.odd_date_item _
           ("parsing time " +:+ Stub.quote "10.01.2024" +:+ " (outside the stub)")).
  - reflexivity.
  - reflexivity.
  - vm_compute. reflexivity.
  - vm_compute. reflexivity.
Defined.

(** ** The XML bulletin *)

Section Bulletin.
Context {G : GoLibs} {L : Xml.Libs}.

Lemma fill_app t good : forall rest rates,
  Xml.fill t (good ++ rest) rates =
  match Xml.fill t good rates with
  | (Ok _, rates1) => Xml.fill t rest rates1
  | failed => failed
  end.
Proof.
  induction good as [|v good IH]; intros rest rates; simpl; [done |].
  destruct (Xml.getRow (Xml.set_Date t v)); [apply IH | done ..].
Qed.

Lemma fill_all_parse t vals : forall rates,
  Forall (fun val => is_Ok (Xml.getRow (Xml.set_Date t val)) = true) vals ->
  exists rates', Xml.fill t vals rates = (Ok tt, rates').
Proof.
  induction vals as [|v vals IH]; intros rates Hall; simpl; [by eexists |].
  inversion Hall as [|? ? Hv Hrest]; subst.
  destruct (Xml.getRow (Xml.set_Date t v)); [by apply IH | done ..].
Qed.

(** After the loop went through, a key holds the row of the last entry
    with that code, or what it held before when there is none. *)
Lemma fill_lookup t vals : forall rates rates' k,
  Xml.fill t vals rates = (Ok tt, rates') ->
  rates' !! k = match latest k vals with
                | Some v => row_of t v
                | None => rates !! k
                end.
Proof.
  induction vals as [|v vals IH]; intros rates rates' k; simpl.
  - by intros [= <-].
  - destruct (Xml.getRow (Xml.set_Date t v)) as [row | e | p] eqn:Hrow; [| done ..].
    intros Hfill. rewrite (IH _ _ k Hfill).
    destruct (latest k vals); [done |].
    case_decide as Hk.
    + subst k. rewrite lookup_insert_eq. unfold row_of. by rewrite Hrow.
    + by rewrite lookup_insert_ne.
Qed.

(** X11. With [currenciesRate] empty and a bulletin that decodes and
    whose entries all parse, [getCurrencyRate] sends one request and
    returns the row of the last entry of the bulletin whose code is the
    name asked for up to case; the row is dated with the date asked for,
    not with the date the bulletin states. When no entry has that code it
    fails with "cannot get currency rate", the request having been sent. *)
Theorem rate_is_the_last_matching_entry (do : Client) (name : string) (t : Time)
    (m : mem) (v : Xml.ValCurs) :
  currenciesRate m = ∅ ->
  http_NewRequest (Xml.url_of t) = None ->
  Xml.fetch_bulletin do (length (requests m)) (Xml.url_of t) = Ok v ->
  Forall (fun val => is_Ok (Xml.getRow (Xml.set_Date t val)) = true) (Xml.Valutes v) ->
  exists rates,
    Xml.getCurrencyRate do name t m
    = (match latest (ToLower name) (Xml.Valutes v) with
       | Some val => Xml.getRow (Xml.set_Date t val)
       | None => Err ("cannot get currency rate for '" +:+ name +:+ "'")
       end,
       {| currenciesRate := rates; requests := (requests m ++ [Xml.url_of t])%list |})
    /\ (forall k, rates !! k = latest k (Xml.Valutes v) ≫= row_of t)
    /\ (forall row, latest (ToLower name) (Xml.Valutes v) ≫= row_of t = Some row ->
          row !! 0%nat = Some (Format_output t)).
Proof.
  intros Hempty Hreq Hfetch Hall.
  destruct (fill_all_parse t (Xml.Valutes v) ∅ Hall) as [rates Hfill].
  exists rates.
  assert (Hlook : forall k, rates !! k = latest k (Xml.Valutes v) ≫= row_of t).
  { intros k. rewrite (fill_lookup _ _ _ _ k Hfill), lookup_empty.
    by destruct (latest k (Xml.Valutes v)). }
  split; [| split; [done |]].
  - unfold Xml.getCurrencyRate, Xml.getCurrencyRates.
    rewrite Hempty, map_size_empty. simpl. rewrite Hreq, Hfetch, Hempty, Hfill.
    res_simpl. rewrite Hlook.
    destruct (latest (ToLower name) (Xml.Valutes v)) as [val |] eqn:Hval; simpl; [| done].
    unfold row_of.
    assert (is_Ok (Xml.getRow (Xml.set_Date t val)) = true) as Hok.
    { clear -Hall Hval. induction (Xml.Valutes v) as [|x l IH]; [done |].
      inversion Hall as [|? ? Hx Hl]; subst. simpl in Hval.
      destruct (latest (ToLower name) l) eqn:Hl'.
      - injection Hval as ->. by apply IH.
      - case_decide; [by injection Hval as <- | done]. }
    by destruct (Xml.getRow (Xml.set_Date t val)).
  - intros row. destruct (latest (ToLower name) (Xml.Valutes v)) as [val |]; [| done].
    simpl. unfold row_of.
    destruct (Xml.getRow (Xml.set_Date t val)) as [row' | |] eqn:Hrow; [| done ..].
    intros [= <-]. destruct (Valute_getRow_fields _ _ Hrow) as (x & _ & ->). done.
Qed.

(** X12. [getCurrencyRates] does not undo a bulletin it could not finish:
    when an entry does not parse it fails with that error, but the rows of
    the entries before it stay in [currenciesRate]; the map being then
    non-empty, every later call returns it as a success, without a
    request. *)
Theorem unfinished_bulletin_is_kept (do : Client) (t : Time) (m : mem) (v : Xml.ValCurs)
    (good : list Xml.Valute) (bad : Xml.Valute) (rest : list Xml.Valute) (e : error) :
  currenciesRate m = ∅ ->
  http_NewRequest (Xml.url_of t) = None ->
  Xml.fetch_bulletin do (length (requests m)) (Xml.url_of t) = Ok v ->
  Xml.Valutes v = (good ++ bad :: rest)%list ->
  good <> [] ->
  Forall (fun val => is_Ok (Xml.getRow (Xml.set_Date t val)) = true) good ->
  Xml.getRow (Xml.set_Date t bad) = Err e ->
  exists m1,
    Xml.getCurrencyRates do t m = (Err e, m1)
    /\ requests m1 = (requests m ++ [Xml.url_of t])%list
    /\ (forall k, currenciesRate m1 !! k = latest k good ≫= row_of t)
    /\ forall do' t', Xml.getCurrencyRates do' t' m1 = (Ok (currenciesRate m1), m1).
Proof.
  intros Hempty Hreq Hfetch Hvals Hgood Hall Hbad.
  destruct (fill_all_parse t good ∅ Hall) as [rates Hfill].
  exists {| currenciesRate := rates; requests := (requests m ++ [Xml.url_of t])%list |}.
  assert (rates <> ∅) as Hne.
  { destruct good as [|g good]; [done |]. simpl in Hfill.
    destruct (Xml.getRow (Xml.set_Date t g)); [| done ..].
    eapply fill_rates; [exact Hfill | apply insert_non_empty]. }
  split; [| split; [done | split]].
  - unfold Xml.getCurrencyRates. rewrite Hempty, map_size_empty. simpl.
    rewrite Hreq, Hfetch, Hvals, Hempty, fill_app, Hfill. simpl. by rewrite Hbad.
  - intros k. simpl. rewrite (fill_lookup _ _ _ _ k Hfill), lookup_empty.
    by destruct (latest k good).
  - intros do' t'. unfold Xml.getCurrencyRates. simpl.
    destruct (0 <? size rates)%nat eqn:Hsize; [done |].
    apply Nat.ltb_ge in Hsize. exfalso. apply Hne, map_size_empty_iff. lia.
Qed.

(** X13. [Valute.getRow] does not refuse an entry quoted per zero units:
    when the value parses the row is returned, its rate field being the
    rendering of an infinity or of a NaN. *)
Theorem zero_nominal_is_rendered (v : Xml.Valute) (x : float) :
  Xml.Nominal v = 0 ->
  ParseFloat (Replace_comma_dot (Xml.Value v)) = Ok x ->
  exists q,
    Xml.getRow v = Ok [Format_output (Xml.Date v); ToUpper (Xml.CharCode v); Sprintf_2f q]
    /\ match Prim2SF q with
       | S754_infinity _ | S754_nan => True
       | _ => False
       end.
Proof.
  intros Hnom Hparse. exists (x / float64_of_int 0)%float. split.
  - unfold Xml.getRow. by rewrite Hparse, Hnom.
  - rewrite FloatAxioms.div_spec.
    replace (Prim2SF (float64_of_int 0)) with (S754_zero false) by (by vm_compute).
    unfold FloatAxioms.SF64div, SFdiv. by destruct (Prim2SF x).
Qed.
End Bulletin.

Lemma rate_is_the_last_matching_entry_witness :
  exists rates,
    @Xml.getCurrencyRate Stub.go Fixture.xml (Stub.serving Fixture.odd_bulletin_text) "USD"
      Stub.jan10 {| currenciesRate := ∅; requests := [] |}
    = (Ok ["10.01.2024"; "USD"; "91.00"],
       {| currenciesRate := rates; requests := [Xml.url_of Stub.jan10] |})
    /\ rates !! "usd" = Some ["10.01.2024"; "USD"; "91.00"]
    /\ rates !! "uah" = None.
Proof.
  destruct (@rate_is_the_last_matching_entry Stub.go Fixture.xml
              (Stub.serving Fixture.odd_bulletin_text) "USD" Stub.jan10
              {| currenciesRate := ∅; requests := [] |} Fixture.odd_bulletin
              eq_refl eq_refl eq_refl
              ltac:(repeat constructor))
    as (rates & Hrate & Hmap & _).
  exists rates. split; [exact Hrate | split].
  - exact (Hmap "usd").
  - exact (Hmap "uah").
Defined.

Lemma unfinished_bulletin_is_kept_witness :
  exists m1,
    @Xml.getCurrencyRates Stub.go Fixture.xml (Stub.serving Fixture.broken_bulletin_text)
      Stub.jan10 {| currenciesRate := ∅; requests := [] |}
    = (Err ("strconv.ParseFloat: parsing " +:+ Stub.quote "n/a" +:+ ": invalid syntax"), m1)
    /\ currenciesRate m1 !! "usd" = Some ["10.01.2024"; "USD"; "91.00"]
    /\ currenciesRate m1 !! "uah" = None
    /\ @Xml.getCurrencyRates Stub.go Fixture.xml Stub.unreachable Stub.jan10 m1
       = (Ok (currenciesRate m1), m1).
Proof.
  destruct (@unfinished_bulletin_is_kept Stub.go Fixture.xml
              (Stub.serving Fixture.broken_bulletin_text) Stub.jan10
              {| currenciesRate := ∅; requests := [] |} Fixture.broken_bulletin
              [Stub.valute "R01235" 840 "USD" 1 "US Dollar" "91,0000"]
              (Stub.valute "R01720" 980 "UAH" 10 "Hryvnia" "n/a") []
              ("strconv.ParseFloat: parsing " +:+ Stub.quote "n/a" +:+ ": invalid syntax")
              eq_refl eq_refl eq_refl eq_refl
              ltac:(discriminate) ltac:(repeat constructor) eq_refl)
    as (m1 & Hfail & _ & Hmap & Hlater).
  exists m1. split; [exact Hfail | split; [| split]].
  - exact (Hmap "usd").
  - exact (Hmap "uah").
  - exact (Hlater Stub.unreachable Stub.jan10).
Defined.

Lemma zero_nominal_is_rendered_witness :
  exists q,
    @Xml.getRow Stub.go (Stub.valute "R00000" 0 "XXX" 0 "None" "1,0000")
    = Ok ["01.01.0001"; "XXX"; @Sprintf_2f Stub.go q]
    /\ match Prim2SF q with
       | S754_infinity _ | S754_nan => True
       | _ => False
       end.
Proof.
  exact (@zero_nominal_is_rendered Stub.go
           (Stub.valute "R00000" 0 "XXX" 0 "None" "1,0000") 1%float eq_refl eq_refl).
Defined.

(** ** Whole runs *)

Lemma Split_comma_length (s : string) : (length (Split_comma s) =? 0)%nat = false.
Proof.
  destruct s as [|c s]; simpl; [done |].
  destruct (Ascii.eqb c ","); [done |]. by destruct (Split_comma s).
Qed.

Section LookupAndStore.
Context {R : Type}.
Variable provider : string -> Time -> mem -> result R * mem.
Variable json_Marshal : R -> result string.
Variable json_Unmarshal : string -> result R.

Local Abbreviation lookup := (getCurrencyItemCache provider json_Marshal json_Unmarshal).

(** Outside its key a lookup changes nothing. *)
Lemma lookup_frame flt name t skip w bucket key :
  bucket <> "cache" \/ key <> cacheKey t name ->
  bolt.Get (cacheStorage (lookup flt name t skip w).2) bucket key
  = bolt.Get (cacheStorage w) bucket key.
Proof.
  intros Hother.
  pose proof (lookup_store provider json_Marshal json_Unmarshal flt name t skip w) as Hst.
  destruct (getCurrencyItemCache _ _ _ _ _ _ _ _) as [r w']. simpl.
  destruct Hst as [-> | (v & val & _ & _ & _ & ->)]; [done |].
  destruct (decide (bucket = "cache")) as [-> | Hb].
  - destruct Hother as [? | Hk]; [done |]. by apply Get_stored_ne.
  - unfold bolt.Get. by rewrite stored_other_bucket.
Qed.

(** An entry is never removed, and without bypass never changed. *)
Lemma lookup_keeps flt name t skip w bucket key val :
  bolt.Get (cacheStorage w) bucket key = Some val ->
  is_Some (bolt.Get (cacheStorage (lookup flt name t skip w).2) bucket key)
  /\ (skip = false ->
      bolt.Get (cacheStorage (lookup flt name t skip w).2) bucket key = Some val).
Proof.
  intros Hget.
  destruct (decide (bucket = "cache" /\ key = cacheKey t name)) as [[-> ->] | Hother].
  - pose proof (lookup_store provider json_Marshal json_Unmarshal flt name t skip w) as Hst.
    pose proof (lookup_unfold provider json_Marshal json_Unmarshal flt name t skip w) as Hun.
    destruct (getCurrencyItemCache _ _ _ _ _ _ _ _) as [r w']. simpl. split.
    + destruct Hst as [-> | (v & val' & _ & _ & _ & ->)]; [by rewrite Hget |].
      by rewrite Get_stored.
    + intros ->. rewrite Hget in Hun.
      destruct (bolt.Begin_err flt); [by injection Hun as _ -> |].
      destruct (bolt.CreateBucket_err flt); by injection Hun as _ ->.
  - rewrite lookup_frame, Hget; [done |].
    destruct (decide (bucket = "cache")); [right | left]; naive_solver.
Qed.

(** After a lookup that returned a value the key holds an entry: the one
    that was decoded, or the encoding of what was fetched. *)
Lemma lookup_entry flt name t skip w r w' :
  lookup flt name t skip w = (Ok r, w') ->
  exists val, bolt.Get (cacheStorage w') "cache" (cacheKey t name) = Some val
    /\ (json_Unmarshal val = Ok r
        \/ (if skip then None else bolt.Get (cacheStorage w) "cache" (cacheKey t name)) = None
           /\ json_Marshal r = Ok val).
Proof.
  rewrite lookup_unfold.
  destruct (bolt.Begin_err flt); [done |].
  destruct (bolt.CreateBucket_err flt); [done |].
  destruct (if skip then None else _) as [val |] eqn:Hget.
  - intros [= Hdec <-]. exists val. simpl. split; [| by left].
    destruct skip; [done | exact Hget].
  - destruct (provider name t (memory w)) as [[v | e | p] m']; res_simpl; [| done ..].
    destruct (json_Marshal v) as [val | e | p] eqn:Hval; res_simpl; [| done ..].
    unfold bolt.fail_or, bolt.Commit. destruct (bolt.Put_err flt); res_simpl; [done |].
    unfold bolt.fail_or. destruct (bolt.Commit_err flt); res_simpl; [done |].
    intros [= <- <-]. exists val. simpl. rewrite Get_stored. split; [done | by right].
Qed.

Lemma lookup_hit flt name t w val r :
  tx_opens flt ->
  bolt.Get (cacheStorage w) "cache" (cacheKey t name) = Some val ->
  json_Unmarshal val = Ok r ->
  lookup flt name t false w = (Ok r, w).
Proof.
  intros [Hb Hc] Hget Hdec. rewrite lookup_unfold, Hb, Hc, Hget, Hdec. by destruct w.
Qed.
End LookupAndStore.

Section Runs.
Context {G : GoLibs} {LJ : Json.Libs} {LX : Xml.Libs}.

(** *** What a run leaves in the cache file *)

Lemma Json_loop_frame env skip cs : forall i rows w bucket key,
  bucket <> "cache" \/ key ∉ run_keys env i cs ->
  bolt.Get (cacheStorage (Json.loop env skip i cs rows w).2) bucket key
  = bolt.Get (cacheStorage w) bucket key.
Proof.
  induction cs as [|c cs IH]; intros i rows w bucket key Hother; simpl; [done |].
  assert (bucket <> "cache" \/ key <> cacheKey (Now env i) c) as Hhere.
  { destruct Hother as [? | Hk]; [by left | right]. intros ->. apply Hk. simpl. left. }
  assert (bucket <> "cache" \/ key ∉ run_keys env (S i) cs) as Hrest.
  { destruct Hother as [? | Hk]; [by left | right]. intros ?. apply Hk. simpl. by right. }
  pose proof (lookup_frame (Json.getCurrencyItem (client env)) Json.json_Marshal
                Json.json_Unmarshal (faults_at env i) c (Now env i) skip w bucket key Hhere)
    as Hf.
  unfold Json.getCurrencyItemCache.
  destruct (getCurrencyItemCache _ _ _ _ _ _ _ _) as [r w1]. simpl in Hf.
  destruct (r ≫= Json.getRow); simpl; [| done ..]. by rewrite IH.
Qed.

Lemma Json_loop_keeps env skip cs : forall i rows w bucket key val,
  bolt.Get (cacheStorage w) bucket key = Some val ->
  is_Some (bolt.Get (cacheStorage (Json.loop env skip i cs rows w).2) bucket key)
  /\ (skip = false ->
      bolt.Get (cacheStorage (Json.loop env skip i cs rows w).2) bucket key = Some val).
Proof.
  induction cs as [|c cs IH]; intros i rows w bucket key val Hget; simpl;
    [by rewrite Hget |].
  pose proof (lookup_keeps (Json.getCurrencyItem (client env)) Json.json_Marshal
                Json.json_Unmarshal (faults_at env i) c (Now env i) skip w bucket key val Hget)
    as [[val1 Hsome] Hsame].
  unfold Json.getCurrencyItemCache.
  destruct (getCurrencyItemCache _ _ _ _ _ _ _ _) as [r w1]. simpl in Hsome, Hsame.
  destruct (r ≫= Json.getRow); simpl; [| by split; [rewrite Hsome |] ..].
  split.
  - by apply (IH _ _ _ _ _ _ Hsome).
  - intros Hskip. by apply (IH _ _ _ _ _ _ (Hsame Hskip)).
Qed.

Lemma Xml_loop_frame env skip date cs : forall i rows w bucket key,
  bucket <> "cache" \/ key ∉ map (cacheKey date) cs ->
  bolt.Get (cacheStorage (Xml.loop env skip date i cs rows w).2) bucket key
  = bolt.Get (cacheStorage w) bucket key.
Proof.
  induction cs as [|c cs IH]; intros i rows w bucket key Hother; simpl; [done |].
  assert (bucket <> "cache" \/ key <> cacheKey date c) as Hhere.
  { destruct Hother as [? | Hk]; [by left | right]. intros ->. apply Hk. simpl. left. }
  assert (bucket <> "cache" \/ key ∉ map (cacheKey date) cs) as Hrest.
  { destruct Hother as [? | Hk]; [by left | right]. intros ?. apply Hk. simpl. by right. }
  pose proof (lookup_frame (Xml.getCurrencyRate (client env)) Xml.json_Marshal
                Xml.json_Unmarshal (faults_at env i) c date skip w bucket key Hhere) as Hf.
  unfold Xml.getCurrencyItemCache.
  destruct (getCurrencyItemCache _ _ _ _ _ _ _ _) as [[row | e | p] w1]; simpl in Hf;
    simpl; [| done ..].
  by rewrite IH.
Qed.

Lemma Xml_loop_keeps env skip date cs : forall i rows w bucket key val,
  bolt.Get (cacheStorage w) bucket key = Some val ->
  is_Some (bolt.Get (cacheStorage (Xml.loop env skip date i cs rows w).2) bucket key)
  /\ (skip = false ->
      bolt.Get (cacheStorage (Xml.loop env skip date i cs rows w).2) bucket key = Some val).
Proof.
  induction cs as [|c cs IH]; intros i rows w bucket key val Hget; simpl;
    [by rewrite Hget |].
  pose proof (lookup_keeps (Xml.getCurrencyRate (client env)) Xml.json_Marshal
                Xml.json_Unmarshal (faults_at env i) c date skip w bucket key val Hget)
    as [[val1 Hsome] Hsame].
  unfold Xml.getCurrencyItemCache.
  destruct (getCurrencyItemCache _ _ _ _ _ _ _ _) as [[row | e | p] w1];
    simpl in Hsome, Hsame; simpl; [| by split; [rewrite Hsome |] ..].
  split.
  - by apply (IH _ _ _ _ _ _ Hsome).
  - intros Hskip. by apply (IH _ _ _ _ _ _ (Hsame Hskip)).
Qed.

(** The store a run of the JSON program ends with is the one its loop
    ends with, or the one it started with. *)
Lemma Json_main_store f env db :
  cacheStorage (final (Json.main f env db)) = db
  \/ cacheStorage (final (Json.main f env db))
     = cacheStorage (Json.loop env (Json.skipCache f) 0 (Json.currenciesList f) [] (boot db)).2.
Proof.
  unfold Json.main. cbv zeta.
  destruct (MkdirAll_err env); [by left |].
  destruct (Open_err env); [by left |]. right.
  destruct (Json.loop _ _ _ _ _ _) as [[rows | e | p] w']; [| done ..].
  unfold write_and_exit. by destruct (WriteAll_err env).
Qed.

Lemma Xml_main_store f env db :
  cacheStorage (final (Xml.main f env db)) = db
  \/ cacheStorage (final (Xml.main f env db))
     = cacheStorage (Xml.loop env (Xml.skipCache f) (Xml.time_Add (Now env 0) (Xml.offset f))
                       0 (Split_comma (Xml.currency f)) [] (boot db)).2.
Proof.
  unfold Xml.main. cbv zeta.
  destruct (MkdirAll_err env); [by left |].
  destruct (Open_err env); [by left |].
  rewrite Split_comma_length. right.
  destruct (Xml.loop _ _ _ _ _ _ _) as [[rows | e | p] w']; [| done ..].
  unfold write_and_exit. by destruct (WriteAll_err env).
Qed.

(** X14. Whatever a run of the cached programs does and however it ends,
    the cache file differs from the one it started with at most under the
    keys of the requested currencies in the bucket "cache"; no entry is
    ever removed; and without -skip-cache no existing entry is changed:
    an entry, once written, is served for its key for good. *)
Theorem run_never_drops_an_entry (env : Env) (db : bolt.DB) (bucket key : string) :
  (forall f,
      (bucket <> "cache" \/ key ∉ run_keys env 0 (Json.currenciesList f) ->
       bolt.Get (cacheStorage (final (Json.main f env db))) bucket key
       = bolt.Get db bucket key)
      /\ (forall val, bolt.Get db bucket key = Some val ->
            is_Some (bolt.Get (cacheStorage (final (Json.main f env db))) bucket key)
            /\ (Json.skipCache f = false ->
                bolt.Get (cacheStorage (final (Json.main f env db))) bucket key = Some val)))
  /\ (forall f,
      (bucket <> "cache"
       \/ key ∉ map (cacheKey (Xml.time_Add (Now env 0) (Xml.offset f)))
                  (Split_comma (Xml.currency f)) ->
       bolt.Get (cacheStorage (final (Xml.main f env db))) bucket key
       = bolt.Get db bucket key)
      /\ (forall val, bolt.Get db bucket key = Some val ->
            is_Some (bolt.Get (cacheStorage (final (Xml.main f env db))) bucket key)
            /\ (Xml.skipCache f = false ->
                bolt.Get (cacheStorage (final (Xml.main f env db))) bucket key = Some val))).
Proof.
  split; intros f.
  - destruct (Json_main_store f env db) as [-> | ->].
    + split; [done |]. intros val ->. by split.
    + split.
      * intros Hother. by apply (Json_loop_frame _ _ _ _ _ (boot db)).
      * intros val Hget. by apply (Json_loop_keeps _ _ _ _ _ (boot db)).
  - destruct (Xml_main_store f env db) as [-> | ->].
    + split; [done |]. intros val ->. by split.
    + split.
      * intros Hother. by apply (Xml_loop_frame _ _ _ _ _ _ (boot db)).
      * intros val Hget. by apply (Xml_loop_keeps _ _ _ _ _ _ (boot db)).
Qed.

(** *** Requests and rows *)

Lemma getCurrencyItem_sends do name t m :
  (length (requests (Json.getCurrencyItem do name t m).2) <= S (length (requests m)))%nat
  /\ (is_Ok (Json.getCurrencyItem do name t m).1 = true ->
      length (requests (Json.getCurrencyItem do name t m).2) = S (length (requests m))).
Proof.
  unfold Json.getCurrencyItem.
  destruct (Json.currenciesInfo !! name); [| simpl; split; [lia | done]]. cbv zeta.
  destruct (http_NewRequest _); simpl; [split; [lia | done] |].
  rewrite length_app. simpl. split; [lia | intros _; lia].
Qed.

Lemma Json_lookup_sends do flt name t skip w :
  (length (requests (memory (Json.getCurrencyItemCache do flt name t skip w).2))
   <= S (length (requests (memory w))))%nat.
Proof.
  unfold Json.getCurrencyItemCache. rewrite lookup_unfold.
  destruct (bolt.Begin_err flt); [simpl; lia |].
  destruct (bolt.CreateBucket_err flt); [simpl; lia |].
  destruct (if skip then None else _); [simpl; lia |].
  pose proof (proj1 (getCurrencyItem_sends do name t (memory w))) as Hle.
  destruct (Json.getCurrencyItem do name t (memory w)) as [fetched m']. simpl in Hle.
  by destruct (_ ≫= _) as [[r db'] | e | p].
Qed.

Lemma Json_loop_sends env skip cs : forall i rows w,
  (length (requests (memory (Json.loop env skip i cs rows w).2))
   <= length (requests (memory w)) + length cs)%nat.
Proof.
  induction cs as [|c cs IH]; intros i rows w; simpl; [lia |].
  pose proof (Json_lookup_sends (client env) (faults_at env i) c (Now env i) skip w) as Hle.
  destruct (Json.getCurrencyItemCache _ _ _ _ _ _) as [r w1]. simpl in Hle.
  destruct (r ≫= Json.getRow) as [row | e | p]; simpl; [| lia ..].
  specialize (IH (S i) (rows ++ [row])%list w1). lia.
Qed.

Lemma Plain_loop_sends env cs : forall i rows m,
  (length (requests (Plain.loop env i cs rows m).2) <= length (requests m) + length cs)%nat
  /\ (is_Ok (Plain.loop env i cs rows m).1 = true ->
      length (requests (Plain.loop env i cs rows m).2)
      = (length (requests m) + length cs)%nat).
Proof.
  induction cs as [|c cs IH]; intros i rows m; simpl; [split; [lia | intros _; lia] |].
  change (Plain.getCurrencyItem (client env) c (Now env i) m)
    with (Json.getCurrencyItem (client env) c (Now env i) m).
  pose proof (getCurrencyItem_sends (client env) c (Now env i) m) as [Hle Heq].
  destruct (Json.getCurrencyItem _ _ _ _) as [r m1]. simpl in Hle, Heq.
  destruct r as [r | e | p]; res_simpl; [| by split; [simpl; lia |] ..].
  destruct (Json.getRow r) as [row | e | p]; [| by split; [simpl; lia |] ..].
  destruct (IH (S i) (rows ++ [row])%list m1) as [Hle' Heq']. split; [lia |].
  intros Hok. rewrite (Heq' Hok), (Heq eq_refl). lia.
Qed.

Lemma getRow_shape r row :
  Json.getRow r = Ok row -> length row = 4%nat /\ row !! 1%nat = Some (ToUpper (Json.Name r)).
Proof.
  unfold Json.getRow. destruct (Json.getDate r); res_simpl; [| done ..].
  by intros [= <-].
Qed.

Lemma Json_loop_shape env skip cs : forall i rows w rows' w',
  Json.loop env skip i cs rows w = (Ok rows', w') ->
  exists added, rows' = (rows ++ added)%list /\ length added = length cs
    /\ Forall (fun row => length row = 4%nat) added.
Proof.
  induction cs as [|c cs IH]; intros i rows w rows' w'; simpl.
  - intros [= <- _]. exists []. by rewrite app_nil_r.
  - destruct (Json.getCurrencyItemCache _ _ _ _ _ _) as [[r | e | p] w1]; res_simpl; [| done ..].
    destruct (Json.getRow r) as [row | e | p] eqn:Hrow; [| done ..].
    intros Hloop. destruct (IH _ _ _ _ _ Hloop) as (added & -> & Hlen & Hall).
    exists (row :: added). rewrite <- app_assoc. split; [done |]. simpl.
    split; [by rewrite Hlen |]. constructor; [by apply (getRow_shape r)| done].
Qed.

Lemma Plain_loop_shape env cs : forall i rows m rows' m',
  Plain.loop env i cs rows m = (Ok rows', m') ->
  exists added, rows' = (rows ++ added)%list
    /\ Forall2 (fun c row => length row = 4%nat /\ row !! 1%nat = Some (ToUpper c)) cs added.
Proof.
  induction cs as [|c cs IH]; intros i rows m rows' m'; simpl.
  - intros [= <- _]. exists []. by rewrite app_nil_r.
  - change (Plain.getCurrencyItem (client env) c (Now env i) m)
      with (Json.getCurrencyItem (client env) c (Now env i) m).
    destruct (Json.getCurrencyItem _ _ _ _) as [[r | e | p] m1] eqn:Hitem; res_simpl;
      [| done ..].
    destruct (Json.getRow r) as [row | e | p] eqn:Hrow; [| done ..].
    intros Hloop. destruct (IH _ _ _ _ _ Hloop) as (added & -> & Hall).
    exists (row :: added). rewrite <- app_assoc. split; [done |].
    constructor; [| done].
    destruct (getCurrencyItem_record _ _ _ _ _ _ Hitem)
      as (info & res & body & bytes & data & d & _ & _ & _ & _ & _ & _ & Hr).
    destruct (getRow_shape _ _ Hrow) as [Hlen Hname]. split; [done |].
    rewrite Hname, Hr. done.
Qed.

Lemma Xml_loop_shape env skip date cs : forall i rows w rows' w',
  Xml.loop env skip date i cs rows w = (Ok rows', w') ->
  length rows' = (length rows + length cs)%nat.
Proof.
  induction cs as [|c cs IH]; intros i rows w rows' w'; simpl.
  - intros [= <- _]. lia.
  - destruct (Xml.getCurrencyItemCache _ _ _ _ _ _) as [[row | e | p] w1]; [| done ..].
    intros Hloop. rewrite (IH _ _ _ _ _ Hloop), length_app. simpl. lia.
Qed.

(** X15. The programs that ask the JSON endpoint send at most one request
    per requested currency in a run, however it ends; the program without
    cache sends exactly one per currency whenever it prints. *)
Theorem one_request_per_currency_at_most (f : Json.Flags) (env : Env) (db : bolt.DB) :
  (length (requests (memory (final (Json.main f env db))))
   <= length (Json.currenciesList f))%nat
  /\ (length (requests (memory (final (Plain.main f env db))))
      <= length (Json.currenciesList f))%nat
  /\ (is_Some (stdout (Plain.main f env db)) ->
      length (requests (memory (final (Plain.main f env db))))
      = length (Json.currenciesList f)).
Proof.
  split; [| split].
  - unfold Json.main. cbv zeta.
    destruct (MkdirAll_err env); [simpl; lia |].
    destruct (Open_err env); [simpl; lia |].
    pose proof (Json_loop_sends env (Json.skipCache f) (Json.currenciesList f) 0 []
                  (boot db)) as Hle.
    destruct (Json.loop _ _ _ _ _ _) as [[rows | e | p] w'];
      [unfold write_and_exit; destruct (WriteAll_err env) | ..]; exact Hle.
  - unfold Plain.main. cbv zeta.
    pose proof (proj1 (Plain_loop_sends env (Json.currenciesList f) 0 []
                         (memory (boot db)))) as Hle.
    destruct (Plain.loop _ _ _ _ _) as [[rows | e | p] m'];
      [unfold write_and_exit; destruct (WriteAll_err env) | ..]; exact Hle.
  - unfold Plain.main. cbv zeta.
    pose proof (proj2 (Plain_loop_sends env (Json.currenciesList f) 0 []
                         (memory (boot db)))) as Heq.
    destruct (Plain.loop _ _ _ _ _) as [[rows | e | p] m'];
      [| by intros [? ?] ..].
    intros _. unfold write_and_exit. destruct (WriteAll_err env); exact (Heq eq_refl).
Qed.

(** X16. What a run hands to the CSV writer is complete: one row per
    requested currency, never a part of them. The rows of the JSON
    programs have four fields; those of the program without cache come in
    the order of the request, each with the upper-cased name asked for in
    its second field. *)
Theorem printed_rows_are_complete (f : Json.Flags) (fx : Xml.Flags) (env : Env)
    (db : bolt.DB) (rows : list (list string)) :
  (stdout (Json.main f env db) = Some rows ->
     length rows = length (Json.currenciesList f)
     /\ Forall (fun row => length row = 4%nat) rows)
  /\ (stdout (Plain.main f env db) = Some rows ->
     Forall2 (fun c row => length row = 4%nat /\ row !! 1%nat = Some (ToUpper c))
       (Json.currenciesList f) rows)
  /\ (stdout (Xml.main fx env db) = Some rows ->
     length rows = length (Split_comma (Xml.currency fx))).
Proof.
  split; [| split].
  - unfold Json.main. cbv zeta.
    destruct (MkdirAll_err env); [done |]. destruct (Open_err env); [done |].
    destruct (Json.loop _ _ _ _ _ _) as [[rows' | e | p] w'] eqn:Hloop; [| done ..].
    destruct (Json_loop_shape _ _ _ _ _ _ _ _ Hloop) as (added & -> & Hlen & Hall).
    unfold write_and_exit. by destruct (WriteAll_err env); intros [= <-].
  - unfold Plain.main. cbv zeta.
    destruct (Plain.loop _ _ _ _ _) as [[rows' | e | p] m'] eqn:Hloop; [| done ..].
    destruct (Plain_loop_shape _ _ _ _ _ _ _ Hloop) as (added & -> & Hall).
    unfold write_and_exit. by destruct (WriteAll_err env); intros [= <-].
  - unfold Xml.main. cbv zeta.
    destruct (MkdirAll_err env); [done |]. destruct (Open_err env); [done |].
    rewrite Split_comma_length.
    destruct (Xml.loop _ _ _ _ _ _ _) as [[rows' | e | p] w'] eqn:Hloop; [| done ..].
    apply Xml_loop_shape in Hloop. simpl in Hloop.
    unfold write_and_exit. by destruct (WriteAll_err env); intros [= <-].
Qed.

(** *** Runs on a warm cache *)

Lemma run_keys_same_date env env2 cs : forall i,
  (forall j, same_date (Now env2 j) (Now env j)) ->
  run_keys env2 i cs = run_keys env i cs.
Proof.
  induction cs as [|c cs IH]; intros i Hsame; simpl; [done |].
  by rewrite (cacheKey_same_date _ _ c (Hsame i)), IH.
Qed.

Lemma Json_loop_warm env cs : forall i rows w added,
  (forall j, (i <= j < i + length cs)%nat -> tx_opens (faults_at env j)) ->
  Forall2 (Json_entry (cacheStorage w)) (run_keys env i cs) added ->
  Json.loop env false i cs rows w = (Ok (rows ++ added)%list, w).
Proof.
  induction cs as [|c cs IH]; intros i rows w added Hopen Hall; simpl in *.
  - inversion Hall; subst. by rewrite app_nil_r.
  - inversion Hall as [|key row keys added' (val & r & Hget & Hdec & Hrow) Hrest]; subst.
    unfold Json.getCurrencyItemCache.
    rewrite (lookup_hit _ _ _ _ _ _ _ val r (Hopen i ltac:(lia)) Hget Hdec).
    res_simpl. rewrite Hrow, (IH _ _ _ added'); [by rewrite <- app_assoc | | done].
    intros j Hj. apply Hopen. lia.
Qed.

Lemma Xml_loop_warm env date cs : forall i rows w added,
  (forall j, (i <= j < i + length cs)%nat -> tx_opens (faults_at env j)) ->
  Forall2 (Xml_entry (cacheStorage w)) (map (cacheKey date) cs) added ->
  Xml.loop env false date i cs rows w = (Ok (rows ++ added)%list, w).
Proof.
  induction cs as [|c cs IH]; intros i rows w added Hopen Hall; simpl in *.
  - inversion Hall; subst. by rewrite app_nil_r.
  - inversion Hall as [|key row keys added' (val & Hget & Hdec) Hrest]; subst.
    unfold Xml.getCurrencyItemCache.
    rewrite (lookup_hit _ _ _ _ _ _ _ val row (Hopen i ltac:(lia)) Hget Hdec).
    rewrite (IH _ _ _ added'); [by rewrite <- app_assoc | | done].
    intros j Hj. apply Hopen. lia.
Qed.

Lemma Json_main_warm f env db rows :
  MkdirAll_err env = None ->
  Open_err env = None ->
  Json.skipCache f = false ->
  (forall i, (i < length (Json.currenciesList f))%nat -> tx_opens (faults_at env i)) ->
  Forall2 (Json_entry db) (run_keys env 0 (Json.currenciesList f)) rows ->
  Json.main f env db = write_and_exit env rows (boot db).
Proof.
  intros Hmk Hopen Hskip Htx Hall. unfold Json.main. cbv zeta.
  rewrite Hmk, Hopen, Hskip, (Json_loop_warm _ _ _ _ _ rows); [done | | done].
  intros j Hj. apply Htx. lia.
Qed.

Lemma Xml_main_warm f env db rows :
  MkdirAll_err env = None ->
  Open_err env = None ->
  Xml.skipCache f = false ->
  (forall i, (i < length (Split_comma (Xml.currency f)))%nat -> tx_opens (faults_at env i)) ->
  Forall2 (Xml_entry db)
    (map (cacheKey (Xml.time_Add (Now env 0) (Xml.offset f))) (Split_comma (Xml.currency f)))
    rows ->
  Xml.main f env db = write_and_exit env rows (boot db).
Proof.
  intros Hmk Hopen Hskip Htx Hall. unfold Xml.main. cbv zeta.
  rewrite Hmk, Hopen, Hskip, Split_comma_length, (Xml_loop_warm _ _ _ _ _ _ rows);
    [done | | done].
  intros j Hj. apply Htx. lia.
Qed.

(** X17. A run without -skip-cache whose requested keys all hold entries
    that decode (and, in the JSON program, render) is offline: it sends no
    request, writes nothing to the cache file and hands the decoded rows
    to the CSV writer, in the order of the request, whatever the state of
    the remote service. *)
Theorem warm_cache_run_is_offline (env : Env) (db : bolt.DB) (rows : list (list string)) :
  MkdirAll_err env = None ->
  Open_err env = None ->
  (forall f,
      Json.skipCache f = false ->
      (forall i, (i < length (Json.currenciesList f))%nat -> tx_opens (faults_at env i)) ->
      Forall2 (Json_entry db) (run_keys env 0 (Json.currenciesList f)) rows ->
      Json.main f env db
      = {| exit_code := match WriteAll_err env with Some _ => 1 | None => 0 end; stdout := Some rows;
           logged := WriteAll_err env;
           final := {| cacheStorage := db;
                       memory := {| currenciesRate := ∅; requests := [] |} |} |})
  /\ (forall f,
      Xml.skipCache f = false ->
      (forall i, (i < length (Split_comma (Xml.currency f)))%nat ->
                 tx_opens (faults_at env i)) ->
      Forall2 (Xml_entry db)
        (map (cacheKey (Xml.time_Add (Now env 0) (Xml.offset f)))
           (Split_comma (Xml.currency f))) rows ->
      Xml.main f env db
      = {| exit_code := match WriteAll_err env with Some _ => 1 | None => 0 end; stdout := Some rows;
           logged := WriteAll_err env;
           final := {| cacheStorage := db;
                       memory := {| currenciesRate := ∅; requests := [] |} |} |}).
Proof.
  intros Hmk Hopen. split; intros f Hskip Htx Hall.
  - rewrite (Json_main_warm f env db rows); try done.
    unfold write_and_exit. by destruct (WriteAll_err env).
  - rewrite (Xml_main_warm f env db rows); try done.
    unfold write_and_exit. by destruct (WriteAll_err env).
Qed.

(** *** The entries a run leaves *)

Lemma Json_run_reads_back_all env skip cs : forall i w,
  (forall v, Json_reads_back v) -> Json_run_reads_back env skip i cs w.
Proof.
  induction cs as [|c cs IH]; intros i w Hall; simpl; [done |].
  destruct (Json.getCurrencyItemCache _ _ _ _ _ _) as [[v | e | p] w1]; [| done ..].
  split; [intros _; apply Hall | by apply IH].
Qed.

Lemma Xml_run_reads_back_all env skip date cs : forall i w,
  (forall row, Xml_reads_back row) -> Xml_run_reads_back env skip date i cs w.
Proof.
  induction cs as [|c cs IH]; intros i w Hall; simpl; [done |].
  destruct (Xml.getCurrencyItemCache _ _ _ _ _ _) as [[row | e | p] w1]; [| done ..].
  split; [intros _; apply Hall | by apply IH].
Qed.

Lemma Json_loop_entries env skip cs : forall i rows w rows' w',
  Json_run_reads_back env skip i cs w ->
  skip = false \/ NoDup (run_keys env i cs) ->
  Json.loop env skip i cs rows w = (Ok rows', w') ->
  exists added, rows' = (rows ++ added)%list
    /\ Forall2 (Json_entry (cacheStorage w')) (run_keys env i cs) added.
Proof.
  induction cs as [|c cs IH]; intros i rows w rows' w' Hround Hdist; simpl in *.
  - intros [= <- _]. exists []. by rewrite app_nil_r.
  - destruct (Json.getCurrencyItemCache _ _ _ _ _ _) as [[r | e | p] w1] eqn:Hlook;
      res_simpl; [| done ..].
    destruct Hround as [Hhere Hround].
    destruct (Json.getRow r) as [row | e | p] eqn:Hrow; [| done ..].
    intros Hloop.
    assert (skip = false \/ NoDup (run_keys env (S i) cs)) as Hdist'.
    { destruct Hdist as [? | Hnd]; [by left | right]. simpl in Hnd.
      by apply NoDup_cons in Hnd as [_ ?]. }
    destruct (IH _ _ _ _ _ Hround Hdist' Hloop) as (added & -> & Hall).
    exists (row :: added). rewrite <- app_assoc. split; [done |].
    constructor; [| done].
    apply lookup_entry in Hlook as (val & Hget & Hval).
    exists val, r.
    split; [| split; [by destruct Hval as [? | [Hmiss ?]]; [| apply (Hhere Hmiss)] | done]].
    replace w' with (Json.loop env skip (S i) cs (rows ++ [row])%list w1).2
      by (by rewrite Hloop).
    destruct Hdist as [-> | Hnd].
    + by apply Json_loop_keeps.
    + rewrite Json_loop_frame; [done |]. right. simpl in Hnd.
      by apply NoDup_cons in Hnd as [? _].
Qed.

Lemma Xml_loop_entries env skip date cs : forall i rows w rows' w',
  Xml_run_reads_back env skip date i cs w ->
  skip = false \/ NoDup (map (cacheKey date) cs) ->
  Xml.loop env skip date i cs rows w = (Ok rows', w') ->
  exists added, rows' = (rows ++ added)%list
    /\ Forall2 (Xml_entry (cacheStorage w')) (map (cacheKey date) cs) added.
Proof.
  induction cs as [|c cs IH]; intros i rows w rows' w' Hround Hdist; simpl in *.
  - intros [= <- _]. exists []. by rewrite app_nil_r.
  - destruct (Xml.getCurrencyItemCache _ _ _ _ _ _) as [[row | e | p] w1] eqn:Hlook;
      [| done ..].
    destruct Hround as [Hhere Hround].
    intros Hloop.
    assert (skip = false \/ NoDup (map (cacheKey date) cs)) as Hdist'.
    { destruct Hdist as [? | Hnd]; [by left | right]. simpl in Hnd.
      by apply NoDup_cons in Hnd as [_ ?]. }
    destruct (IH _ _ _ _ _ Hround Hdist' Hloop) as (added & -> & Hall).
    exists (row :: added). rewrite <- app_assoc. split; [done |].
    constructor; [| done].
    apply lookup_entry in Hlook as (val & Hget & Hval).
    exists val. split; [| by destruct Hval as [? | [Hmiss ?]]; [| apply (Hhere Hmiss)]].
    replace w' with (Xml.loop env skip date (S i) cs (rows ++ [row])%list w1).2
      by (by rewrite Hloop).
    destruct Hdist as [-> | Hnd].
    + by apply Xml_loop_keeps.
    + rewrite Xml_loop_frame; [done |]. right. simpl in Hnd.
      by apply NoDup_cons in Hnd as [? _].
Qed.

(** X18. A run that printed its rows has left the cache file such that a
    second run for the same currencies on the same dates, without
    -skip-cache, prints the same rows without a request and without a
    write, whatever the remote service would answer now. The codec is
    assumed to read back what it wrote for each value that a lookup of
    the first run fetched, and for no other value; and when the first run
    bypassed the cache its keys must be distinct (a key asked for twice is
    then fetched twice, and only the second answer stays in the file). *)
Theorem second_run_is_served_from_cache (env env2 : Env) (db : bolt.DB)
    (rows : list (list string)) :
  MkdirAll_err env2 = None ->
  Open_err env2 = None ->
  (forall f f2,
      Json_run_reads_back env (Json.skipCache f) 0 (Json.currenciesList f) (boot db) ->
      Json.skipCache f = false \/ NoDup (run_keys env 0 (Json.currenciesList f)) ->
      stdout (Json.main f env db) = Some rows ->
      Json.skipCache f2 = false ->
      Json.currenciesList f2 = Json.currenciesList f ->
      (forall i, same_date (Now env2 i) (Now env i)) ->
      (forall i, (i < length (Json.currenciesList f))%nat -> tx_opens (faults_at env2 i)) ->
      Json.main f2 env2 (cacheStorage (final (Json.main f env db)))
      = write_and_exit env2 rows (boot (cacheStorage (final (Json.main f env db)))))
  /\ (forall f f2,
      Xml_run_reads_back env (Xml.skipCache f) (Xml.time_Add (Now env 0) (Xml.offset f)) 0
        (Split_comma (Xml.currency f)) (boot db) ->
      Xml.skipCache f = false
      \/ NoDup (map (cacheKey (Xml.time_Add (Now env 0) (Xml.offset f)))
                  (Split_comma (Xml.currency f))) ->
      stdout (Xml.main f env db) = Some rows ->
      Xml.skipCache f2 = false ->
      Xml.currency f2 = Xml.currency f ->
      same_date (Xml.time_Add (Now env2 0) (Xml.offset f2))
        (Xml.time_Add (Now env 0) (Xml.offset f)) ->
      (forall i, (i < length (Split_comma (Xml.currency f)))%nat ->
                 tx_opens (faults_at env2 i)) ->
      Xml.main f2 env2 (cacheStorage (final (Xml.main f env db)))
      = write_and_exit env2 rows (boot (cacheStorage (final (Xml.main f env db))))).
Proof.
  intros Hmk2 Hopen2. split.
  - intros f f2 Hround Hdist Hout Hskip2 Hlist Hdates Htx.
    apply Json_main_warm; try done; [by rewrite Hlist |].
    rewrite Hlist, (run_keys_same_date env env2) by done.
    revert Hout. unfold Json.main. cbv zeta.
    destruct (MkdirAll_err env); [done |]. destruct (Open_err env); [done |].
    destruct (Json.loop _ _ _ _ _ _) as [[rows' | e | p] w'] eqn:Hloop; [| done ..].
    destruct (Json_loop_entries _ _ _ _ _ _ _ _ Hround Hdist Hloop) as (added & -> & Hall).
    unfold write_and_exit. by destruct (WriteAll_err env); intros [= <-].
  - intros f f2 Hround Hdist Hout Hskip2 Hlist Hdates Htx.
    apply Xml_main_warm; try done; [by rewrite Hlist |].
    rewrite Hlist.
    replace (map (cacheKey (Xml.time_Add (Now env2 0) (Xml.offset f2)))
               (Split_comma (Xml.currency f)))
      with (map (cacheKey (Xml.time_Add (Now env 0) (Xml.offset f)))
              (Split_comma (Xml.currency f)))
      by (apply map_ext; intros c; symmetry; by apply cacheKey_same_date).
    revert Hout. unfold Xml.main. cbv zeta.
    destruct (MkdirAll_err env); [done |]. destruct (Open_err env); [done |].
    rewrite Split_comma_length.
    destruct (Xml.loop _ _ _ _ _ _ _) as [[rows' | e | p] w'] eqn:Hloop; [| done ..].
    destruct (Xml_loop_entries _ _ _ _ _ _ _ _ _ Hround Hdist Hloop) as (added & -> & Hall).
    unfold write_and_exit. by destruct (WriteAll_err env); intros [= <-].
Qed.
End Runs.

(** ** The stubs read back what they write *)

Lemma float_eqb_finite (x y : float) s m e :
  Prim2SF y = S754_finite s m e -> (x =? y)%float = true -> x = y.
Proof.
  intros Hy Heq. rewrite FloatAxioms.eqb_spec, Hy in Heq.
  apply FloatAxioms.Prim2SF_inj. rewrite Hy.
  unfold SFeqb, SFcompare in Heq.
  destruct (Prim2SF x) as [s' | s' | | s' m' e']; try discriminate.
  - destruct s; discriminate.
  - destruct s', s; discriminate.
  - destruct s', s; try discriminate.
    + destruct (e' ?= e)%Z eqn:He; try discriminate. apply Z.compare_eq in He.
      destruct (PosDef.Pos.compare_cont Eq m' m) eqn:Hm; try discriminate.
      apply Pos.compare_eq in Hm. by subst.
    + destruct (e' ?= e)%Z eqn:He; try discriminate. apply Z.compare_eq in He.
      destruct (PosDef.Pos.compare_cont Eq m' m) eqn:Hm; try discriminate.
      apply Pos.compare_eq in Hm. by subst.
Qed.

Lemma data_eqb_finite (r d : Json.currencyData) s1 m1 e1 s2 m2 e2 s3 m3 e3 :
  Prim2SF (Json.DivOn d) = S754_finite s1 m1 e1 ->
  Prim2SF (Json.Curs d) = S754_finite s2 m2 e2 ->
  Prim2SF (Json.Diff d) = S754_finite s3 m3 e3 ->
  Stub.data_eqb r d = true -> r = d.
Proof.
  intros H1 H2 H3. unfold Stub.data_eqb. rewrite !andb_true_iff.
  intros [[[[Hn Hd] Ht] Hc] Hf].
  apply String.eqb_eq in Hn, Ht.
  apply (float_eqb_finite _ _ _ _ _ H1) in Hd.
  apply (float_eqb_finite _ _ _ _ _ H2) in Hc.
  apply (float_eqb_finite _ _ _ _ _ H3) in Hf.
  destruct r, d; simpl in *; by subst.
Qed.

Lemma Stub_json_reads_back (r : Json.currencyData) : @Json_reads_back Stub.json r.
Proof.
  intros val. simpl. unfold Stub.marshal_item.
  destruct (Stub.data_eqb r Stub.usd_item) eqn:Hfirst.
  - intros [= <-].
    by rewrite (data_eqb_finite r Stub.usd_item _ _ _ _ _ _ _ _ _ eq_refl eq_refl eq_refl Hfirst).
  - destruct (Stub.data_eqb r Stub.usd_item_later) eqn:Hlater; [| done].
    intros [= <-].
    by rewrite (data_eqb_finite r Stub.usd_item_later _ _ _ _ _ _ _ _ _
                  eq_refl eq_refl eq_refl Hlater).
Qed.

Lemma plain_byte_not_quote (c : ascii) :
  Stub.plain_byte c = true -> Ascii.eqb c (ascii_of_N 34) = false.
Proof.
  intros Hplain. apply Ascii.eqb_neq. intros ->. by vm_compute in Hplain.
Qed.

Lemma read_string_quoted (s rest : string) :
  all_bytes Stub.plain_byte s = true ->
  Stub.read_string (s +:+ Stub.dq +:+ rest) = Some (s, rest).
Proof.
  induction s as [|c s IH]; intros Hplain.
  - unfold Stub.dq. app_simpl. simpl. by rewrite ?Ascii.eqb_refl.
  - simpl in Hplain. apply andb_true_iff in Hplain as [Hc Hs].
    app_simpl. cbn [Stub.read_string]. by rewrite (plain_byte_not_quote c Hc), Hc, (IH Hs).
Qed.

Lemma read_elems_join (row : list string) : forall fuel,
  row <> [] ->
  forallb (all_bytes Stub.plain_byte) row = true ->
  (length row <= fuel)%nat ->
  Stub.read_elems fuel (Stub.join "," (map Stub.quote row) +:+ "]") = Some row.
Proof.
  induction row as [|x row IH]; intros fuel Hne Hplain Hfuel; [done |].
  simpl in Hplain. apply andb_true_iff in Hplain as [Hx Hrow].
  destruct fuel as [|fuel]; [simpl in Hfuel; lia |].
  destruct row as [|y row].
  - change (Stub.join "," (map Stub.quote [x])) with (Stub.quote x).
    unfold Stub.quote. rewrite !append_assoc. unfold Stub.dq at 1. app_simpl.
    cbn [Stub.read_elems]. by rewrite ?Ascii.eqb_refl, read_string_quoted.
  - change (Stub.join "," (map Stub.quote (x :: y :: row)))
      with (Stub.quote x +:+ "," +:+ Stub.join "," (map Stub.quote (y :: row))).
    unfold Stub.quote at 1. rewrite !append_assoc. unfold Stub.dq at 1. app_simpl.
    cbn [Stub.read_elems]. rewrite ?Ascii.eqb_refl, read_string_quoted by done.
    app_simpl. cbn [Stub.read_elems].
    rewrite IH; [done | done | done | simpl in *; lia].
Qed.

Lemma join_length (row : list string) :
  (length row <= String.length (Stub.join "," (map Stub.quote row) +:+ "]"))%nat.
Proof.
  induction row as [|x row IH]; [simpl; lia |].
  destruct row as [|y row].
  - simpl. rewrite length_append. simpl. lia.
  - change (Stub.join "," (map Stub.quote (x :: y :: row)))
      with (Stub.quote x +:+ "," +:+ Stub.join "," (map Stub.quote (y :: row))).
    rewrite !append_assoc, !length_append in *. simpl in *. lia.
Qed.

Lemma Stub_xml_reads_back (row : list string) : @Xml_reads_back Stub.xml row.
Proof.
  intros val. simpl. unfold Stub.marshal_row.
  destruct (forallb (all_bytes Stub.plain_byte) row) eqn:Hplain; [| done].
  intros [= <-]. destruct row as [|x row]; [done |].
  unfold Stub.unmarshal_row. app_simpl.
  rewrite (read_elems_join (x :: row)); [| done | done | apply join_length].
  destruct row; unfold Stub.join, map, Stub.quote at 1, Stub.dq at 1; fold Stub.join;
    rewrite ?append_assoc; app_simpl; done.
Qed.

(** ** The date of the bulletin *)

Lemma wrap64_mul (a b : Z) : Xml.wrap64 (Xml.wrap64 a * b) = Xml.wrap64 (a * b).
Proof.
  unfold Xml.wrap64. f_equal.
  rewrite (Z.mod_eq (a + 2 ^ 63) (2 ^ 64)) by lia.
  replace ((a + 2 ^ 63 - 2 ^ 64 * ((a + 2 ^ 63) / 2 ^ 64) - 2 ^ 63) * b + 2 ^ 63)
    with (a * b + 2 ^ 63 + (- ((a + 2 ^ 63) / 2 ^ 64) * b) * 2 ^ 64) by lia.
  by rewrite Z.mod_add.
Qed.

(** X19. The duration handed to [time.Add] is the number of days asked for,
    counted backwards, exactly when that number is within 106751 days
    either way; beyond, the multiplication by 24 hours overflows the 64
    bits of [time.Duration] without a check, and another date is asked
    for. Multiplying by 24 and then by an hour, each product cut to 64
    bits, gives the same duration. *)
Theorem days_before_is_honoured_in_range (f : Xml.Flags) :
  (Xml.offset f = - Xml.daysBefore f * (24 * 3600000000000)
   <-> -106751 <= Xml.daysBefore f <= 106751)
  /\ Xml.wrap64 (Xml.wrap64 (Xml.wrap64 (- Xml.daysBefore f) * 24) * 3600000000000)
     = Xml.offset f.
Proof.
  split.
  - unfold Xml.offset, Xml.wrap64. split.
    + intros Heq.
      pose proof (Z.mod_pos_bound
                    (((- Xml.daysBefore f + 2 ^ 63) mod 2 ^ 64 - 2 ^ 63)
                     * (24 * 3600000000000) + 2 ^ 63) (2 ^ 64) ltac:(lia)) as Hb.
      lia.
    + intros Hrange.
      rewrite (Z.mod_small (- Xml.daysBefore f + 2 ^ 63)) by lia.
      rewrite Z.mod_small by lia. lia.
  - unfold Xml.offset. by rewrite !wrap64_mul, <- Z.mul_assoc, wrap64_mul.
Qed.

(** ** The requests *)

Lemma appendInt_inj (x x' : Z) (w w' : nat) : appendInt x w = appendInt x' w' -> x = x'.
Proof.
  intros Heq.
  assert (appendInt x w +:+ String "/" "" = appendInt x' w' +:+ String "/" "") as Hsep
    by (by rewrite Heq).
  by apply appendInt_sep_inj in Hsep as [? _].
Qed.

Lemma Format_xml_inj (t1 t2 : Time) : Format_xml t1 = Format_xml t2 -> same_date t1 t2.
Proof.
  unfold Format_xml. rewrite ?append_assoc. app_simpl. intros Heq.
  apply appendInt_sep_inj in Heq as [Hd Heq]; [| done].
  apply appendInt_sep_inj in Heq as [Hm Heq]; [| done].
  apply appendInt_inj in Heq. by repeat split.
Qed.

(** X20. In the XML program two lookups of a currency share a cache entry
    exactly when they would ask the service for the same bulletin: the key
    and the URL both depend on the calendar day and on nothing else of the
    time. In the JSON program the URL carries the second of the lookup, so
    lookups that share a key ask with different URLs unless made in the same
    second. *)
Theorem key_and_request_agree_on_the_day (t1 t2 : Time) (name code : string) :
  (Xml.url_of t1 = Xml.url_of t2 <-> cacheKey t1 name = cacheKey t2 name)
  /\ (cacheKey t1 name = cacheKey t2 name <-> same_date t1 t2)
  /\ (Json.url_of code (Unix t1) = Json.url_of code (Unix t2) <-> Unix t1 = Unix t2).
Proof.
  assert (Hkey : cacheKey t1 name = cacheKey t2 name <-> same_date t1 t2).
  { split; [intros Heq; by apply cacheKey_inj in Heq as [? _] | apply cacheKey_same_date]. }
  split; [| split; [done |]].
  - rewrite Hkey. split.
    + unfold Xml.url_of. app_simpl. intros [= Heq]. by apply Format_xml_inj.
    + intros (Hd & Hm & Hy). unfold Xml.url_of, Format_xml. by rewrite Hd, Hm, Hy.
  - split; [| by intros ->].
    unfold Json.url_of. app_simpl. intros [= Heq]. revert Heq.
    induction code as [|c code IH]; app_simpl.
    + intros [= Heq]. by apply appendInt_inj in Heq.
    + intros [= Heq]. by apply IH.
Qed.

(** ** The properties of whole runs, on the stubs *)

(** A bypassing run for the dollar leaves the row of the hryvnia alone. *)
Lemma run_never_drops_an_entry_witness :
  bolt.Get (cacheStorage (final (@Xml.main Stub.go Stub.xml (Stub.xml_flags "usd" true)
                                   (Stub.env_of (Stub.serving Stub.bulletin_later_text))
                                   Fixture.db_two_rows)))
    "cache" (cacheKey Stub.jan10 "uah")
  = bolt.Get Fixture.db_two_rows "cache" (cacheKey Stub.jan10 "uah").
Proof.
  apply (proj1 (proj2 (@run_never_drops_an_entry Stub.go Stub.json Stub.xml
                         (Stub.env_of (Stub.serving Stub.bulletin_later_text))
                         Fixture.db_two_rows "cache" (cacheKey Stub.jan10 "uah"))
                  (Stub.xml_flags "usd" true))).
  right. intros Hin. apply list_elem_of_In in Hin. vm_compute in Hin.
  destruct Hin as [Heq | []]. discriminate Heq.
Defined.

(** The program without cache prints the dollar after one request. *)
Lemma one_request_per_currency_at_most_witness :
  length (requests (memory (final (@Plain.main Stub.go Stub.json (Stub.json_flags "usd" false)
                                     (Stub.env_of (Stub.serving Stub.usd_body)) ∅))))
  = length (Json.currenciesList (Stub.json_flags "usd" false)).
Proof.
  apply (proj2 (proj2 (@one_request_per_currency_at_most Stub.go Stub.json
                         (Stub.json_flags "usd" false)
                         (Stub.env_of (Stub.serving Stub.usd_body)) ∅))).
  exists [["10.01.2024"; "USD"; "91.00"; "0.50"]]. vm_compute. reflexivity.
Defined.

Lemma printed_rows_are_complete_witness :
  Forall2 (fun c row => length row = 4%nat /\ row !! 1%nat = Some (@ToUpper Stub.go c))
    (Json.currenciesList (Stub.json_flags "usd" false))
    [["10.01.2024"; "USD"; "91.00"; "0.50"]].
Proof.
  apply (proj1 (proj2 (@printed_rows_are_complete Stub.go Stub.json Stub.xml
                         (Stub.json_flags "usd" false) (Stub.xml_flags "usd" false)
                         (Stub.env_of (Stub.serving Stub.usd_body)) ∅
                         [["10.01.2024"; "USD"; "91.00"; "0.50"]]))).
  vm_compute. reflexivity.
Defined.

(** The rows of the dollar and of the hryvnia are in the cache file and the
    service is out of reach. *)
Lemma warm_cache_run_is_offline_witness :
  @Xml.main Stub.go Stub.xml (Stub.xml_flags "usd,uah" false) (Stub.env_of Stub.unreachable)
    Fixture.db_two_rows
  = {| exit_code := 0;
       stdout := Some [["10.01.2024"; "USD"; "91.00"]; ["10.01.2024"; "UAH"; "2.55"]];
       logged := None;
       final := {| cacheStorage := Fixture.db_two_rows;
                   memory := {| currenciesRate := ∅; requests := [] |} |} |}.
Proof.
  apply (proj2 (@warm_cache_run_is_offline Stub.go Stub.json Stub.xml
                  (Stub.env_of Stub.unreachable) Fixture.db_two_rows
                  [["10.01.2024"; "USD"; "91.00"]; ["10.01.2024"; "UAH"; "2.55"]]
                  eq_refl eq_refl)
           (Stub.xml_flags "usd,uah" false) eq_refl).
  - intros i _. split; reflexivity.
  - change (map (cacheKey (@Xml.time_Add Stub.xml (Now (Stub.env_of Stub.unreachable) 0)
                             (Xml.offset (Stub.xml_flags "usd,uah" false))))
              (Split_comma (Xml.currency (Stub.xml_flags "usd,uah" false))))
      with [cacheKey Stub.jan10 "usd"; cacheKey Stub.jan10 "uah"].
    constructor; [| constructor; [| constructor]].
    + eexists. split; vm_compute; reflexivity.
    + eexists. split; vm_compute; reflexivity.
Defined.

(** A first run fetches the dollar, and the rows of the bulletin; second
    runs, the service out of reach, print the same. *)
Lemma second_run_is_served_from_cache_witness :
  @Json.main Stub.go Stub.json (Stub.json_flags "usd" false) (Stub.env_of Stub.unreachable)
    Stub.json_after_A
  = write_and_exit (Stub.env_of Stub.unreachable) [["10.01.2024"; "USD"; "91.00"; "0.50"]]
      (boot Stub.json_after_A)
  /\ @Xml.main Stub.go Stub.xml (Stub.xml_flags "usd,uah" false) (Stub.env_of Stub.unreachable)
       (cacheStorage (final (@Xml.main Stub.go Stub.xml (Stub.xml_flags "usd,uah" true)
                               (Stub.env_of (Stub.serving Stub.bulletin_text)) ∅)))
     = write_and_exit (Stub.env_of Stub.unreachable)
         [["10.01.2024"; "USD"; "91.00"]; ["10.01.2024"; "UAH"; "2.55"]]
         (boot (cacheStorage (final (@Xml.main Stub.go Stub.xml (Stub.xml_flags "usd,uah" true)
                                       (Stub.env_of (Stub.serving Stub.bulletin_text)) ∅)))).
Proof.
  split.
  - apply (proj1 (@second_run_is_served_from_cache Stub.go Stub.json Stub.xml
                    (Stub.env_of (Stub.serving Stub.usd_body)) (Stub.env_of Stub.unreachable)
                    ∅ [["10.01.2024"; "USD"; "91.00"; "0.50"]] eq_refl eq_refl)
             (Stub.json_flags "usd" false) (Stub.json_flags "usd" false)
             (Json_run_reads_back_all _ _ _ _ _ Stub_json_reads_back) (or_introl eq_refl)).
    + vm_compute. reflexivity.
    + reflexivity.
    + reflexivity.
    + intros i. repeat split.
    + intros i _. split; reflexivity.
  - apply (proj2 (@second_run_is_served_from_cache Stub.go Stub.json Stub.xml
                    (Stub.env_of (Stub.serving Stub.bulletin_text))
                    (Stub.env_of Stub.unreachable) ∅
                    [["10.01.2024"; "USD"; "91.00"]; ["10.01.2024"; "UAH"; "2.55"]]
                    eq_refl eq_refl)
             (Stub.xml_flags "usd,uah" true) (Stub.xml_flags "usd,uah" false)
             (Xml_run_reads_back_all _ _ _ _ _ _ Stub_xml_reads_back)).
    + right.
      change (NoDup [cacheKey Stub.jan10 "usd"; cacheKey Stub.jan10 "uah"]).
      apply NoDup_cons. split; [| apply NoDup_singleton].
      intros Hin. apply list_elem_of_In in Hin. vm_compute in Hin.
      destruct Hin as [Heq | []]. discriminate Heq.
    + vm_compute. reflexivity.
    + reflexivity.
    + reflexivity.
    + repeat split.
    + intros i _. split; reflexivity.
Defined.

(** * The scenarios of the specification, run on the stubs *)

Module Scenario.
Import Stub.

(** A: the dollar of 10.01.2024 at 91.00, divisor 1. *)
Example A_xml :
  let run := Xml.main (xml_flags "usd" false) (env_of (serving bulletin_text)) ∅ in
  exit_code run = 0 /\ stdout run = Some [["10.01.2024"; "USD"; "91.00"]].
Proof. by vm_compute. Qed.

Example A_json :
  let run := Json.main (json_flags "usd" false) (env_of (serving usd_body)) ∅ in
  exit_code run = 0 /\ stdout run = Some [["10.01.2024"; "USD"; "91.00"; "0.50"]].
Proof. by vm_compute. Qed.

(** B: the same key again, the service out of reach: the row comes from
    the cache and nothing is requested. *)
Example B_xml :
  let run := Xml.main (xml_flags "usd" false) (env_of unreachable) xml_after_A in
  exit_code run = 0 /\ stdout run = Some [["10.01.2024"; "USD"; "91.00"]]
  /\ requests (memory (final run)) = [].
Proof. by vm_compute. Qed.

Example B_json :
  let run := Json.main (json_flags "usd" false) (env_of unreachable) json_after_A in
  exit_code run = 0 /\ stdout run = Some [["10.01.2024"; "USD"; "91.00"; "0.50"]]
  /\ requests (memory (final run)) = [].
Proof. by vm_compute. Qed.

(** C: the same key with bypass, the service now at 92.50: the new row is
    printed and stored. *)
Example C_xml :
  let run := Xml.main (xml_flags "usd" true) (env_of (serving bulletin_later_text)) xml_after_A in
  exit_code run = 0 /\ stdout run = Some [["10.01.2024"; "USD"; "92.50"]]
  /\ bolt.Get (cacheStorage (final run)) "cache" usd_key
     = Some ("[" +:+ join "," (map quote ["10.01.2024"; "USD"; "92.50"]) +:+ "]").
Proof. by vm_compute. Qed.

Example C_json :
  let run := Json.main (json_flags "usd" true) (env_of (serving usd_body_later)) json_after_A in
  exit_code run = 0 /\ stdout run = Some [["10.01.2024"; "USD"; "92.50"; "2.00"]]
  /\ bolt.Get (cacheStorage (final run)) "cache" usd_key = Some usd_item_later_text.
Proof. by vm_compute. Qed.

(** D: an unknown currency: the run is fatal and no entry is created. *)
Example D_xml :
  let run := Xml.main (xml_flags "xyz" false) (env_of (serving bulletin_text)) ∅ in
  exit_code run = 1 /\ stdout run = None
  /\ logged run = Some "cannot get currency rate for 'xyz'"
  /\ cacheStorage (final run) = ∅.
Proof. by vm_compute. Qed.

Example D_json :
  let run := Json.main (json_flags "xyz" false) (env_of (serving usd_body)) ∅ in
  exit_code run = 1 /\ stdout run = None
  /\ logged run = Some "invalid currency name: xyz"
  /\ cacheStorage (final run) = ∅ /\ requests (memory (final run)) = [].
Proof. by vm_compute. Qed.

(** A server error is fatal as well, and is not cached. *)
Example server_error_xml :
  let run := Xml.main (xml_flags "usd" false) (env_of failing) ∅ in
  exit_code run = 1 /\ stdout run = None
  /\ logged run = Some "status code error: 500 Internal Server Error"
  /\ cacheStorage (final run) = ∅.
Proof. by vm_compute. Qed.
End Scenario.
